(** * Theme resolution and persistence in the Williams College design system

    A shallow embedding of the two [ThemeManager] classes of the repository:

    - [Bundle]: [src/dev/scripts/main.js], lines 16-152;
    - [Core]:   [src/unnamed/part_003], lines 6-320.

    Two further modules embed methods of the other classes of main.js:
    [A11y] (arrow-key navigation, focus traps, preference classes and
    live regions of [AccessibilityManager]) and [Components]
    ([activateTab] of [ComponentManager]).

    Both classes run against the same browser environment (localStorage, the
    [prefers-color-scheme] media query, the document root, the console and
    the window's event target), which is modelled once below.  The methods
    are written in a state-and-exception monad so that [try]/[catch] and
    the order of side effects read as in the JavaScript source.

    Modelling choices:

    - a JavaScript value is [undefined], [null] or a string: these are the
      values [localStorage.getItem], the [themes] array and the
      [data-theme-toggle] attributes can produce; a string is a sequence
      of code units with codes 0 to 255;
    - [localStorage] is a finite map from keys to strings together with two
      flags saying whether [getItem] and [setItem] throw;
    - listeners are not stored in the state: the [change] listener of the
      media query, the [click] listeners of the toggle buttons and the
      [setTimeout] callbacks are the handlers run by [handle], on a manager
      that has been constructed; the set of toggle buttons of a page is
      fixed;
    - [window.dispatchEvent] appends to the list of dispatched events; no
      listener of [themechange] is part of the repository;
    - [createToggleButton] of part_003 builds a detached button whose
      click handler ([created_button_listener]) calls [cycleTheme] or
      [setTheme]; on a page those calls are the events [CallCycleTheme]
      and [CallSetTheme]. *)

From Stdlib Require Import ZArith Ascii String.
From stdpp Require Import base gmap strings list fin_maps.

Open Scope string_scope.
Open Scope list_scope.

(** ** JavaScript values that reach the theme managers *)

Inductive value :=
  | Undefined
  | Null
  | Str (s : string).

#[global] Instance value_eq_dec : EqDecision value.
Proof. solve_decision. Defined.

(** [a === b] *)
Definition strict_eq (a b : value) : bool :=
  match a, b with
  | Undefined, Undefined => true
  | Null, Null => true
  | Str s, Str t => String.eqb s t
  | _, _ => false
  end.

Definition truthy (v : value) : bool :=
  match v with
  | Str s => negb (String.eqb s "")
  | _ => false
  end.

(** [a || b] *)
Definition or_else (a b : value) : value := if truthy a then a else b.

(** Conversion to a DOMString, as done by [setItem], [setAttribute] and
    template literals. *)
Definition ToString (v : value) : string :=
  match v with
  | Undefined => "undefined"
  | Null => "null"
  | Str s => s
  end.

(** Conversion to a nullable DOMString ([textContent = v]). *)
Definition ToNullableString (v : value) : string :=
  match v with
  | Str s => s
  | _ => ""
  end.

(** [l.includes(v)]; on undefined, null and strings SameValueZero is
    [===]. *)
Definition includes (l : list string) (v : value) : bool :=
  existsb (fun x => strict_eq (Str x) v) l.

Fixpoint indexOf_from (l : list string) (v : value) (i : Z) : Z :=
  match l with
  | [] => (-1)%Z
  | x :: l' => if strict_eq (Str x) v then i else indexOf_from l' v (i + 1)%Z
  end.

Definition indexOf (l : list string) (v : value) : Z := indexOf_from l v 0%Z.

(** [l[i]]: undefined outside the array. *)
Definition array_get (l : list string) (i : Z) : value :=
  if (i <? 0)%Z then Undefined
  else match l !! Z.to_nat i with
       | Some s => Str s
       | None => Undefined
       end.

Definition array_length (l : list string) : Z := Z.of_nat (length l).

(** [String.prototype.trim].  A character of a [string] stands for the
    JavaScript code unit with the same code (0 to 255); of the white
    space and line terminators that [trim] strips, the ones in that
    range are U+0009 to U+000D, U+0020 and U+00A0. *)
Definition is_space (a : ascii) : bool :=
  let n := nat_of_ascii a in
  (Nat.leb 9 n && Nat.leb n 13) || Nat.eqb n 32 || Nat.eqb n 160.

Fixpoint trim_start (s : string) : string :=
  match s with
  | String a s' => if is_space a then trim_start s' else s
  | EmptyString => EmptyString
  end.

Fixpoint trim_end (s : string) : string :=
  match s with
  | String a s' =>
      match trim_end s' with
      | EmptyString => if is_space a then EmptyString else String a EmptyString
      | t => String a t
      end
  | EmptyString => EmptyString
  end.

Definition trim (s : string) : string := trim_end (trim_start s).

(** The double quote character, for messages that contain it. *)
Definition dquote : string := String (ascii_of_nat 34) EmptyString.

(** ** The browser environment *)

Inductive exn :=
  | SecurityError
  | QuotaExceededError.

(** [window.localStorage].  [read_fault] and [write_fault] say whether
    [getItem] and [setItem] throw (storage disabled, quota exhausted). *)
Record Storage := {
  items : gmap string string;
  read_fault : option exn;
  write_fault : option exn
}.

(** A [data-theme-toggle] button.  The first four fields are what
    main.js reads and writes, the last three what part_003 does:
    [theme_text] is the text of the [data-theme-text] child when there is
    one, [theme_icons] pairs each [data-theme-icon] value with the icon's
    [style.display]. *)
Record Button := {
  themeToggle : string;
  aria_label : option string;
  textContent : string;
  has_svg : bool;
  aria_pressed : option bool;
  theme_text : option string;
  theme_icons : list (string * string)
}.

(** [document]: the root element's [data-theme] attribute, its inline
    [style.transition], its class list, the [content] of
    [<meta name="theme-color">] when that tag exists, the computed custom
    properties of the root, and the toggle buttons. *)
Record Document := {
  data_theme : option string;
  style_transition : string;
  classList : list string;
  meta_theme_color : option string;
  getPropertyValue : string -> string;
  toggles : list Button
}.

Record CustomEvent := {
  type : string;
  detail : list (string * value)
}.

Inductive console_arg :=
  | AStr (s : string)
  | AVal (v : value)
  | AExn (e : exn).

Inductive log_entry :=
  | console_warn (args : list console_arg)
  | console_log (args : list console_arg).

(** Callbacks handed to [setTimeout]. *)
Inductive task :=
  | ClearStyleTransition
  | RemoveTransitionClass.

Record World := {
  localStorage : Storage;
  prefers_dark : bool;
  document : Document;
  dispatched : list CustomEvent;
  console : list log_entry;
  timers : list task
}.

(** A manager instance [this] living in the environment [world]. *)
Record State (T : Type) := mkState {
  world : World;
  this : T
}.
Arguments mkState {T} _ _.
Arguments world {T} _.
Arguments this {T} _.

(** ** Completions and the monad of method bodies *)

Inductive completion (A : Type) :=
  | Normal (a : A)
  | Throw (e : exn).
Arguments Normal {A} _.
Arguments Throw {A} _.

Definition M (S A : Type) : Type := S -> completion A * S.

#[global] Instance M_ret {S} : MRet (M S) := fun A a s => (Normal a, s).

(** Sequencing: a [Throw] skips the rest, the state reached so far stays. *)
#[global] Instance M_bind {S} : MBind (M S) := fun A B k m s =>
  match m s with
  | (Normal a, s') => k a s'
  | (Throw e, s') => (Throw e, s')
  end.

Definition throw {S A} (e : exn) : M S A := fun s => (Throw e, s).

Definition try_catch {S A} (m : M S A) (h : exn -> M S A) : M S A :=
  fun s =>
    match m s with
    | (Normal a, s') => (Normal a, s')
    | (Throw e, s') => h e s'
    end.

Definition gets {S A} (f : S -> A) : M S A := fun s => (Normal (f s), s).

Definition modify {S} (f : S -> S) : M S unit := fun s => (Normal tt, f s).

Definition when {S} (b : bool) (m : M S unit) : M S unit :=
  if b then m else mret tt.


(** ** Environment primitives *)

(** The key-value content of localStorage. *)
Definition map_get (key : string) (m : gmap string string) : option string :=
  m !! key.

Definition map_put (key v : string) (m : gmap string string)
  : gmap string string :=
  <[key := v]> m.

Section Primitives.
Context {T : Type}.

Definition on_world (f : World -> World) : M (State T) unit :=
  modify (fun st => mkState (f (world st)) (this st)).

Definition on_document (f : Document -> Document) : M (State T) unit :=
  on_world (fun w =>
    {| localStorage := localStorage w; prefers_dark := prefers_dark w;
       document := f (document w); dispatched := dispatched w;
       console := console w; timers := timers w |}).

Definition localStorage_getItem (key : string) : M (State T) value :=
  ls ← gets (fun st => localStorage (world st));
  match read_fault ls with
  | Some e => throw e
  | None =>
      mret (match map_get key (items ls) with
           | Some s => Str s
           | None => Null
           end)
  end.

Definition localStorage_setItem (key : string) (v : value) : M (State T) unit :=
  ls ← gets (fun st => localStorage (world st));
  match write_fault ls with
  | Some e => throw e
  | None =>
      on_world (fun w =>
        {| localStorage :=
             {| items := map_put key (ToString v) (items ls);
                read_fault := read_fault ls;
                write_fault := write_fault ls |};
           prefers_dark := prefers_dark w; document := document w;
           dispatched := dispatched w; console := console w;
           timers := timers w |})
  end.

(** [window.matchMedia('(prefers-color-scheme: dark)').matches] *)
Definition media_matches : M (State T) bool :=
  gets (fun st => prefers_dark (world st)).

Definition log (e : log_entry) : M (State T) unit :=
  on_world (fun w =>
    {| localStorage := localStorage w; prefers_dark := prefers_dark w;
       document := document w; dispatched := dispatched w;
       console := console w ++ [e]; timers := timers w |}).

Definition dispatchEvent (e : CustomEvent) : M (State T) unit :=
  on_world (fun w =>
    {| localStorage := localStorage w; prefers_dark := prefers_dark w;
       document := document w; dispatched := dispatched w ++ [e];
       console := console w; timers := timers w |}).

Definition setTimeout (t : task) : M (State T) unit :=
  on_world (fun w =>
    {| localStorage := localStorage w; prefers_dark := prefers_dark w;
       document := document w; dispatched := dispatched w;
       console := console w; timers := timers w ++ [t] |}).

(** [document.documentElement.setAttribute('data-theme', v)] *)
Definition set_data_theme (v : value) : M (State T) unit :=
  on_document (fun d =>
    {| data_theme := Some (ToString v);
       style_transition := style_transition d; classList := classList d;
       meta_theme_color := meta_theme_color d;
       getPropertyValue := getPropertyValue d; toggles := toggles d |}).

Definition set_style_transition (s : string) : M (State T) unit :=
  on_document (fun d =>
    {| data_theme := data_theme d;
       style_transition := s; classList := classList d;
       meta_theme_color := meta_theme_color d;
       getPropertyValue := getPropertyValue d; toggles := toggles d |}).

Definition set_classList (f : list string -> list string) : M (State T) unit :=
  on_document (fun d =>
    {| data_theme := data_theme d;
       style_transition := style_transition d; classList := f (classList d);
       meta_theme_color := meta_theme_color d;
       getPropertyValue := getPropertyValue d; toggles := toggles d |}).

(** [document.querySelector('meta[name="theme-color"]')] followed, when
    the tag is found, by [setAttribute('content', c)]. *)
Definition set_meta_theme_color (c : Document -> string) : M (State T) unit :=
  on_document (fun d =>
    {| data_theme := data_theme d;
       style_transition := style_transition d; classList := classList d;
       meta_theme_color :=
         match meta_theme_color d with
         | Some _ => Some (c d)
         | None => None
         end;
       getPropertyValue := getPropertyValue d; toggles := toggles d |}).

(** [document.querySelectorAll('[data-theme-toggle]').forEach(f)] for an
    [f] that only touches its own button. *)
Definition forEach_toggle (f : Button -> Button) : M (State T) unit :=
  on_document (fun d =>
    {| data_theme := data_theme d;
       style_transition := style_transition d; classList := classList d;
       meta_theme_color := meta_theme_color d;
       getPropertyValue := getPropertyValue d; toggles := f <$> toggles d |}).

Definition set_this (f : T -> T) : M (State T) unit :=
  modify (fun st => mkState (world st) (f (this st))).
End Primitives.

Definition classList_add (c : string) (l : list string) : list string :=
  if existsb (String.eqb c) l then l else l ++ [c].

Definition classList_remove (c : string) (l : list string) : list string :=
  List.filter (fun x => negb (String.eqb x c)) l.

(** The environment changes the OS colour scheme. *)
Definition set_prefers_dark (b : bool) (w : World) : World :=
  {| localStorage := localStorage w; prefers_dark := b;
     document := document w; dispatched := dispatched w;
     console := console w; timers := timers w |}.

(** The environment changes the availability of localStorage. *)
Definition set_storage_faults (r wr : option exn) (w : World) : World :=
  {| localStorage :=
       {| items := items (localStorage w); read_fault := r; write_fault := wr |};
     prefers_dark := prefers_dark w;
     document := document w; dispatched := dispatched w;
     console := console w; timers := timers w |}.

Definition pop_timer (w : World) : World :=
  {| localStorage := localStorage w; prefers_dark := prefers_dark w;
     document := document w; dispatched := dispatched w;
     console := console w; timers := tail (timers w) |}.

(** The oldest pending [setTimeout] callback runs. *)
Definition run_timer {T} : M (State T) unit :=
  ts ← gets (fun st => timers (world st));
  match ts with
  | [] => mret tt
  | ClearStyleTransition :: _ =>
      on_world pop_timer;; set_style_transition ""
  | RemoveTransitionClass :: _ =>
      on_world pop_timer;; set_classList (classList_remove "theme-transitioning")
  end.

(** What the page and the environment can do to a constructed manager:
    call its public methods, click a toggle button, change the OS colour
    scheme (which fires the media query's [change] event), let a timer
    fire, or change the availability of localStorage. *)
Inductive event :=
  | CallSetTheme (v : value)
  | CallCycleTheme
  | ToggleClick (i : nat)
  | SystemChange (matches : bool)
  | TimerFires
  | StorageChange (r w : option exn).

(** ** [ThemeManager] of src/dev/scripts/main.js *)

Module Bundle.

(** [storageKey] and [themes] are assigned once in the constructor and
    [systemPreference] is the live media query list, read through
    [media_matches]; [currentTheme] is the only field that changes. *)
Record ThemeManager := { currentTheme : value }.

Definition storageKey : string := "williams-theme".
Definition themes : list string := ["light"; "dark"; "auto"].

Abbreviation Method := (M (State ThemeManager)).

Definition get_currentTheme : Method value :=
  gets (fun st => currentTheme (this st)).

Definition set_currentTheme (v : value) : Method unit :=
  set_this (fun _ => {| currentTheme := v |}).

(* main.js:46-53 *)
Definition getStoredTheme : Method value :=
  try_catch
    (v ← localStorage_getItem storageKey;
     mret (or_else v (Str "auto")))
    (fun _ =>
       log (console_warn
              [AStr "localStorage not available, defaulting to auto theme"]);;
       mret (Str "auto")).

(* main.js:55-61 *)
Definition storeTheme (theme : value) : Method unit :=
  try_catch
    (localStorage_setItem storageKey theme)
    (fun _ => log (console_warn [AStr "Could not store theme preference"])).

(* main.js:86-103 *)
Definition updateDocumentTheme (actualTheme : value) (animate : bool)
  : Method unit :=
  when animate
    (set_style_transition "background-color 300ms ease, color 300ms ease";;
     setTimeout ClearStyleTransition);;
  set_data_theme actualTheme;;
  set_meta_theme_color
    (fun _ => if strict_eq actualTheme (Str "dark") then "#09090b" else "#500082").

(** The callback of [forEach] at main.js:121-129.  Assigning
    [textContent] replaces the children of the button. *)
Definition updateToggleButtons_callback (cur : value) (b : Button) : Button :=
  {| themeToggle := themeToggle b;
     aria_label :=
       Some ("Current theme: " +:+ ToString cur +:+ ". Click to change theme.");
     textContent :=
       if negb (String.eqb (trim (textContent b)) "") && negb (has_svg b)
       then "Theme: " +:+ ToString cur
       else textContent b;
     has_svg := has_svg b;
     aria_pressed := aria_pressed b;
     theme_text :=
       if negb (String.eqb (trim (textContent b)) "") && negb (has_svg b)
       then None
       else theme_text b;
     theme_icons :=
       if negb (String.eqb (trim (textContent b)) "") && negb (has_svg b)
       then []
       else theme_icons b |}.

(* main.js:120-130 *)
Definition updateToggleButtons : Method unit :=
  cur ← get_currentTheme;
  forEach_toggle (updateToggleButtons_callback cur).

(* main.js:63-84 *)
Definition applyTheme (theme : value) (animate : bool) : Method unit :=
  theme ← (if negb (includes themes theme)
           then log (console_warn
                       [AStr ("Invalid theme: " +:+ ToString theme
                              +:+ ", defaulting to auto")]);;
                mret (Str "auto")
           else mret theme);
  set_currentTheme theme;;
  storeTheme theme;;
  actualTheme ← (if strict_eq theme (Str "auto")
                 then m ← media_matches;
                      mret (Str (if m : bool then "dark" else "light"))
                 else mret theme);
  updateDocumentTheme actualTheme animate;;
  updateToggleButtons;;
  dispatchEvent
    {| type := "themechange";
       detail := [("theme", theme); ("actualTheme", actualTheme)] |}.

(* main.js:132-136 *)
Definition cycleTheme : Method unit :=
  cur ← get_currentTheme;
  let currentIndex := indexOf themes cur in
  let nextIndex := Z.rem (currentIndex + 1) (array_length themes) in
  applyTheme (array_get themes nextIndex) true.

(* main.js:138-140 *)
Definition setTheme (theme : value) : Method unit :=
  applyTheme theme true.

(* main.js:142-144 *)
Definition getTheme : Method value := get_currentTheme.

(* main.js:146-151 *)
Definition getActualTheme : Method value :=
  cur ← get_currentTheme;
  if strict_eq cur (Str "auto")
  then m ← media_matches;
       mret (Str (if m : bool then "dark" else "light"))
  else mret cur.

(** The [change] listener registered at main.js:31-35. *)
Definition on_system_change (matches : bool) : Method unit :=
  cur ← get_currentTheme;
  when (strict_eq cur (Str "auto"))
    (updateDocumentTheme (Str (if matches then "dark" else "light")) false).

(** What the [click] listener registered at main.js:107-116 does to the
    manager and the page (main.js:109-115).  The listener as a whole,
    with its [e.preventDefault()], is [toggle_click_listener]. *)
Definition on_toggle_click (b : Button) : Method unit :=
  let mode := Str (themeToggle b) in
  if strict_eq mode (Str "cycle") then cycleTheme
  else when (includes themes mode) (applyTheme mode true).

(** The [click] listener of main.js:107-116: [e.preventDefault()]
    (main.js:108), then the rest.  The result is [e.defaultPrevented]
    when the listener returns. *)
Definition toggle_click_listener (b : Button) : Method bool :=
  defaultPrevented ← mret true;
  on_toggle_click b;;
  mret defaultPrevented.

(* main.js:26-44; the two listeners are [on_system_change] and
   [toggle_click_listener]; [handle] below runs what they do to the
   manager and the page. *)
Definition init : Method unit :=
  cur ← get_currentTheme;
  applyTheme cur false;;
  cur ← get_currentTheme;
  log (console_log [AStr "Theme Manager initialized:"; AVal cur]).

(* main.js:17-24 *)
Definition constructor : Method unit :=
  stored ← getStoredTheme;
  set_currentTheme stored;;
  init.

(** [new ThemeManager()] in the environment [w]. *)
Definition new_ThemeManager (w : World)
  : completion unit * State ThemeManager :=
  constructor (mkState w {| currentTheme := Undefined |}).

Definition handle (e : event) : Method unit :=
  match e with
  | CallSetTheme v => setTheme v
  | CallCycleTheme => cycleTheme
  | ToggleClick i =>
      bs ← gets (fun st => toggles (document (world st)));
      match bs !! i with
      | Some b => on_toggle_click b
      | None => mret tt
      end
  | SystemChange b =>
      on_world (set_prefers_dark b);; on_system_change b
  | TimerFires => run_timer
  | StorageChange r w => on_world (set_storage_faults r w)
  end.

(** States of a page on which the manager has been constructed. *)
Inductive reachable : State ThemeManager -> Prop :=
  | reachable_new w : reachable (new_ThemeManager w).2
  | reachable_handle st e : reachable st -> reachable (handle e st).2.

End Bundle.

(** ** [ThemeManager] of src/unnamed/part_003 *)

Module Core.

(** The page constructs the manager without options (part_003:325,328),
    so [options] holds the defaults of part_003:8-13, which are never
    reassigned; [mediaQuery] is the live media query list. *)
Record ThemeManager := {
  currentTheme : value;
  systemTheme : value
}.

Definition storageKey : string := "williams-theme".
Definition defaultTheme : string := "auto".
Definition themes : list string := ["light"; "dark"; "auto"].

Abbreviation Method := (M (State ThemeManager)).

Definition get_currentTheme : Method value :=
  gets (fun st => currentTheme (this st)).

Definition get_systemTheme : Method value :=
  gets (fun st => systemTheme (this st)).

Definition set_currentTheme (v : value) : Method unit :=
  set_this (fun t => {| currentTheme := v; systemTheme := systemTheme t |}).

Definition set_systemTheme (v : value) : Method unit :=
  set_this (fun t => {| currentTheme := currentTheme t; systemTheme := v |}).

(* part_003:48-55 *)
Definition getStoredTheme : Method value :=
  try_catch
    (localStorage_getItem storageKey)
    (fun e =>
       log (console_warn [AStr "Failed to access localStorage:"; AExn e]);;
       mret Null).

(* part_003:60-66 *)
Definition storeTheme (theme : value) : Method unit :=
  try_catch
    (localStorage_setItem storageKey theme)
    (fun e => log (console_warn [AStr "Failed to store theme:"; AExn e])).

(* part_003:71-73 *)
Definition detectSystemTheme : Method unit :=
  m ← media_matches;
  set_systemTheme (Str (if m : bool then "dark" else "light")).

(* part_003:200-216 *)
Definition updateToggleButton (theme : value) (b : Button) : Button :=
  {| themeToggle := themeToggle b;
     aria_label := aria_label b;
     textContent := textContent b;
     has_svg := has_svg b;
     aria_pressed := Some (strict_eq (Str (themeToggle b)) theme);
     theme_text :=
       match theme_text b with
       | Some _ => Some (ToNullableString theme)
       | None => None
       end;
     theme_icons :=
       (fun icon : string * string =>
          (icon.1, if strict_eq (Str icon.1) theme then "block" else "none"))
       <$> theme_icons b |}.

(* part_003:221-226 *)
Definition updateToggleButtons (theme : value) : Method unit :=
  forEach_toggle (updateToggleButton theme).

(* part_003:231-243 *)
Definition updateMetaThemeColor (theme : value) : Method unit :=
  set_meta_theme_color
    (fun d => if strict_eq theme (Str "dark")
              then trim (getPropertyValue d "--gray-900")
              else trim (getPropertyValue d "--williams-purple")).

(* part_003:248-258 *)
Definition dispatchThemeChangeEvent (theme appliedTheme : value)
  : Method unit :=
  sys ← get_systemTheme;
  dispatchEvent
    {| type := "themechange";
       detail := [("theme", theme); ("appliedTheme", appliedTheme);
                  ("systemTheme", sys)] |}.

(* part_003:92-130 *)
Definition applyTheme (theme : value) (animate : bool) : Method unit :=
  when animate (set_classList (classList_add "theme-transitioning"));;
  sys ← get_systemTheme;
  let actualTheme :=
    if strict_eq theme (Str "auto") then or_else sys (Str "light")
    else theme in
  set_data_theme actualTheme;;
  set_currentTheme theme;;
  storeTheme theme;;
  dispatchThemeChangeEvent theme actualTheme;;
  updateToggleButtons theme;;
  when animate (setTimeout RemoveTransitionClass);;
  updateMetaThemeColor actualTheme.

(* part_003:135-141 *)
Definition cycleTheme : Method unit :=
  cur ← get_currentTheme;
  let currentIndex := indexOf themes cur in
  let nextIndex := Z.rem (currentIndex + 1) (array_length themes) in
  let nextTheme := array_get themes nextIndex in
  applyTheme nextTheme true.

(* part_003:146-152 *)
Definition setTheme (theme : value) : Method unit :=
  if includes themes theme then applyTheme theme true
  else log (console_warn
              [AStr ("Theme " +:+ dquote +:+ ToString theme +:+ dquote
                     +:+ " is not available")]).

(* part_003:157-159 *)
Definition getTheme : Method value := get_currentTheme.

(* part_003:164-169 *)
Definition getAppliedTheme : Method value :=
  cur ← get_currentTheme;
  if strict_eq cur (Str "auto")
  then sys ← get_systemTheme; mret (or_else sys (Str "light"))
  else mret cur.

(** The [change] listener registered at part_003:79-86. *)
Definition on_system_change (matches : bool) : Method unit :=
  set_systemTheme (Str (if matches then "dark" else "light"));;
  cur ← get_currentTheme;
  when (strict_eq cur (Str "auto")) (applyTheme (Str "auto") true).

(** What the [click] listener registered at part_003:183-193 does to
    the manager and the page (part_003:186-192).  The listener as a
    whole, with its [e.preventDefault()], is [toggle_click_listener]. *)
Definition on_toggle_click (b : Button) : Method unit :=
  let targetTheme := Str (themeToggle b) in
  if strict_eq targetTheme (Str "cycle") then cycleTheme
  else when (truthy targetTheme) (setTheme targetTheme).

(** The [click] listener of part_003:183-193: [e.preventDefault()]
    (part_003:184), then the rest.  The result is [e.defaultPrevented]
    when the listener returns. *)
Definition toggle_click_listener (b : Button) : Method bool :=
  defaultPrevented ← mret true;
  on_toggle_click b;;
  mret defaultPrevented.

(* part_003:174-195; the click listeners are [toggle_click_listener]. *)
Definition setupThemeToggles : Method unit :=
  cur ← get_currentTheme;
  forEach_toggle (updateToggleButton cur).

(* part_003:26-43; the media query listener is [on_system_change]. *)
Definition init : Method unit :=
  storedTheme ← getStoredTheme;
  set_currentTheme (or_else storedTheme (Str defaultTheme));;
  cur ← get_currentTheme;
  applyTheme cur false;;
  detectSystemTheme;;
  setupThemeToggles.

(* part_003:7-21 *)
Definition constructor : Method unit :=
  set_currentTheme Null;;
  set_systemTheme Null;;
  init.

(** [new ThemeManager()] in the environment [w]. *)
Definition new_ThemeManager (w : World)
  : completion unit * State ThemeManager :=
  constructor (mkState w {| currentTheme := Undefined;
                            systemTheme := Undefined |}).

Definition handle (e : event) : Method unit :=
  match e with
  | CallSetTheme v => setTheme v
  | CallCycleTheme => cycleTheme
  | ToggleClick i =>
      bs ← gets (fun st => toggles (document (world st)));
      match bs !! i with
      | Some b => on_toggle_click b
      | None => mret tt
      end
  | SystemChange b =>
      on_world (set_prefers_dark b);; on_system_change b
  | TimerFires => run_timer
  | StorageChange r w => on_world (set_storage_faults r w)
  end.

(** States of a page on which the manager has been constructed. *)
Inductive reachable : State ThemeManager -> Prop :=
  | reachable_new w : reachable (new_ThemeManager w).2
  | reachable_handle st e : reachable st -> reachable (handle e st).2.

(** The options of [createToggleButton], with the truthiness of
    [showText] and [showIcon].  [className] only sets the class of the
    new button, which no method reads, and is left out. *)
Record ToggleOptions := {
  type : value;
  showText : bool;
  showIcon : bool;
  ariaLabel : value
}.

(* part_003:264-271 *)
Definition default_options : ToggleOptions :=
  {| type := Str "cycle"; showText := false; showIcon := true;
     ariaLabel := Str "Toggle theme" |}.

(** A line break followed by [n] spaces. *)
Fixpoint indent (n : nat) : string :=
  match n with
  | O => EmptyString
  | S n' => String " " (indent n')
  end.

Definition line (n : nat) : string := String (ascii_of_nat 10) (indent n).

(** The text nodes of the markup of part_003:281-293: the line breaks and
    the indentation around the three [svg] elements and their paths. *)
Definition icons_text : string :=
  line 8 +:+ (line 10 +:+ line 8) +:+
  line 8 +:+ (line 10 +:+ line 8) +:+
  line 8 +:+ (line 10 +:+ line 10 +:+ line 10 +:+ line 8) +:+
  line 6.

(* part_003:263-319; the click listener is [created_button_listener]. *)
Definition createToggleButton (config : ToggleOptions) : Method Button :=
  let button :=
    {| themeToggle := ToString (type config);
       aria_label := Some (ToString (ariaLabel config));
       textContent := ""; has_svg := false; aria_pressed := None;
       theme_text := None; theme_icons := [] |} in
  let button :=
    if showIcon config
    then {| themeToggle := themeToggle button;
            aria_label := aria_label button;
            textContent := icons_text; has_svg := true;
            aria_pressed := aria_pressed button;
            theme_text := None;
            theme_icons := [("light", ""); ("dark", ""); ("auto", "")] |}
    else button in
  button ← (if showText config
            then cur ← get_currentTheme;
                 mret {| themeToggle := themeToggle button;
                         aria_label := aria_label button;
                         textContent :=
                           textContent button +:+ ToNullableString cur;
                         has_svg := has_svg button;
                         aria_pressed := aria_pressed button;
                         theme_text := Some (ToNullableString cur);
                         theme_icons := theme_icons button |}
            else mret button);
  cur ← get_currentTheme;
  mret (updateToggleButton cur button).

(** What the [click] listener registered at part_003:308-316 does to
    the manager and the page (part_003:311-315).  The listener as a
    whole, with its [e.preventDefault()], is [created_button_listener]. *)
Definition created_button_click (config : ToggleOptions) : Method unit :=
  if strict_eq (type config) (Str "cycle") then cycleTheme
  else setTheme (type config).

(** The [click] listener of part_003:308-316: [e.preventDefault()]
    (part_003:309), then the rest.  The result is [e.defaultPrevented]
    when the listener returns. *)
Definition created_button_listener (config : ToggleOptions) : Method bool :=
  defaultPrevented ← mret true;
  created_button_click config;;
  mret defaultPrevented.

End Core.

Definition empty_document : Document :=
  {| data_theme := None; style_transition := ""; classList := [];
     meta_theme_color := Some "#500082";
     getPropertyValue := fun p =>
       if String.eqb p "--gray-900" then " #18181b"
       else if String.eqb p "--williams-purple" then " #500082" else "";
     toggles := [] |}.

Definition fresh_world (stored : option string) (dark : bool) : World :=
  {| localStorage :=
       {| items := match stored with
                   | Some s => {[ "williams-theme" := s ]}
                   | None => ∅
                   end;
          read_fault := None; write_fault := None |};
     prefers_dark := dark;
     document := empty_document;
     dispatched := []; console := []; timers := [] |}.





(** Pages used as concrete inputs. *)
Definition bundle_page (stored : option string) (dark : bool)
  : State Bundle.ThemeManager :=
  (Bundle.new_ThemeManager (fresh_world stored dark)).2.

Definition core_page (stored : option string) (dark : bool)
  : State Core.ThemeManager :=
  (Core.new_ThemeManager (fresh_world stored dark)).2.

(** What a page shows of a manager: its fields, the document and the
    events dispatched so far. *)
Definition page_view {T} (st : State T) : T * Document * list CustomEvent :=
  (this st, document (world st), dispatched (world st)).

(** A script of events run on a constructed manager. *)
Fixpoint run_events {T} (handle : event -> M (State T) unit) (es : list event)
  : M (State T) unit :=
  match es with
  | [] => mret tt
  | e :: es' => handle e;; run_events handle es'
  end.

(** ** The specification's vocabulary

    These definitions follow the words of the specification and are what
    the code is compared with. *)

(** "[Preference] directly if not [auto], else [SystemSignal] mapped to
    [dark]/[light]". *)
Definition spec_EffectiveTheme (preference : value) (systemSignal : bool)
  : value :=
  if strict_eq preference (Str "auto")
  then Str (if systemSignal then "dark" else "light")
  else preference.

(** "the fixed order light, dark, auto, light". *)
Definition spec_next (preference : value) : value :=
  if strict_eq preference (Str "light") then Str "dark"
  else if strict_eq preference (Str "dark") then Str "auto"
  else if strict_eq preference (Str "auto") then Str "light"
  else preference.

(** The preference main.js settles on for a requested theme: the theme
    itself when it is one of [themes], [auto] otherwise (main.js:64-67). *)
Definition or_auto (theme : value) : value :=
  if includes Bundle.themes theme then theme else Str "auto".

(** The target of [cycleTheme], as both classes compute it. *)
Definition cycle_target (cur : value) : value :=
  array_get Bundle.themes
    (Z.rem (indexOf Bundle.themes cur + 1) (array_length Bundle.themes)).

Definition stored_theme {T} (st : State T) : option string :=
  items (localStorage (world st)) !! "williams-theme".

(** The two values the [data-theme] attribute is meant to take. *)
Definition light_or_dark (attribute : option string) : Prop :=
  attribute = Some "light" \/ attribute = Some "dark".

(** A page of part_003 in good order: the preference is one of the three
    themes, the cached system theme is light or dark, and so is the
    [data-theme] attribute. *)
Definition Core_well_formed (st : State Core.ThemeManager) : Prop :=
  includes Core.themes (Core.currentTheme (this st)) = true /\
  (Core.systemTheme (this st) = Str "light" \/
   Core.systemTheme (this st) = Str "dark") /\
  light_or_dark (data_theme (document (world st))).

(** What the component may do to the stored items: leave them alone or
    write the theme key. *)
Definition overwritten (m m' : gmap string string) : Prop :=
  m' = m \/ exists v, m' = <["williams-theme" := v]> m.

(** ** Vocabulary of the further properties *)

(** The colour main.js writes into the [theme-color] meta tag
    (main.js:101). *)
Definition Bundle_theme_color (actualTheme : value) : string :=
  if strict_eq actualTheme (Str "dark") then "#09090b" else "#500082".

(** The label main.js gives every toggle button (main.js:123). *)
Definition Bundle_toggle_label (cur : value) : string :=
  "Current theme: " +:+ ToString cur +:+ ". Click to change theme.".

(** A page of main.js in good order: the preference is one of the three
    themes; [data-theme] is the effective theme of the preference and the
    system signal; the [theme-color] meta tag, when the page has one,
    holds the colour of that theme; every toggle button is labelled with
    the preference. *)
Definition Bundle_page_ok (st : State Bundle.ThemeManager) : Prop :=
  let cur := Bundle.currentTheme (this st) in
  let eff := spec_EffectiveTheme cur (prefers_dark (world st)) in
  let d := document (world st) in
  includes Bundle.themes cur = true /\
  data_theme d = Some (ToString eff) /\
  (forall c, meta_theme_color d = Some c -> c = Bundle_theme_color eff) /\
  (forall b, b ∈ toggles d -> aria_label b = Some (Bundle_toggle_label cur)).

(** The state part_003 keeps its toggle buttons in: [aria-pressed] says
    whether the button's theme is the preference, the text child shows
    the preference, and of the icons exactly those of the preference are
    displayed. *)
Definition Core_toggle_ok (cur : value) (b : Button) : Prop :=
  aria_pressed b = Some (strict_eq (Str (themeToggle b)) cur) /\
  (forall t, theme_text b = Some t -> t = ToNullableString cur) /\
  (forall icon, icon ∈ theme_icons b ->
                icon.2 = if strict_eq (Str icon.1) cur then "block" else "none").

(** What main.js leaves alone in a document: the custom properties of the
    root element, whether there is a [theme-color] meta tag, and of every
    toggle button its mode, its [aria-pressed] attribute and whether it
    contains an [svg]. *)
Definition Bundle_frame (d d' : Document) : Prop :=
  getPropertyValue d' = getPropertyValue d /\
  (is_Some (meta_theme_color d') <-> is_Some (meta_theme_color d)) /\
  themeToggle <$> toggles d' = themeToggle <$> toggles d /\
  aria_pressed <$> toggles d' = aria_pressed <$> toggles d /\
  has_svg <$> toggles d' = has_svg <$> toggles d.

(** Whether a toggle button has a [data-theme-text] child. *)
Definition has_theme_text (b : Button) : bool :=
  match theme_text b with Some _ => true | None => false end.

(** What part_003 leaves alone in a document: the custom properties of
    the root element, whether there is a [theme-color] meta tag, and of
    every toggle button its mode and label, whether it has a text child,
    and which icons it has. *)
Definition Core_frame (d d' : Document) : Prop :=
  getPropertyValue d' = getPropertyValue d /\
  (is_Some (meta_theme_color d') <-> is_Some (meta_theme_color d)) /\
  themeToggle <$> toggles d' = themeToggle <$> toggles d /\
  aria_label <$> toggles d' = aria_label <$> toggles d /\
  has_theme_text <$> toggles d' = has_theme_text <$> toggles d /\
  (fun b => fst <$> theme_icons b) <$> toggles d'
    = (fun b => fst <$> theme_icons b) <$> toggles d.

(** ** [AccessibilityManager] of src/dev/scripts/main.js

    The methods below work on three separate parts of the page and of
    the manager, each modelled with the state it reads and writes: the
    keyboard focus, the preference classes of the root element, and the
    live regions.  Elements are named by numbers.  A call that would
    read a property of [undefined] ends in [TypeError]. *)

Module A11y.

Abbreviation Element := nat.

Inductive result (A : Type) :=
  | Done (a : A)
  | TypeError.
Arguments Done {A} _.
Arguments TypeError {A}.

(** [l.indexOf(x)] and [l[i]] on arrays of elements. *)
Fixpoint indexOf_from (l : list Element) (x : Element) (i : Z) : Z :=
  match l with
  | [] => (-1)%Z
  | y :: l' => if Nat.eqb y x then i else indexOf_from l' x (i + 1)%Z
  end.

Definition indexOf (l : list Element) (x : Element) : Z := indexOf_from l x 0%Z.

Definition item (l : list Element) (i : Z) : option Element :=
  if (i <? 0)%Z then None else l !! Z.to_nat i.

(** [a === b] for [a] an element or [null] and [b] an element or
    [undefined]. *)
Definition same_element (a b : option Element) : bool :=
  match a, b with
  | Some x, Some y => Nat.eqb x y
  | _, _ => false
  end.

(** The keys for which [handleGlobalKeydown] calls
    [handleArrowNavigation] (main.js:225). *)
Definition arrow_keys : list string :=
  ["ArrowUp"; "ArrowDown"; "ArrowLeft"; "ArrowRight"].

(** *** Arrow keys (main.js:288-322)

    [items] is [None] when the target has no ancestor that is a menu, a
    list box, a tab list or a [.nav]; otherwise it holds the items of
    that ancestor in document order.  The result is the element whose
    [focus()] is called, together with [event.preventDefault()]; [None]
    when the handler returns without doing anything. *)
Definition handleArrowNavigation
  (items : option (list Element)) (target : Element) (key : string)
  : result (option Element) :=
  match items with
  | None => Done None
  | Some items =>
      let currentIndex := indexOf items target in
      if (currentIndex =? -1)%Z then Done None
      else
        let nextIndex :=
          if String.eqb key "ArrowDown" || String.eqb key "ArrowRight" then
            let nextIndex := (currentIndex + 1)%Z in
            Some (if (nextIndex >=? Z.of_nat (length items))%Z then 0%Z
                  else nextIndex)
          else if String.eqb key "ArrowUp" || String.eqb key "ArrowLeft" then
            let nextIndex := (currentIndex - 1)%Z in
            Some (if (nextIndex <? 0)%Z then (Z.of_nat (length items) - 1)%Z
                  else nextIndex)
          else None in
        match nextIndex with
        | None => Done None
        | Some nextIndex =>
            match item items nextIndex with
            | Some e => Done (Some e)
            | None => TypeError
            end
        end
  end.

(** *** Focus traps (main.js:282-286, 562-599) *)

Record Focus := {
  activeElement : option Element;
  currentFocusTrap : option Element;
  lastFocusedElement : option Element
}.

Section FocusMethods.

(** The page: which elements take the focus when [focus()] is called on
    them, and the focusable descendants of an element in document order
    ([querySelectorAll] of main.js:585-587; [querySelector] with the
    same selector at main.js:566 gives the first of them). *)
Variable focusable : Element -> bool.
Variable focusableElements : Element -> list Element.

Definition focus (e : Element) (st : Focus) : Focus :=
  if focusable e
  then {| activeElement := Some e;
          currentFocusTrap := currentFocusTrap st;
          lastFocusedElement := lastFocusedElement st |}
  else st.

(* main.js:562-570 *)
Definition enterFocusTrap (element : Element) (st : Focus) : Focus :=
  let st := {| activeElement := activeElement st;
               currentFocusTrap := Some element;
               lastFocusedElement := lastFocusedElement st |} in
  let st := {| activeElement := activeElement st;
               currentFocusTrap := currentFocusTrap st;
               lastFocusedElement := activeElement st |} in
  match head (focusableElements element) with
  | Some firstFocusable => focus firstFocusable st
  | None => st
  end.

(* main.js:572-579 *)
Definition exitFocusTrap (st : Focus) : Focus :=
  let st := {| activeElement := activeElement st;
               currentFocusTrap := None;
               lastFocusedElement := lastFocusedElement st |} in
  match lastFocusedElement st with
  | Some e =>
      let st := focus e st in
      {| activeElement := activeElement st;
         currentFocusTrap := currentFocusTrap st;
         lastFocusedElement := None |}
  | None => st
  end.

(* main.js:581-599; the boolean is [event.defaultPrevented]. *)
Definition manageFocusTrap (shiftKey : bool) (st : Focus)
  : result (bool * Focus) :=
  match currentFocusTrap st with
  | None => Done (false, st)
  | Some trap =>
      let focusableElements := focusableElements trap in
      let firstElement := head focusableElements in
      let lastElement := last focusableElements in
      if shiftKey && same_element (activeElement st) firstElement then
        match lastElement with
        | Some e => Done (true, focus e st)
        | None => TypeError
        end
      else if negb shiftKey && same_element (activeElement st) lastElement then
        match firstElement with
        | Some e => Done (true, focus e st)
        | None => TypeError
        end
      else Done (false, st)
  end.

(* main.js:282-286 *)
Definition handleTabNavigation (shiftKey : bool) (st : Focus)
  : result (bool * Focus) :=
  match currentFocusTrap st with
  | Some _ => manageFocusTrap shiftKey st
  | None => Done (false, st)
  end.

End FocusMethods.

(** *** Preference classes (main.js:193-204, 601-634)

    [color_scheme] is the content of [<meta name="color-scheme">] when
    the page has that tag. *)

Record Preferences := {
  isReducedMotion : bool;
  isHighContrast : bool;
  classList : list string;
  color_scheme : option string
}.

(* main.js:620-626 *)
Definition updateReducedMotionSettings (st : Preferences) : Preferences :=
  {| isReducedMotion := isReducedMotion st;
     isHighContrast := isHighContrast st;
     classList :=
       if isReducedMotion st
       then classList_add "reduce-motion" (classList st)
       else classList_remove "reduce-motion" (classList st);
     color_scheme := color_scheme st |}.

(* main.js:628-634 *)
Definition updateContrastSettings (st : Preferences) : Preferences :=
  {| isReducedMotion := isReducedMotion st;
     isHighContrast := isHighContrast st;
     classList :=
       if isHighContrast st
       then classList_add "high-contrast" (classList st)
       else classList_remove "high-contrast" (classList st);
     color_scheme := color_scheme st |}.

(* main.js:601-614 *)
Definition setupColorPreferences (st : Preferences) : Preferences :=
  {| isReducedMotion := isReducedMotion st;
     isHighContrast := isHighContrast st;
     classList :=
       if isHighContrast st
       then classList_add "high-contrast" (classList st)
       else classList st;
     color_scheme :=
       match color_scheme st with
       | Some c => Some c
       | None => Some "light dark"
       end |}.

(* main.js:616-618 *)
Definition setupReducedMotion (st : Preferences) : Preferences :=
  updateReducedMotionSettings st.

(** The two media query listeners registered at main.js:195-203. *)
Definition on_reduced_motion_change (matches : bool) (st : Preferences)
  : Preferences :=
  updateReducedMotionSettings
    {| isReducedMotion := matches;
       isHighContrast := isHighContrast st;
       classList := classList st;
       color_scheme := color_scheme st |}.

Definition on_contrast_change (matches : bool) (st : Preferences)
  : Preferences :=
  updateContrastSettings
    {| isReducedMotion := isReducedMotion st;
       isHighContrast := matches;
       classList := classList st;
       color_scheme := color_scheme st |}.

(** What the constructor and [init] do to this part (main.js:169-170,
    183-184): the two media queries are read, then
    [setupColorPreferences] and [setupReducedMotion] run. *)
Definition init_preferences (reduce contrast : bool)
  (classes : list string) (scheme : option string) : Preferences :=
  setupReducedMotion
    (setupColorPreferences
       {| isReducedMotion := reduce; isHighContrast := contrast;
          classList := classes; color_scheme := scheme |}).

Inductive preference_event :=
  | ReducedMotionChange (matches : bool)
  | ContrastChange (matches : bool).

Definition handle_preference (e : preference_event) (st : Preferences)
  : Preferences :=
  match e with
  | ReducedMotionChange m => on_reduced_motion_change m st
  | ContrastChange m => on_contrast_change m st
  end.

(** A sequence of changes of the two media queries, oldest first. *)
Fixpoint run_preference_events (es : list preference_event)
  (st : Preferences) : Preferences :=
  match es with
  | [] => st
  | e :: es' => run_preference_events es' (handle_preference e st)
  end.

(** *** Live regions (main.js:462-497)

    [regions] maps the id of an element of the page to its text;
    [timeouts] holds the pending callbacks of [announce], oldest first:
    the region they write to and the message. *)

Record Live := {
  regions : gmap string string;
  timeouts : list (string * string)
}.

(* main.js:462-483 *)
Definition setupAriaLiveRegions (enableAriaLiveRegions : bool) (st : Live)
  : Live :=
  if negb enableAriaLiveRegions then st
  else
    let st :=
      match regions st !! "aria-live-polite" with
      | Some _ => st
      | None => {| regions := <["aria-live-polite" := ""]> (regions st);
                   timeouts := timeouts st |}
      end in
    match regions st !! "aria-live-assertive" with
    | Some _ => st
    | None => {| regions := <["aria-live-assertive" := ""]> (regions st);
                 timeouts := timeouts st |}
    end.

(* main.js:485-497; an [undefined] priority takes the default. *)
Definition announce (enableA11yAnnouncements : bool)
  (message priority : value) (st : Live) : Live :=
  let priority :=
    match priority with Undefined => Str "polite" | _ => priority end in
  if negb enableA11yAnnouncements then st
  else
    let regionId :=
      if strict_eq priority (Str "assertive") then "aria-live-assertive"
      else "aria-live-polite" in
    match regions st !! regionId with
    | Some _ =>
        {| regions := <[regionId := ""]> (regions st);
           timeouts := timeouts st ++ [(regionId, ToNullableString message)] |}
    | None => st
    end.

(** The oldest pending callback of [announce] runs (main.js:493-495). *)
Definition run_timeout (st : Live) : Live :=
  match timeouts st with
  | [] => st
  | (regionId, message) :: rest =>
      {| regions := <[regionId := message]> (regions st); timeouts := rest |}
  end.

End A11y.

(** ** [ComponentManager] of src/dev/scripts/main.js: tabs *)

Module Components.

(** A [role="tab"] element: its [aria-controls] and [aria-selected]
    attributes and whether it carries the class [active]. *)
Record Tab := {
  aria_controls : option string;
  aria_selected : option string;
  active : bool
}.

(** The tabs of a tab list in document order
    ([tablist.querySelectorAll('[role="tab"]')]) and the [hidden]
    property of the elements of the page, by id. *)
Record TabList := {
  allTabs : list Tab;
  hidden : gmap string bool
}.

(** The id [document.getElementById] looks for, given an attribute
    value or [null]. *)
Definition element_id (attribute : option string) : string :=
  match attribute with
  | Some s => s
  | None => "null"
  end.

(** The callback of [forEach] at main.js:834-842. *)
Definition deactivate (tab : Tab) : Tab :=
  {| aria_controls := aria_controls tab;
     aria_selected := Some "false";
     active := false |}.

Definition hide_panel (h : gmap string bool) (tab : Tab) : gmap string bool :=
  let panelId := element_id (aria_controls tab) in
  match h !! panelId with
  | Some _ => <[panelId := true]> h
  | None => h
  end.

(* main.js:825-850.  [tablist] is [None] when there is no tab list above
   [activeTab], and the method returns at once.  Otherwise [activeTab]
   is the [i]-th of its tabs, as for every tab the click handler of
   main.js:815-823 passes; an index out of range stands for no call. *)
Definition activateTab (tablist : option TabList) (i : nat)
  : option TabList :=
  match tablist with
  | None => None
  | Some st =>
      match allTabs st !! i with
      | None => Some st
      | Some activeTab =>
          let tabId := element_id (aria_controls activeTab) in
          let tabPanel := hidden st !! tabId in
          let h := foldl hide_panel (hidden st) (allTabs st) in
          let tabs := deactivate <$> allTabs st in
          let tabs :=
            <[i := {| aria_controls := aria_controls activeTab;
                      aria_selected := Some "true";
                      active := true |}]> tabs in
          Some {| allTabs := tabs;
                  hidden := match tabPanel with
                            | Some _ => <[tabId := false]> h
                            | None => h
                            end |}
      end
  end.

End Components.

(** * Facts about the embedding *)

(** Symbolic execution of a method body: call-by-need evaluation that
    leaves data operations folded, then reduction of the record
    projections that were kept. *)
Ltac js_proj :=
  cbn [fst snd world this localStorage prefers_dark document dispatched
       console timers items read_fault write_fault data_theme
       style_transition classList meta_theme_color getPropertyValue toggles
       Bundle.currentTheme Core.currentTheme Core.systemTheme ToString].

Ltac js_proj_in H :=
  cbn [fst snd world this localStorage prefers_dark document dispatched
       console timers items read_fault write_fault data_theme
       style_transition classList meta_theme_color getPropertyValue toggles
       Bundle.currentTheme Core.currentTheme Core.systemTheme ToString] in H.

Ltac js_eval_in H :=
  lazy -[map_get map_put app String.append fmap ToString ToNullableString trim
         data_theme style_transition classList meta_theme_color
         getPropertyValue toggles Bundle.updateToggleButtons_callback
         Core.updateToggleButton classList_add classList_remove] in H;
  js_proj_in H.

(** Decide the string comparisons on literals that a statement contains. *)
Ltac js_tests :=
  repeat match goal with
    | |- context [strict_eq (Str ?a) (Str ?b)] =>
        let r := eval vm_compute in (strict_eq (Str a) (Str b)) in
        lazymatch r with
        | true => change (strict_eq (Str a) (Str b)) with true
        | false => change (strict_eq (Str a) (Str b)) with false
        end
    end.

Ltac js_eval :=
  lazy -[map_get map_put app String.append fmap ToString ToNullableString trim
         data_theme style_transition classList meta_theme_color
         getPropertyValue toggles Bundle.updateToggleButtons_callback
         Core.updateToggleButton classList_add classList_remove];
  js_proj.

(** Evaluate the left-hand side of an equation between method results. *)
Ltac js_lhs :=
  match goal with
  | |- ?m = _ =>
      let r := fresh "r" in
      let H := fresh "H" in
      remember m as r eqn:H; js_eval_in H; subst r;
      js_proj; unfold map_put, map_get
  end.

Ltac js_intro r' Hr :=
  let r := fresh "r" in
  intros r; remember r as r' eqn:Hr; subst r; cbv zeta.

(** Close a goal once the method has been evaluated in [H : r = _]. *)
Ltac js_done H r :=
  js_eval_in H; subst r; js_proj; js_tests; js_proj;
  unfold map_put, map_get; rewrite ?app_nil_r, <- ?app_assoc;
  repeat apply conj; reflexivity.

Arguments Bundle.applyTheme : simpl never.
Arguments Bundle.cycleTheme : simpl never.
Arguments Bundle.setTheme : simpl never.
Arguments Bundle.getActualTheme : simpl never.
Arguments Bundle.getStoredTheme : simpl never.
Arguments Bundle.storeTheme : simpl never.
Arguments Bundle.updateDocumentTheme : simpl never.
Arguments Bundle.init : simpl never.
Arguments Core.applyTheme : simpl never.
Arguments Core.cycleTheme : simpl never.
Arguments Core.setTheme : simpl never.
Arguments Core.getAppliedTheme : simpl never.
Arguments Core.getStoredTheme : simpl never.
Arguments Core.storeTheme : simpl never.
Arguments Core.init : simpl never.
Arguments run_timer : simpl never.

Ltac destruct_state st :=
  let it := fresh "it" in let rf := fresh "rf" in let wf := fresh "wf" in
  let pd := fresh "pd" in let doc := fresh "doc" in let ev := fresh "ev" in
  let con := fresh "con" in let tm := fresh "tm" in let t := fresh "t" in
  destruct st as [[[it rf wf] pd doc ev con tm] t].

Section Values.

Lemma strict_eq_true a b : strict_eq a b = true <-> a = b.
Proof.
  destruct a, b; cbn; rewrite ?String.eqb_eq; split; congruence.
Qed.

Lemma strict_eq_false a b : strict_eq a b = false <-> a <> b.
Proof. rewrite <- not_true_iff_false, strict_eq_true. tauto. Qed.

Lemma includes_themes v :
  includes Bundle.themes v = true <->
  v = Str "light" \/ v = Str "dark" \/ v = Str "auto".
Proof.
  unfold includes, Bundle.themes. cbn [existsb].
  rewrite !orb_true_iff, !strict_eq_true. intuition congruence.
Qed.

Lemma not_includes_themes v :
  includes Bundle.themes v = false <->
  v <> Str "light" /\ v <> Str "dark" /\ v <> Str "auto".
Proof.
  rewrite <- not_true_iff_false, includes_themes. tauto.
Qed.

Lemma strict_eq_refl a : strict_eq a a = true.
Proof. by apply strict_eq_true. Qed.

Lemma or_auto_valid v : includes Bundle.themes v = true -> or_auto v = v.
Proof. unfold or_auto. by intros ->. Qed.

Lemma or_auto_invalid v :
  includes Bundle.themes v = false -> or_auto v = Str "auto".
Proof. unfold or_auto. by intros ->. Qed.

Lemma includes_or_auto v : includes Bundle.themes (or_auto v) = true.
Proof. unfold or_auto. by destruct (includes Bundle.themes v) eqn:E. Qed.

Lemma cycle_target_valid v :
  includes Bundle.themes v = true -> cycle_target v = spec_next v.
Proof.
  rewrite includes_themes. by intros [-> | [-> | ->]].
Qed.

Lemma cycle_target_invalid v :
  includes Bundle.themes v = false -> cycle_target v = Str "light".
Proof.
  rewrite not_includes_themes. intros (H1 & H2 & H3).
  unfold cycle_target, indexOf, Bundle.themes, indexOf_from.
  rewrite !(proj2 (strict_eq_false _ _)) by congruence. reflexivity.
Qed.

Lemma includes_cycle_target v : includes Bundle.themes (cycle_target v) = true.
Proof.
  destruct (includes Bundle.themes v) eqn:E.
  - rewrite cycle_target_valid by done.
    apply includes_themes in E as [-> | [-> | ->]]; reflexivity.
  - by rewrite cycle_target_invalid.
Qed.

Lemma or_else_system (b : bool) :
  or_else (Str (if b then "dark" else "light")) (Str "light") =
  Str (if b then "dark" else "light").
Proof. by destruct b. Qed.

Lemma spec_next_other v :
  v <> Str "light" -> v <> Str "dark" -> v <> Str "auto" -> spec_next v = v.
Proof.
  intros H1 H2 H3. unfold spec_next.
  rewrite (proj2 (strict_eq_false v (Str "light"))) by done.
  rewrite (proj2 (strict_eq_false v (Str "dark"))) by done.
  rewrite (proj2 (strict_eq_false v (Str "auto"))) by done.
  reflexivity.
Qed.

Lemma spec_next_thrice v : spec_next (spec_next (spec_next v)) = v.
Proof.
  destruct (decide (v = Str "light")) as [-> | H1]; [reflexivity|].
  destruct (decide (v = Str "dark")) as [-> | H2]; [reflexivity|].
  destruct (decide (v = Str "auto")) as [-> | H3]; [reflexivity|].
  by do 3 (rewrite (spec_next_other v) by done).
Qed.

Lemma effective_light_or_dark p s :
  includes Bundle.themes p = true ->
  spec_EffectiveTheme p s = Str "light" \/ spec_EffectiveTheme p s = Str "dark".
Proof.
  rewrite includes_themes. intros [-> | [-> | ->]]; cbn; auto.
  destruct s; auto.
Qed.

Lemma or_else_valid s :
  includes Bundle.themes (Str s) = true ->
  or_else (Str s) (Str "auto") = Str s.
Proof.
  rewrite includes_themes. by intros [[= ->] | [[= ->] | [= ->]]].
Qed.

End Values.


(** ** main.js *)

Section BundleFacts.

Lemma Bundle_applyTheme_spec theme a st :
  let r := Bundle.applyTheme theme a st in
  let p := or_auto theme in
  let eff := spec_EffectiveTheme p (prefers_dark (world st)) in
  r.1 = Normal tt /\
  this r.2 = {| Bundle.currentTheme := p |} /\
  data_theme (document (world r.2)) = Some (ToString eff) /\
  dispatched (world r.2) =
    dispatched (world st) ++
    [{| type := "themechange";
        detail := [("theme", p); ("actualTheme", eff)] |}] /\
  prefers_dark (world r.2) = prefers_dark (world st) /\
  read_fault (localStorage (world r.2)) = read_fault (localStorage (world st)) /\
  write_fault (localStorage (world r.2)) = write_fault (localStorage (world st)) /\
  items (localStorage (world r.2)) =
    match write_fault (localStorage (world st)) with
    | None => <[Bundle.storageKey := ToString p]> (items (localStorage (world st)))
    | Some _ => items (localStorage (world st))
    end /\
  console (world r.2) =
    console (world st) ++
    (if includes Bundle.themes theme then []
     else [console_warn [AStr ("Invalid theme: " +:+ ToString theme
                               +:+ ", defaulting to auto")]]) ++
    match write_fault (localStorage (world st)) with
    | None => []
    | Some _ => [console_warn [AStr "Could not store theme preference"]]
    end.
Proof.
  destruct_state st. js_intro r' Hr.
  unfold or_auto, spec_EffectiveTheme. js_proj.
  unfold Bundle.applyTheme in Hr.
  destruct (includes Bundle.themes theme) eqn:E.
  - apply includes_themes in E.
    destruct E as [-> | [-> | ->]], wf, a; js_done Hr r'.
  - destruct wf, a; js_done Hr r'.
Qed.

Lemma Bundle_applyTheme_Normal theme a st :
  (Bundle.applyTheme theme a st).1 = Normal tt.
Proof. apply Bundle_applyTheme_spec. Qed.

Lemma Bundle_cycleTheme_eq st :
  Bundle.cycleTheme st =
  Bundle.applyTheme (cycle_target (Bundle.currentTheme (this st))) true st.
Proof. reflexivity. Qed.

Lemma Bundle_getActualTheme_eq st :
  Bundle.getActualTheme st =
  (Normal (spec_EffectiveTheme (Bundle.currentTheme (this st))
             (prefers_dark (world st))), st).
Proof.
  destruct_state st. destruct t as [cur].
  unfold spec_EffectiveTheme, Bundle.getActualTheme. js_proj.
  unfold mbind at 1, M_bind at 1, Bundle.get_currentTheme, gets. js_proj.
  by destruct (strict_eq cur (Str "auto")).
Qed.

Lemma Bundle_getStoredTheme_fault st e :
  read_fault (localStorage (world st)) = Some e ->
  Bundle.getStoredTheme st =
  (Normal (Str "auto"),
   (log (console_warn
           [AStr "localStorage not available, defaulting to auto theme"]) st).2).
Proof. destruct_state st. js_proj. intros ->. reflexivity. Qed.

Lemma Bundle_getStoredTheme_ok st :
  read_fault (localStorage (world st)) = None ->
  Bundle.getStoredTheme st =
  (Normal (match stored_theme st with
           | Some s => or_else (Str s) (Str "auto")
           | None => Str "auto"
           end), st).
Proof.
  destruct_state st. unfold stored_theme. js_proj. intros ->.
  js_lhs. by destruct (it !! _).
Qed.


Lemma bind_Normal {S A B} (m : M S A) (k : A -> M S B) s a s' :
  m s = (Normal a, s') -> (m ≫= k) s = k a s'.
Proof. unfold mbind, M_bind. by intros ->. Qed.

Lemma Bundle_init_eq st :
  let a := Bundle.applyTheme (Bundle.currentTheme (this st)) false st in
  Bundle.init st =
  log (console_log [AStr "Theme Manager initialized:";
                    AVal (Bundle.currentTheme (this a.2))]) a.2.
Proof.
  intros a. unfold Bundle.init.
  unfold mbind at 1, M_bind at 1, Bundle.get_currentTheme at 1, gets at 1.
  rewrite (bind_Normal _ _ st tt a.2).
  - reflexivity.
  - subst a. rewrite (surjective_pairing (Bundle.applyTheme _ _ _)) at 1.
    by rewrite Bundle_applyTheme_Normal.
Qed.

Lemma Bundle_init_spec st :
  let r := Bundle.init st in
  let a := Bundle.applyTheme (Bundle.currentTheme (this st)) false st in
  r.1 = Normal tt /\
  this r.2 = this a.2 /\
  document (world r.2) = document (world a.2) /\
  dispatched (world r.2) = dispatched (world a.2) /\
  localStorage (world r.2) = localStorage (world a.2) /\
  prefers_dark (world r.2) = prefers_dark (world a.2) /\
  console (world r.2) =
    console (world a.2) ++
    [console_log [AStr "Theme Manager initialized:";
                  AVal (Bundle.currentTheme (this a.2))]].
Proof.
  intros r a. subst r. rewrite Bundle_init_eq. fold a.
  by destruct a.2 as [w t].
Qed.

(** Construction: the theme handed to [init] and the world it runs in. *)
Lemma Bundle_new_fault w e :
  read_fault (localStorage w) = Some e ->
  Bundle.new_ThemeManager w =
  Bundle.init
    (log (console_warn
            [AStr "localStorage not available, defaulting to auto theme"])
       (mkState w {| Bundle.currentTheme := Str "auto" |})).2.
Proof.
  intros H. unfold Bundle.new_ThemeManager, Bundle.constructor.
  erewrite bind_Normal by (by apply (Bundle_getStoredTheme_fault _ e)).
  reflexivity.
Qed.

Lemma Bundle_new_ok w :
  read_fault (localStorage w) = None ->
  Bundle.new_ThemeManager w =
  Bundle.init
    (mkState w
       {| Bundle.currentTheme :=
            match items (localStorage w) !! Bundle.storageKey with
            | Some s => or_else (Str s) (Str "auto")
            | None => Str "auto"
            end |}).
Proof.
  intros H. unfold Bundle.new_ThemeManager, Bundle.constructor.
  erewrite bind_Normal by (by apply Bundle_getStoredTheme_ok).
  reflexivity.
Qed.

End BundleFacts.

(** ** part_003 *)

Section CoreFacts.

Lemma Core_applyTheme_spec theme a st :
  let r := Core.applyTheme theme a st in
  let sys := Core.systemTheme (this st) in
  let actual :=
    if strict_eq theme (Str "auto") then or_else sys (Str "light")
    else theme in
  r.1 = Normal tt /\
  this r.2 = {| Core.currentTheme := theme; Core.systemTheme := sys |} /\
  data_theme (document (world r.2)) = Some (ToString actual) /\
  dispatched (world r.2) =
    dispatched (world st) ++
    [{| type := "themechange";
        detail := [("theme", theme); ("appliedTheme", actual);
                   ("systemTheme", sys)] |}] /\
  prefers_dark (world r.2) = prefers_dark (world st) /\
  read_fault (localStorage (world r.2)) = read_fault (localStorage (world st)) /\
  write_fault (localStorage (world r.2)) = write_fault (localStorage (world st)) /\
  items (localStorage (world r.2)) =
    match write_fault (localStorage (world st)) with
    | None => <[Core.storageKey := ToString theme]> (items (localStorage (world st)))
    | Some _ => items (localStorage (world st))
    end /\
  console (world r.2) =
    console (world st) ++
    match write_fault (localStorage (world st)) with
    | None => []
    | Some e => [console_warn [AStr "Failed to store theme:"; AExn e]]
    end.
Proof.
  destruct_state st. destruct t as [cur sys]. js_intro r' Hr. js_proj.
  unfold Core.applyTheme in Hr.
  destruct (strict_eq theme (Str "auto")) eqn:E, wf, a; js_done Hr r'.
Qed.

Lemma Core_applyTheme_Normal theme a st :
  (Core.applyTheme theme a st).1 = Normal tt.
Proof. apply Core_applyTheme_spec. Qed.

Lemma Core_cycleTheme_eq st :
  Core.cycleTheme st =
  Core.applyTheme (cycle_target (Core.currentTheme (this st))) true st.
Proof. reflexivity. Qed.

Lemma Core_setTheme_valid theme st :
  includes Core.themes theme = true ->
  Core.setTheme theme st = Core.applyTheme theme true st.
Proof. unfold Core.setTheme. by intros ->. Qed.

Lemma Core_setTheme_invalid theme st :
  includes Core.themes theme = false ->
  Core.setTheme theme st =
  (Normal tt,
   (log (console_warn
           [AStr ("Theme " +:+ dquote +:+ ToString theme +:+ dquote
                  +:+ " is not available")]) st).2).
Proof. unfold Core.setTheme. by intros ->. Qed.

Lemma Core_getAppliedTheme_eq st :
  Core.getAppliedTheme st =
  (Normal (if strict_eq (Core.currentTheme (this st)) (Str "auto")
           then or_else (Core.systemTheme (this st)) (Str "light")
           else Core.currentTheme (this st)), st).
Proof.
  destruct_state st. destruct t as [cur sys].
  unfold Core.getAppliedTheme. js_proj.
  unfold mbind at 1, M_bind at 1, Core.get_currentTheme, gets. js_proj.
  by destruct (strict_eq cur (Str "auto")).
Qed.


Lemma Core_getStoredTheme_ok st :
  read_fault (localStorage (world st)) = None ->
  Core.getStoredTheme st =
  (Normal (match stored_theme st with
           | Some s => Str s
           | None => Null
           end), st).
Proof.
  destruct_state st. unfold stored_theme. js_proj. intros ->. reflexivity.
Qed.


(** [init] once the stored theme has been read: the theme is applied
    before the system theme is detected. *)
Lemma Core_init_tail_spec p st :
  let r := (Core.applyTheme p false;; Core.detectSystemTheme;;
            Core.setupThemeToggles) st in
  let a := Core.applyTheme p false st in
  r.1 = Normal tt /\
  this r.2 =
    {| Core.currentTheme := p;
       Core.systemTheme :=
         Str (if prefers_dark (world st) then "dark" else "light") |} /\
  data_theme (document (world r.2)) = data_theme (document (world a.2)) /\
  dispatched (world r.2) = dispatched (world a.2) /\
  localStorage (world r.2) = localStorage (world a.2) /\
  prefers_dark (world r.2) = prefers_dark (world st) /\
  console (world r.2) = console (world a.2).
Proof.
  intros r a. subst r.
  destruct (Core_applyTheme_spec p false st) as (H1 & H2 & _ & _ & H5 & _).
  fold a in H1, H2, H5.
  rewrite (bind_Normal _ _ st tt a.2)
    by (rewrite (surjective_pairing (Core.applyTheme _ _ _)) at 1;
        by rewrite Core_applyTheme_Normal).
  destruct a.2 as [[ls pd' doc ev con tm] t'] eqn:E.
  js_proj_in H2. js_proj_in H5. subst t' pd'.
  match goal with |- (?x).1 = _ /\ _ => remember x as r' eqn:Hr end.
  js_done Hr r'.
Qed.

Lemma Core_new_fault w e :
  read_fault (localStorage w) = Some e ->
  Core.new_ThemeManager w =
  (Core.applyTheme (Str "auto") false;; Core.detectSystemTheme;;
   Core.setupThemeToggles)
    (log (console_warn [AStr "Failed to access localStorage:"; AExn e])
       (mkState w {| Core.currentTheme := Str "auto";
                     Core.systemTheme := Null |})).2.
Proof.
  destruct w as [[it rf wf] pd doc ev con tm]. js_proj. intros ->.
  js_eval. reflexivity.
Qed.

Lemma Core_new_ok w :
  read_fault (localStorage w) = None ->
  let p := or_else (match items (localStorage w) !! Core.storageKey with
                    | Some s => Str s
                    | None => Null
                    end) (Str Core.defaultTheme) in
  Core.new_ThemeManager w =
  (Core.applyTheme p false;; Core.detectSystemTheme;;
   Core.setupThemeToggles)
    (mkState w {| Core.currentTheme := p; Core.systemTheme := Null |}).
Proof.
  destruct w as [[it rf wf] pd doc ev con tm]. js_proj. intros ->.
  change (it !! Core.storageKey) with (map_get Core.storageKey it).
  js_eval. reflexivity.
Qed.

(** The preference part_003 starts with: the stored string as it is,
    auto when nothing (or the empty string) is stored or localStorage
    cannot be read. *)
Lemma Core_new_preference w :
  Core.currentTheme (this (Core.new_ThemeManager w).2) =
  match read_fault (localStorage w) with
  | Some _ => Str "auto"
  | None =>
      or_else (match items (localStorage w) !! Core.storageKey with
               | Some s => Str s
               | None => Null
               end) (Str Core.defaultTheme)
  end.
Proof.
  destruct (read_fault (localStorage w)) as [e|] eqn:R.
  - rewrite (Core_new_fault w e R).
    match goal with |- context [(Core.applyTheme ?p false ≫= _) ?s] =>
      by destruct (Core_init_tail_spec p s) as (_ & -> & _)
    end.
  - rewrite (Core_new_ok w R).
    match goal with |- context [(Core.applyTheme ?p false ≫= _) ?s] =>
      by destruct (Core_init_tail_spec p s) as (_ & -> & _)
    end.
Qed.

End CoreFacts.

(** ** Events *)

Section Events.

Lemma run_timer_spec {T} (st : State T) :
  let r := run_timer st in
  r.1 = Normal tt /\
  this r.2 = this st /\
  localStorage (world r.2) = localStorage (world st) /\
  prefers_dark (world r.2) = prefers_dark (world st) /\
  dispatched (world r.2) = dispatched (world st) /\
  console (world r.2) = console (world st) /\
  data_theme (document (world r.2)) = data_theme (document (world st)).
Proof.
  destruct_state st. js_intro r' Hr. js_proj.
  destruct tm as [|[] tm']; js_done Hr r'.
Qed.

Lemma Bundle_on_toggle_click_cases b st :
  Bundle.on_toggle_click b st = (Normal tt, st) \/
  exists theme, Bundle.on_toggle_click b st = Bundle.applyTheme theme true st.
Proof.
  unfold Bundle.on_toggle_click.
  destruct (strict_eq _ _).
  - right. eexists. apply Bundle_cycleTheme_eq.
  - destruct (includes _ _); [right | left]; eauto.
Qed.

Lemma Bundle_handle_ToggleClick i st :
  Bundle.handle (ToggleClick i) st =
  match toggles (document (world st)) !! i with
  | Some b => Bundle.on_toggle_click b st
  | None => (Normal tt, st)
  end.
Proof.
  unfold Bundle.handle, mbind, M_bind, gets.
  by destruct (_ !! i).
Qed.

Lemma Bundle_handle_cases e st :
  Bundle.handle e st = (Normal tt, st) \/
  (exists theme, Bundle.handle e st = Bundle.applyTheme theme true st) \/
  (exists b, e = SystemChange b) \/
  e = TimerFires \/
  (exists r w, e = StorageChange r w).
Proof.
  destruct e as [v | | i | b | | r w].
  - right; left. by exists v.
  - right; left. eexists. apply Bundle_cycleTheme_eq.
  - rewrite Bundle_handle_ToggleClick.
    destruct (_ !! i) as [b|]; [|by left].
    destruct (Bundle_on_toggle_click_cases b st) as [H | H]; eauto.
  - right; right; left. by exists b.
  - right; right; right; left. reflexivity.
  - right; right; right; right. by exists r, w.
Qed.

Lemma Bundle_updateDocumentTheme_spec v st :
  let r := Bundle.updateDocumentTheme v false st in
  r.1 = Normal tt /\
  this r.2 = this st /\
  localStorage (world r.2) = localStorage (world st) /\
  prefers_dark (world r.2) = prefers_dark (world st) /\
  dispatched (world r.2) = dispatched (world st) /\
  console (world r.2) = console (world st) /\
  data_theme (document (world r.2)) = Some (ToString v).
Proof. destruct_state st. js_intro r' Hr. js_proj. js_done Hr r'. Qed.

Lemma Bundle_handle_SystemChange b st :
  let st1 := mkState (set_prefers_dark b (world st)) (this st) in
  Bundle.handle (SystemChange b) st =
  if strict_eq (Bundle.currentTheme (this st)) (Str "auto")
  then Bundle.updateDocumentTheme (Str (if b then "dark" else "light")) false st1
  else (Normal tt, st1).
Proof.
  destruct_state st. destruct t as [cur]. js_proj.
  unfold Bundle.handle, Bundle.on_system_change.
  unfold mbind at 1, M_bind at 1, on_world, modify. js_proj.
  unfold mbind at 1, M_bind at 1, Bundle.get_currentTheme, gets. js_proj.
  by destruct (strict_eq cur (Str "auto")).
Qed.

Lemma Core_on_toggle_click_cases b st :
  Core.on_toggle_click b st = (Normal tt, st) \/
  (exists theme, includes Core.themes theme = true /\
                 Core.on_toggle_click b st = Core.applyTheme theme true st) \/
  (exists entry, Core.on_toggle_click b st = (Normal tt, (log entry st).2)).
Proof.
  unfold Core.on_toggle_click.
  destruct (strict_eq _ _).
  - right; left. eexists. split; [apply includes_cycle_target|].
    apply Core_cycleTheme_eq.
  - destruct (truthy _); [|by left].
    destruct (includes Core.themes (Str (themeToggle b))) eqn:E.
    + right; left. eexists. split; [exact E|]. by apply Core_setTheme_valid.
    + right; right. eexists. by apply Core_setTheme_invalid.
Qed.

Lemma Core_handle_ToggleClick i st :
  Core.handle (ToggleClick i) st =
  match toggles (document (world st)) !! i with
  | Some b => Core.on_toggle_click b st
  | None => (Normal tt, st)
  end.
Proof.
  unfold Core.handle, mbind, M_bind, gets.
  by destruct (_ !! i).
Qed.

Lemma Core_handle_cases e st :
  Core.handle e st = (Normal tt, st) \/
  (exists theme, includes Core.themes theme = true /\
                 Core.handle e st = Core.applyTheme theme true st) \/
  (exists entry, Core.handle e st = (Normal tt, (log entry st).2)) \/
  (exists b, e = SystemChange b) \/
  e = TimerFires \/
  (exists r w, e = StorageChange r w).
Proof.
  destruct e as [v | | i | b | | r w].
  - cbn [Core.handle].
    destruct (includes Core.themes v) eqn:E.
    + right; left. eexists. split; [exact E|]. by apply Core_setTheme_valid.
    + right; right; left. eexists. by apply Core_setTheme_invalid.
  - right; left. eexists. split; [apply includes_cycle_target|].
    apply Core_cycleTheme_eq.
  - rewrite Core_handle_ToggleClick.
    destruct (_ !! i) as [b|]; [|by left].
    destruct (Core_on_toggle_click_cases b st) as [H | [H | H]]; eauto.
  - right; right; right; left. by exists b.
  - right; right; right; right; left. reflexivity.
  - right; right; right; right; right. by exists r, w.
Qed.

Lemma Core_handle_SystemChange b st :
  let st1 :=
    mkState (set_prefers_dark b (world st))
      {| Core.currentTheme := Core.currentTheme (this st);
         Core.systemTheme := Str (if b then "dark" else "light") |} in
  Core.handle (SystemChange b) st =
  if strict_eq (Core.currentTheme (this st)) (Str "auto")
  then Core.applyTheme (Str "auto") true st1
  else (Normal tt, st1).
Proof.
  destruct_state st. destruct t as [cur sys]. js_proj.
  unfold Core.handle, Core.on_system_change.
  unfold mbind at 1, M_bind at 1, on_world, modify. js_proj.
  unfold mbind at 1, M_bind at 1, Core.set_systemTheme, set_this, modify.
  js_proj.
  unfold mbind at 1, M_bind at 1, Core.get_currentTheme, gets. js_proj.
  by destruct (strict_eq cur (Str "auto")).
Qed.

End Events.

(** ** What every event preserves *)

Section Invariants.

Lemma pair_eta {A B} (p : A * B) a : p.1 = a -> p = (a, p.2).
Proof. destruct p. cbn. by intros ->. Qed.

Lemma overwritten_refl m : overwritten m m.
Proof. by left. Qed.

Lemma overwritten_is_Some m m' k :
  overwritten m m' -> is_Some (m !! k) -> is_Some (m' !! k).
Proof.
  intros [-> | [v ->]]; [done|]. intros H.
  rewrite lookup_insert_is_Some'. by right.
Qed.

Lemma overwritten_other m m' k :
  overwritten m m' -> k <> "williams-theme" -> m' !! k = m !! k.
Proof.
  intros [-> | [v ->]] Hk; [done|]. by rewrite lookup_insert_ne.
Qed.

Lemma Bundle_applyTheme_overwritten theme a st :
  overwritten (items (localStorage (world st)))
    (items (localStorage (world (Bundle.applyTheme theme a st).2))).
Proof.
  destruct (Bundle_applyTheme_spec theme a st)
    as (_ & _ & _ & _ & _ & _ & _ & -> & _).
  destruct (write_fault _); [by left | right; eauto].
Qed.

Lemma Core_applyTheme_overwritten theme a st :
  overwritten (items (localStorage (world st)))
    (items (localStorage (world (Core.applyTheme theme a st).2))).
Proof.
  destruct (Core_applyTheme_spec theme a st)
    as (_ & _ & _ & _ & _ & _ & _ & -> & _).
  destruct (write_fault _); [by left | right; eauto].
Qed.

(** No event makes a method of main.js throw, and the stored items only
    change by a write to the theme key. *)
Lemma Bundle_handle_spec e st :
  (Bundle.handle e st).1 = Normal tt /\
  overwritten (items (localStorage (world st)))
    (items (localStorage (world (Bundle.handle e st).2))).
Proof.
  destruct (Bundle_handle_cases e st)
    as [H | [[theme H] | [[b ->] | [-> | (r & w & ->)]]]].
  - rewrite H. split; [done | apply overwritten_refl].
  - rewrite H. split;
      [apply Bundle_applyTheme_Normal | apply Bundle_applyTheme_overwritten].
  - rewrite Bundle_handle_SystemChange. cbv zeta.
    destruct (strict_eq _ _); [|split; [done | apply overwritten_refl]].
    destruct (Bundle_updateDocumentTheme_spec
                (Str (if b then "dark" else "light"))
                (mkState (set_prefers_dark b (world st)) (this st)))
      as (H1 & _ & H3 & _).
    split; [done|]. rewrite H3. apply overwritten_refl.
  - destruct (run_timer_spec st) as (H1 & _ & H3 & _).
    split; [done|]. cbn [Bundle.handle]. rewrite H3. apply overwritten_refl.
  - split; [done | apply overwritten_refl].
Qed.

Lemma Core_handle_spec e st :
  (Core.handle e st).1 = Normal tt /\
  overwritten (items (localStorage (world st)))
    (items (localStorage (world (Core.handle e st).2))).
Proof.
  destruct (Core_handle_cases e st)
    as [H | [(theme & _ & H) | [[entry H] | [[b ->] | [-> | (r & w & ->)]]]]].
  - rewrite H. split; [done | apply overwritten_refl].
  - rewrite H. split;
      [apply Core_applyTheme_Normal | apply Core_applyTheme_overwritten].
  - rewrite H. split; [done | apply overwritten_refl].
  - rewrite Core_handle_SystemChange. cbv zeta.
    destruct (strict_eq _ _); [|split; [done | apply overwritten_refl]].
    split; [apply Core_applyTheme_Normal|].
    apply (Core_applyTheme_overwritten (Str "auto") true
             (mkState (set_prefers_dark b (world st)) _)).
  - destruct (run_timer_spec st) as (H1 & _ & H3 & _).
    split; [done|]. cbn [Core.handle]. rewrite H3. apply overwritten_refl.
  - split; [done | apply overwritten_refl].
Qed.

Lemma Bundle_new_spec w :
  (Bundle.new_ThemeManager w).1 = Normal tt /\
  overwritten (items (localStorage w))
    (items (localStorage (world (Bundle.new_ThemeManager w).2))).
Proof.
  destruct (read_fault (localStorage w)) as [e|] eqn:R.
  - rewrite (Bundle_new_fault w e R).
    match goal with |- context [Bundle.init ?s] =>
      destruct (Bundle_init_spec s) as (H1 & _ & _ & _ & H5 & _);
      rewrite H1, H5; split; [done|];
      apply (Bundle_applyTheme_overwritten _ false s)
    end.
  - rewrite (Bundle_new_ok w R).
    match goal with |- context [Bundle.init ?s] =>
      destruct (Bundle_init_spec s) as (H1 & _ & _ & _ & H5 & _);
      rewrite H1, H5; split; [done|];
      apply (Bundle_applyTheme_overwritten _ false s)
    end.
Qed.

Lemma Core_new_spec w :
  (Core.new_ThemeManager w).1 = Normal tt /\
  overwritten (items (localStorage w))
    (items (localStorage (world (Core.new_ThemeManager w).2))).
Proof.
  destruct (read_fault (localStorage w)) as [e|] eqn:R.
  - rewrite (Core_new_fault w e R).
    match goal with |- context [(Core.applyTheme ?p false ≫= _) ?s] =>
      destruct (Core_init_tail_spec p s) as (H1 & _ & _ & _ & H5 & _);
      rewrite H1, H5; split; [done|];
      apply (Core_applyTheme_overwritten _ false s)
    end.
  - rewrite (Core_new_ok w R).
    match goal with |- context [(Core.applyTheme ?p false ≫= _) ?s] =>
      destruct (Core_init_tail_spec p s) as (H1 & _ & _ & _ & H5 & _);
      rewrite H1, H5; split; [done|];
      apply (Core_applyTheme_overwritten _ false s)
    end.
Qed.

Lemma run_events_cons {T} (h : event -> M (State T) unit) e es st :
  (h e st).1 = Normal tt ->
  run_events h (e :: es) st = run_events h es (h e st).2.
Proof.
  intros H. cbn [run_events].
  rewrite (bind_Normal (h e) _ st tt (h e st).2); [done | by apply pair_eta].
Qed.

(** The manager of part_003 caches the system theme in step with the
    media query. *)
Lemma Core_reachable_synced st :
  Core.reachable st ->
  Core.systemTheme (this st) =
  Str (if prefers_dark (world st) then "dark" else "light").
Proof.
  induction 1 as [w | st e Hst IH].
  - destruct (read_fault (localStorage w)) as [e|] eqn:R.
    + rewrite (Core_new_fault w e R).
      match goal with |- context [(Core.applyTheme ?p false ≫= _) ?s] =>
        destruct (Core_init_tail_spec p s) as (_ & -> & _ & _ & _ & -> & _)
      end. done.
    + rewrite (Core_new_ok w R).
      match goal with |- context [(Core.applyTheme ?p false ≫= _) ?s] =>
        destruct (Core_init_tail_spec p s) as (_ & -> & _ & _ & _ & -> & _)
      end. done.
  - destruct (Core_handle_cases e st)
      as [H | [(theme & _ & H) | [[entry H] | [[b ->] | [-> | (r & w & ->)]]]]].
    + by rewrite H.
    + rewrite H.
      destruct (Core_applyTheme_spec theme true st)
        as (_ & -> & _ & _ & -> & _). done.
    + by rewrite H.
    + rewrite Core_handle_SystemChange. cbv zeta.
      destruct (strict_eq _ _); [|done].
      match goal with |- context [Core.applyTheme ?p true ?s] =>
        destruct (Core_applyTheme_spec p true s)
          as (_ & -> & _ & _ & -> & _)
      end. done.
    + destruct (run_timer_spec st) as (_ & H2 & _ & H4 & _).
      cbn [Core.handle]. by rewrite H2, H4.
    + done.
Qed.

End Invariants.

(** * The claims *)

Section Claims.

Lemma Bundle_cycleTheme_current st :
  Bundle.currentTheme (this (Bundle.cycleTheme st).2) =
  cycle_target (Bundle.currentTheme (this st)).
Proof.
  rewrite Bundle_cycleTheme_eq.
  destruct (Bundle_applyTheme_spec
              (cycle_target (Bundle.currentTheme (this st))) true st)
    as (_ & -> & _).
  cbn [Bundle.currentTheme]. apply or_auto_valid, includes_cycle_target.
Qed.

Lemma Core_cycleTheme_current st :
  Core.currentTheme (this (Core.cycleTheme st).2) =
  cycle_target (Core.currentTheme (this st)).
Proof.
  rewrite Core_cycleTheme_eq.
  by destruct (Core_applyTheme_spec
                 (cycle_target (Core.currentTheme (this st))) true st)
    as (_ & -> & _).
Qed.

Lemma includes_spec_next v :
  includes Bundle.themes v = true -> includes Bundle.themes (spec_next v) = true.
Proof. rewrite includes_themes. by intros [-> | [-> | ->]]. Qed.

Lemma effective_dark_iff P dark :
  includes Bundle.themes P = true ->
  (spec_EffectiveTheme P dark = Str "dark" <->
   P = Str "dark" \/ (P = Str "auto" /\ dark = true)) /\
  (spec_EffectiveTheme P dark = Str "dark" \/
   spec_EffectiveTheme P dark = Str "light").
Proof.
  rewrite includes_themes.
  intros [-> | [-> | ->]]; destruct dark; cbn; intuition congruence.
Qed.

(** C1. For every preference [P] among light, dark and auto and every
    system signal, [setTheme P] followed by the read of the effective
    theme ([getActualTheme] in main.js, [getAppliedTheme] in part_003)
    returns dark exactly when [P] is dark, or [P] is auto and the system
    prefers dark; otherwise it returns light.  For part_003 the manager
    is any one reachable from its construction. *)
Theorem C1_setTheme_then_effective_theme
  (P : value) (bst : State Bundle.ThemeManager)
  (cst : State Core.ThemeManager) :
  includes Bundle.themes P = true ->
  Core.reachable cst ->
  (exists st' r,
      Bundle.setTheme P bst = (Normal tt, st') /\
      Bundle.getActualTheme st' = (Normal r, st') /\
      (r = Str "dark" <->
       P = Str "dark" \/ (P = Str "auto" /\ prefers_dark (world bst) = true)) /\
      (r = Str "dark" \/ r = Str "light")) /\
  (exists st' r,
      Core.setTheme P cst = (Normal tt, st') /\
      Core.getAppliedTheme st' = (Normal r, st') /\
      (r = Str "dark" <->
       P = Str "dark" \/ (P = Str "auto" /\ prefers_dark (world cst) = true)) /\
      (r = Str "dark" \/ r = Str "light")).
Proof.
  intros HP Hreach. split.
  - destruct (Bundle_applyTheme_spec P true bst)
      as (H1 & H2 & _ & _ & H5 & _).
    eexists _, _. split; [by apply pair_eta|].
    rewrite Bundle_getActualTheme_eq. split; [reflexivity|].
    unfold Bundle.setTheme. rewrite H2, H5. cbn [Bundle.currentTheme].
    rewrite (or_auto_valid _ HP). by apply effective_dark_iff.
  - rewrite (Core_setTheme_valid _ _ HP).
    destruct (Core_applyTheme_spec P true cst)
      as (H1 & H2 & _ & _ & H5 & _).
    eexists _, _. split; [by apply pair_eta|].
    rewrite Core_getAppliedTheme_eq. split; [reflexivity|].
    rewrite H2. cbn [Core.currentTheme Core.systemTheme].
    rewrite (Core_reachable_synced _ Hreach).
    rewrite or_else_system.
    by apply effective_dark_iff.
Qed.

Lemma C1_witness :
  includes Bundle.themes (Str "auto") = true /\
  Core.reachable
    (Core.handle (SystemChange true) (core_page (Some "light") false)).2 /\
  (exists st' r,
      Bundle.setTheme (Str "auto") (bundle_page None true) = (Normal tt, st') /\
      Bundle.getActualTheme st' = (Normal r, st') /\
      r = Str "dark") /\
  (exists st' r,
      Core.setTheme (Str "auto")
        (Core.handle (SystemChange true) (core_page (Some "light") false)).2
      = (Normal tt, st') /\
      Core.getAppliedTheme st' = (Normal r, st') /\
      r = Str "dark").
Proof.
  assert (H1 : includes Bundle.themes (Str "auto") = true) by reflexivity.
  assert (H2 : Core.reachable
                 (Core.handle (SystemChange true)
                    (core_page (Some "light") false)).2)
    by (apply Core.reachable_handle, Core.reachable_new).
  destruct (C1_setTheme_then_effective_theme (Str "auto")
              (bundle_page None true)
              (Core.handle (SystemChange true)
                 (core_page (Some "light") false)).2 H1 H2)
    as [(bst' & rb & Hb1 & Hb2 & Hb3 & _) (cst' & rc & Hc1 & Hc2 & Hc3 & _)].
  split; [exact H1|]. split; [exact H2|]. split.
  - exists bst', rb. split; [exact Hb1|]. split; [exact Hb2|].
    apply Hb3. right. split; reflexivity.
  - exists cst', rc. split; [exact Hc1|]. split; [exact Hc2|].
    apply Hc3. right. split; reflexivity.
Defined.

(** C2, as stated, fails: [setTheme "blue"] on a page whose preference
    is dark raises no error in either class, and in main.js it changes
    both the in-memory and the stored preference. *)
Lemma C2_counterexample :
  includes Bundle.themes (Str "blue") = false /\
  ~ (exists e, (Bundle.setTheme (Str "blue") (bundle_page (Some "dark") false)).1
               = Throw e) /\
  ~ (exists e, (Core.setTheme (Str "blue") (core_page (Some "dark") false)).1
               = Throw e) /\
  Bundle.currentTheme (this (bundle_page (Some "dark") false)) = Str "dark" /\
  Bundle.currentTheme
    (this (Bundle.setTheme (Str "blue") (bundle_page (Some "dark") false)).2)
  = Str "auto" /\
  stored_theme (bundle_page (Some "dark") false) = Some "dark" /\
  stored_theme
    (Bundle.setTheme (Str "blue") (bundle_page (Some "dark") false)).2
  = Some "auto".
Proof.
  split; [reflexivity|].
  split; [intros [e H]; vm_compute in H; discriminate|].
  split; [intros [e H]; vm_compute in H; discriminate|].
  repeat apply conj; vm_compute; reflexivity.
Qed.

(** C2, amended.  For every value [v] outside light, dark and auto,
    [setTheme v] raises no error and logs a warning.  In part_003 nothing
    else changes: the manager, the stored items, the document and the
    dispatched events are as before.  In main.js the preference falls
    back to auto: the in-memory preference becomes auto and, when
    localStorage accepts the write, so does the stored one. *)
Theorem C2_setTheme_invalid_warns
  (v : value) (bst : State Bundle.ThemeManager)
  (cst : State Core.ThemeManager) :
  includes Bundle.themes v = false ->
  (exists st',
      Bundle.setTheme v bst = (Normal tt, st') /\
      Bundle.currentTheme (this st') = Str "auto" /\
      (write_fault (localStorage (world bst)) = None ->
       stored_theme st' = Some "auto") /\
      console_warn [AStr ("Invalid theme: " +:+ ToString v
                          +:+ ", defaulting to auto")]
        ∈ console (world st')) /\
  (exists st',
      Core.setTheme v cst = (Normal tt, st') /\
      this st' = this cst /\
      localStorage (world st') = localStorage (world cst) /\
      document (world st') = document (world cst) /\
      dispatched (world st') = dispatched (world cst) /\
      console (world st') =
        console (world cst) ++
        [console_warn [AStr ("Theme " +:+ dquote +:+ ToString v +:+ dquote
                             +:+ " is not available")]]).
Proof.
  intros Hv. split.
  - destruct (Bundle_applyTheme_spec v true bst)
      as (H1 & H2 & _ & _ & _ & _ & _ & H8 & H9).
    eexists. split; [by apply pair_eta|].
    unfold Bundle.setTheme, stored_theme.
    rewrite H2, H8, H9, Hv, (or_auto_invalid _ Hv).
    split; [reflexivity|]. split.
    + intros ->. apply lookup_insert_eq.
    + rewrite !elem_of_app, list_elem_of_singleton. auto.
  - rewrite (Core_setTheme_invalid _ _ Hv).
    eexists. split; [reflexivity|]. by destruct cst as [[]].
Qed.

Lemma C2_witness :
  includes Bundle.themes (Str "blue") = false /\
  (exists st',
      Bundle.setTheme (Str "blue") (bundle_page (Some "dark") false)
      = (Normal tt, st') /\
      Bundle.currentTheme (this st') = Str "auto" /\
      stored_theme st' = Some "auto") /\
  (exists st',
      Core.setTheme (Str "blue") (core_page (Some "dark") false)
      = (Normal tt, st') /\
      this st' = this (core_page (Some "dark") false) /\
      localStorage (world st')
      = localStorage (world (core_page (Some "dark") false))).
Proof.
  assert (H1 : includes Bundle.themes (Str "blue") = false) by reflexivity.
  destruct (C2_setTheme_invalid_warns (Str "blue")
              (bundle_page (Some "dark") false)
              (core_page (Some "dark") false) H1)
    as [(bst' & Hb1 & Hb2 & Hb3 & _) (cst' & Hc1 & Hc2 & Hc3 & _)].
  split; [exact H1|]. split.
  - exists bst'. split; [exact Hb1|]. split; [exact Hb2|].
    apply Hb3. reflexivity.
  - exists cst'. split; [exact Hc1|]. split; [exact Hc2 | exact Hc3].
Defined.

(** What construction does in main.js, for every environment: the
    preference is the stored value when that is one of the three
    themes and auto otherwise, and the theme applied to the document is
    the effective theme of that preference. *)
Lemma Bundle_new_resolves (w : World) :
  let st := (Bundle.new_ThemeManager w).2 in
  let p := Bundle.currentTheme (this st) in
  (Bundle.new_ThemeManager w).1 = Normal tt /\
  (forall s, read_fault (localStorage w) = None ->
             items (localStorage w) !! Bundle.storageKey = Some s ->
             includes Bundle.themes (Str s) = true -> p = Str s) /\
  ((is_Some (read_fault (localStorage w)) \/
    items (localStorage w) !! Bundle.storageKey = None \/
    exists s, items (localStorage w) !! Bundle.storageKey = Some s /\
              includes Bundle.themes (Str s) = false) ->
   p = Str "auto") /\
  data_theme (document (world st)) =
    Some (ToString (spec_EffectiveTheme p (prefers_dark w))) /\
  Bundle.getActualTheme st =
    (Normal (spec_EffectiveTheme p (prefers_dark w)), st).
Proof.
  cbv zeta. rewrite Bundle_getActualTheme_eq.
  destruct (read_fault (localStorage w)) as [e|] eqn:R.
  - rewrite (Bundle_new_fault w e R).
    match goal with |- context [Bundle.init ?s] =>
      destruct (Bundle_init_spec s) as (H1 & H2 & H3 & _ & _ & H6 & _);
      destruct (Bundle_applyTheme_spec (Bundle.currentTheme (this s)) false s)
        as (_ & A2 & A3 & _ & A5 & _)
    end.
    rewrite H1, H2, H3, H6, A2, A3, A5. cbn.
    repeat split; done.
  - rewrite (Bundle_new_ok w R).
    match goal with |- context [Bundle.init ?s] =>
      destruct (Bundle_init_spec s) as (H1 & H2 & H3 & _ & _ & H6 & _);
      destruct (Bundle_applyTheme_spec (Bundle.currentTheme (this s)) false s)
        as (_ & A2 & A3 & _ & A5 & _)
    end.
    rewrite H1, H2, H3, H6, A2, A3, A5.
    cbn [this world Bundle.currentTheme].
    repeat split; try done.
    + intros s _ -> Hs. rewrite (or_else_valid _ Hs).
      by apply or_auto_valid.
    + intros [[? [=]] | [-> | (s & -> & Hs)]]; [done|].
      destruct (decide (s = "")) as [-> | Hne]; [done|].
      replace (or_else (Str s) (Str "auto")) with (Str s).
      * by apply or_auto_invalid.
      * unfold or_else, truthy.
        by rewrite (proj2 (String.eqb_neq s "") Hne).
Qed.

(** With nothing stored and a system that does not prefer dark,
    construction applies light in both classes. *)
Lemma new_without_stored_preference_light :
  data_theme (document (world (bundle_page None false))) = Some "light" /\
  (Bundle.getActualTheme (bundle_page None false)).1 = Normal (Str "light") /\
  data_theme (document (world (core_page None false))) = Some "light" /\
  (Core.getAppliedTheme (core_page None false)).1 = Normal (Str "light").
Proof. repeat apply conj; vm_compute; reflexivity. Qed.

(** C3 at the inputs where part_003 departs from it.  With "blue"
    stored, construction keeps blue as the preference and applies it
    instead of falling back to auto.  With nothing stored and a system
    that prefers dark, construction applies light although the effective
    theme, as [getAppliedTheme] reports it right after, is dark: the
    theme is applied before the system theme is detected. *)
Theorem C3_core_init_keeps_invalid_and_misses_dark :
  stored_theme (mkState (fresh_world (Some "blue") false) tt) = Some "blue" /\
  Core.currentTheme (this (core_page (Some "blue") false)) = Str "blue" /\
  data_theme (document (world (core_page (Some "blue") false))) = Some "blue" /\
  stored_theme (mkState (fresh_world None true) tt) = None /\
  prefers_dark (fresh_world None true) = true /\
  Core.currentTheme (this (core_page None true)) = Str "auto" /\
  data_theme (document (world (core_page None true))) = Some "light" /\
  (Core.getAppliedTheme (core_page None true)).1 = Normal (Str "dark") /\
  Bundle.currentTheme (this (bundle_page (Some "blue") false)) = Str "auto" /\
  data_theme (document (world (bundle_page None true))) = Some "dark".
Proof. repeat apply conj; vm_compute; reflexivity. Qed.

(** C4. From a preference among light, dark and auto, [cycleTheme]
    advances the preference along the order light, dark, auto, light and
    then behaves as [setTheme] of the new value.  In both classes the
    call completes normally, the preference afterwards is the next one
    in the order, [data-theme] holds the theme that preference resolves
    to, one [themechange] event carrying the new preference is
    dispatched, a writable localStorage holds the new preference, and the
    call returns the same completion and the same state as [setTheme] of
    the next preference.  Three calls in a row bring the preference back
    to where it started, in particular from light back to light. *)
Theorem C4_cycleTheme_follows_order
  (bst : State Bundle.ThemeManager) (cst : State Core.ThemeManager) :
  includes Bundle.themes (Bundle.currentTheme (this bst)) = true ->
  includes Core.themes (Core.currentTheme (this cst)) = true ->
  let bnext := spec_next (Bundle.currentTheme (this bst)) in
  let cnext := spec_next (Core.currentTheme (this cst)) in
  let bst' := (Bundle.cycleTheme bst).2 in
  let cst' := (Core.cycleTheme cst).2 in
  let beff := spec_EffectiveTheme bnext (prefers_dark (world bst)) in
  let ceff :=
    if strict_eq cnext (Str "auto")
    then or_else (Core.systemTheme (this cst)) (Str "light")
    else cnext in
  ((Bundle.cycleTheme bst).1 = Normal tt /\
   Bundle.currentTheme (this bst') = bnext /\
   data_theme (document (world bst')) = Some (ToString beff) /\
   dispatched (world bst') =
     dispatched (world bst) ++
     [{| type := "themechange";
         detail := [("theme", bnext); ("actualTheme", beff)] |}] /\
   (write_fault (localStorage (world bst)) = None ->
    stored_theme bst' = Some (ToString bnext)) /\
   Bundle.cycleTheme bst = Bundle.setTheme bnext bst /\
   Bundle.currentTheme
     (this (Bundle.cycleTheme
              (Bundle.cycleTheme (Bundle.cycleTheme bst).2).2).2)
   = Bundle.currentTheme (this bst)) /\
  ((Core.cycleTheme cst).1 = Normal tt /\
   Core.currentTheme (this cst') = cnext /\
   data_theme (document (world cst')) = Some (ToString ceff) /\
   dispatched (world cst') =
     dispatched (world cst) ++
     [{| type := "themechange";
         detail := [("theme", cnext); ("appliedTheme", ceff);
                    ("systemTheme", Core.systemTheme (this cst))] |}] /\
   (write_fault (localStorage (world cst)) = None ->
    stored_theme cst' = Some (ToString cnext)) /\
   Core.cycleTheme cst = Core.setTheme cnext cst /\
   Core.currentTheme
     (this (Core.cycleTheme (Core.cycleTheme (Core.cycleTheme cst).2).2).2)
   = Core.currentTheme (this cst)).
Proof.
  intros Hb Hc. cbv zeta.
  assert (Hthrice : forall v, includes Bundle.themes v = true ->
              cycle_target (cycle_target (cycle_target v)) = v).
  { intros v Hv.
    rewrite !cycle_target_valid
      by auto using includes_spec_next, includes_cycle_target.
    apply spec_next_thrice. }
  split.
  - pose proof (includes_spec_next _ Hb) as Hn.
    rewrite !Bundle_cycleTheme_current, (Hthrice _ Hb).
    rewrite Bundle_cycleTheme_eq, (cycle_target_valid _ Hb).
    destruct (Bundle_applyTheme_spec
                (spec_next (Bundle.currentTheme (this bst))) true bst)
      as (H1 & H2 & H3 & H4 & _ & _ & _ & H8 & _).
    rewrite (or_auto_valid _ Hn) in H2, H3, H4, H8.
    split; [exact H1|]. split; [reflexivity|]. split; [exact H3|].
    split; [exact H4|]. split; [|done].
    intros W. unfold stored_theme. rewrite H8, W. apply lookup_insert_eq.
  - pose proof (includes_spec_next _ Hc) as Hn.
    rewrite !Core_cycleTheme_current, (Hthrice _ Hc).
    rewrite Core_cycleTheme_eq, (cycle_target_valid _ Hc).
    destruct (Core_applyTheme_spec
                (spec_next (Core.currentTheme (this cst))) true cst)
      as (H1 & H2 & H3 & H4 & _ & _ & _ & H8 & _).
    split; [exact H1|]. split; [reflexivity|]. split; [exact H3|].
    split; [exact H4|]. split; [|split; [|done]].
    + intros W. unfold stored_theme. rewrite H8, W. apply lookup_insert_eq.
    + symmetry. by apply Core_setTheme_valid.
Qed.

Lemma C4_witness :
  includes Bundle.themes
    (Bundle.currentTheme (this (bundle_page (Some "light") false))) = true /\
  includes Core.themes
    (Core.currentTheme (this (core_page (Some "light") false))) = true /\
  Bundle.currentTheme
    (this (Bundle.cycleTheme (bundle_page (Some "light") false)).2)
  = spec_next (Bundle.currentTheme (this (bundle_page (Some "light") false))) /\
  Bundle.cycleTheme (bundle_page (Some "light") false) =
    Bundle.setTheme
      (spec_next (Bundle.currentTheme (this (bundle_page (Some "light") false))))
      (bundle_page (Some "light") false) /\
  Bundle.currentTheme
    (this (Bundle.cycleTheme
             (Bundle.cycleTheme
                (Bundle.cycleTheme (bundle_page (Some "light") false)).2).2).2)
  = Bundle.currentTheme (this (bundle_page (Some "light") false)) /\
  Core.currentTheme
    (this (Core.cycleTheme (core_page (Some "light") false)).2)
  = spec_next (Core.currentTheme (this (core_page (Some "light") false))) /\
  Core.cycleTheme (core_page (Some "light") false) =
    Core.setTheme
      (spec_next (Core.currentTheme (this (core_page (Some "light") false))))
      (core_page (Some "light") false) /\
  Core.currentTheme
    (this (Core.cycleTheme
             (Core.cycleTheme
                (Core.cycleTheme (core_page (Some "light") false)).2).2).2)
  = Core.currentTheme (this (core_page (Some "light") false)).
Proof.
  assert (H1 : includes Bundle.themes
                 (Bundle.currentTheme
                    (this (bundle_page (Some "light") false))) = true)
    by (vm_compute; reflexivity).
  assert (H2 : includes Core.themes
                 (Core.currentTheme
                    (this (core_page (Some "light") false))) = true)
    by (vm_compute; reflexivity).
  split; [exact H1|]. split; [exact H2|].
  destruct (C4_cycleTheme_follows_order
              (bundle_page (Some "light") false)
              (core_page (Some "light") false) H1 H2)
    as ((_ & B2 & _ & _ & _ & B6 & B7) & (_ & C2 & _ & _ & _ & C6 & C7)).
  repeat apply conj; assumption.
Defined.

(** The media query listener of main.js with preference auto: the new
    theme is applied to the document, nothing is dispatched. *)
Lemma Bundle_system_change_auto b st :
  Bundle.currentTheme (this st) = Str "auto" ->
  let r := Bundle.handle (SystemChange b) st in
  r.1 = Normal tt /\
  data_theme (document (world r.2)) = Some (if b then "dark" else "light") /\
  (Bundle.getActualTheme r.2).1 = Normal (Str (if b then "dark" else "light")) /\
  dispatched (world r.2) = dispatched (world st).
Proof.
  intros Hcur r. subst r. rewrite Bundle_getActualTheme_eq.
  rewrite Bundle_handle_SystemChange. cbv zeta. rewrite Hcur.
  change (strict_eq (Str "auto") (Str "auto")) with true. cbv iota.
  match goal with |- context [Bundle.updateDocumentTheme ?v false ?s] =>
    destruct (Bundle_updateDocumentTheme_spec v s)
      as (H1 & H2 & _ & H4 & H5 & _ & H7)
  end.
  rewrite H1, H2, H4, H5, H7. cbn [this world prefers_dark set_prefers_dark dispatched].
  rewrite Hcur. by destruct b.
Qed.

(** The media query listener of part_003 with preference auto: the new
    theme is applied and exactly one [themechange] event is dispatched,
    carrying the preference and the applied theme. *)
Lemma Core_system_change_auto b st :
  Core.currentTheme (this st) = Str "auto" ->
  let r := Core.handle (SystemChange b) st in
  let eff := Str (if b then "dark" else "light") in
  r.1 = Normal tt /\
  data_theme (document (world r.2)) = Some (ToString eff) /\
  (Core.getAppliedTheme r.2).1 = Normal eff /\
  dispatched (world r.2) =
    dispatched (world st) ++
    [{| type := "themechange";
        detail := [("theme", Str "auto"); ("appliedTheme", eff);
                   ("systemTheme", eff)] |}].
Proof.
  intros Hcur r eff. subst r eff. rewrite Core_getAppliedTheme_eq.
  rewrite Core_handle_SystemChange. cbv zeta. rewrite Hcur.
  change (strict_eq (Str "auto") (Str "auto")) with true. cbv iota.
  match goal with |- context [Core.applyTheme ?v true ?s] =>
    destruct (Core_applyTheme_spec v true s)
      as (H1 & H2 & H3 & H4 & _)
  end.
  rewrite H1, H2, H3, H4.
  cbn [this world dispatched set_prefers_dark Core.currentTheme
       Core.systemTheme fst].
  change (strict_eq (Str "auto") (Str "auto")) with true. cbv iota.
  rewrite or_else_system. done.
Qed.

(** C5 at the input where main.js departs from it.  On a page whose
    preference is auto, the system turns dark and then light again: the
    document follows (dark, then light), but the media query listener
    of main.js dispatches no [themechange] event for either change.  On
    the same page part_003 dispatches exactly one event per change. *)
Theorem C5_bundle_system_change_emits_nothing :
  Bundle.currentTheme (this (bundle_page None false)) = Str "auto" /\
  data_theme
    (document (world (Bundle.handle (SystemChange true)
                        (bundle_page None false)).2)) = Some "dark" /\
  dispatched (world (Bundle.handle (SystemChange true)
                       (bundle_page None false)).2)
  = dispatched (world (bundle_page None false)) /\
  data_theme
    (document (world (Bundle.handle (SystemChange false)
                        (Bundle.handle (SystemChange true)
                           (bundle_page None false)).2).2)) = Some "light" /\
  dispatched (world (Bundle.handle (SystemChange false)
                       (Bundle.handle (SystemChange true)
                          (bundle_page None false)).2).2)
  = dispatched (world (bundle_page None false)) /\
  dispatched (world (Core.handle (SystemChange true)
                       (core_page None false)).2)
  = dispatched (world (core_page None false)) ++
    [{| type := "themechange";
        detail := [("theme", Str "auto"); ("appliedTheme", Str "dark");
                   ("systemTheme", Str "dark")] |}] /\
  dispatched (world (Core.handle (SystemChange false)
                       (Core.handle (SystemChange true)
                          (core_page None false)).2).2)
  = dispatched (world (Core.handle (SystemChange true)
                         (core_page None false)).2) ++
    [{| type := "themechange";
        detail := [("theme", Str "auto"); ("appliedTheme", Str "light");
                   ("systemTheme", Str "light")] |}].
Proof. repeat apply conj; vm_compute; reflexivity. Qed.

(** C6. When the preference is not auto, a change of the system colour
    scheme completes without dispatching an event and leaves the
    document (hence the applied theme), localStorage, the console and
    the in-memory preference as they were. *)
Theorem C6_system_change_ignored_unless_auto
  (b : bool) (bst : State Bundle.ThemeManager)
  (cst : State Core.ThemeManager) :
  Bundle.currentTheme (this bst) <> Str "auto" ->
  Core.currentTheme (this cst) <> Str "auto" ->
  (exists st',
      Bundle.handle (SystemChange b) bst = (Normal tt, st') /\
      dispatched (world st') = dispatched (world bst) /\
      document (world st') = document (world bst) /\
      localStorage (world st') = localStorage (world bst) /\
      console (world st') = console (world bst) /\
      Bundle.currentTheme (this st') = Bundle.currentTheme (this bst)) /\
  (exists st',
      Core.handle (SystemChange b) cst = (Normal tt, st') /\
      dispatched (world st') = dispatched (world cst) /\
      document (world st') = document (world cst) /\
      localStorage (world st') = localStorage (world cst) /\
      console (world st') = console (world cst) /\
      Core.currentTheme (this st') = Core.currentTheme (this cst)).
Proof.
  intros Hb Hc. split.
  - rewrite Bundle_handle_SystemChange. cbv zeta.
    rewrite (proj2 (strict_eq_false _ _) Hb).
    eexists. split; [reflexivity|]. by destruct bst as [[]].
  - rewrite Core_handle_SystemChange. cbv zeta.
    rewrite (proj2 (strict_eq_false _ _) Hc).
    eexists. split; [reflexivity|]. by destruct cst as [[]].
Qed.

Lemma C6_witness :
  Bundle.currentTheme (this (bundle_page (Some "dark") false)) <> Str "auto" /\
  Core.currentTheme (this (core_page (Some "dark") false)) <> Str "auto" /\
  (exists st',
      Bundle.handle (SystemChange true) (bundle_page (Some "dark") false)
      = (Normal tt, st') /\
      dispatched (world st')
      = dispatched (world (bundle_page (Some "dark") false)) /\
      document (world st')
      = document (world (bundle_page (Some "dark") false)) /\
      localStorage (world st')
      = localStorage (world (bundle_page (Some "dark") false)) /\
      console (world st')
      = console (world (bundle_page (Some "dark") false)) /\
      Bundle.currentTheme (this st')
      = Bundle.currentTheme (this (bundle_page (Some "dark") false))) /\
  (exists st',
      Core.handle (SystemChange true) (core_page (Some "dark") false)
      = (Normal tt, st') /\
      dispatched (world st')
      = dispatched (world (core_page (Some "dark") false)) /\
      document (world st')
      = document (world (core_page (Some "dark") false)) /\
      localStorage (world st')
      = localStorage (world (core_page (Some "dark") false)) /\
      console (world st')
      = console (world (core_page (Some "dark") false)) /\
      Core.currentTheme (this st')
      = Core.currentTheme (this (core_page (Some "dark") false))).
Proof.
  assert (H1 : Bundle.currentTheme (this (bundle_page (Some "dark") false))
               <> Str "auto") by (vm_compute; discriminate).
  assert (H2 : Core.currentTheme (this (core_page (Some "dark") false))
               <> Str "auto") by (vm_compute; discriminate).
  split; [exact H1|]. split; [exact H2|].
  exact (C6_system_change_ignored_unless_auto true
           (bundle_page (Some "dark") false)
           (core_page (Some "dark") false) H1 H2).
Defined.


Lemma Core_applyTheme_view theme a (st1 st2 : State Core.ThemeManager) :
  Core.systemTheme (this st1) = Core.systemTheme (this st2) ->
  prefers_dark (world st1) = prefers_dark (world st2) ->
  document (world st1) = document (world st2) ->
  dispatched (world st1) = dispatched (world st2) ->
  page_view (Core.applyTheme theme a st1).2 =
  page_view (Core.applyTheme theme a st2).2 /\
  prefers_dark (world (Core.applyTheme theme a st1).2) =
  prefers_dark (world (Core.applyTheme theme a st2).2).
Proof.
  destruct st1 as [[[it1 rf1 wf1] pd1 doc1 ev1 con1 tm1] [cur1 sys1]].
  destruct st2 as [[[it2 rf2 wf2] pd2 doc2 ev2 con2 tm2] [cur2 sys2]].
  js_proj. intros -> -> -> ->. unfold page_view, Core.applyTheme.
  destruct (strict_eq theme (Str "auto")) eqn:E, wf1, wf2, a; js_eval; done.
Qed.






(** On every page of main.js the preference is one of the three themes
    and the [data-theme] attribute holds the effective theme of the
    current preference and system signal, which is light or dark. *)
Lemma Bundle_reachable_applied_is_effective st :
  Bundle.reachable st ->
  includes Bundle.themes (Bundle.currentTheme (this st)) = true /\
  data_theme (document (world st)) =
    Some (ToString (spec_EffectiveTheme (Bundle.currentTheme (this st))
                      (prefers_dark (world st)))) /\
  (data_theme (document (world st)) = Some "light" \/
   data_theme (document (world st)) = Some "dark").
Proof.
  intros Hst.
  assert (H : includes Bundle.themes (Bundle.currentTheme (this st)) = true /\
              data_theme (document (world st)) =
              Some (ToString (spec_EffectiveTheme (Bundle.currentTheme (this st))
                                (prefers_dark (world st))))).
  { induction Hst as [w | st e Hst [IH1 IH2]].
    - assert (Hinit : forall s,
                 includes Bundle.themes
                   (Bundle.currentTheme (this (Bundle.init s).2)) = true /\
                 data_theme (document (world (Bundle.init s).2)) =
                 Some (ToString
                         (spec_EffectiveTheme
                            (Bundle.currentTheme (this (Bundle.init s).2))
                            (prefers_dark (world (Bundle.init s).2))))).
      { intros s.
        destruct (Bundle_init_spec s) as (_ & -> & -> & _ & _ & -> & _).
        destruct (Bundle_applyTheme_spec (Bundle.currentTheme (this s)) false s)
          as (_ & -> & -> & _ & -> & _).
        split; [apply includes_or_auto | done]. }
      destruct (read_fault (localStorage w)) as [e|] eqn:R.
      + rewrite (Bundle_new_fault w e R). apply Hinit.
      + rewrite (Bundle_new_ok w R). apply Hinit.
    - destruct (Bundle_handle_cases e st)
        as [H | [[theme H] | [[b ->] | [-> | (r & w & ->)]]]].
      + by rewrite H.
      + rewrite H.
        destruct (Bundle_applyTheme_spec theme true st)
          as (_ & -> & -> & _ & -> & _).
        split; [apply includes_or_auto | done].
      + rewrite Bundle_handle_SystemChange. cbv zeta.
        destruct (strict_eq _ _) eqn:E.
        * apply strict_eq_true in E.
          match goal with |- context [Bundle.updateDocumentTheme ?v false ?s] =>
            destruct (Bundle_updateDocumentTheme_spec v s)
              as (_ & -> & _ & -> & _ & _ & ->)
          end.
          cbn [this world prefers_dark set_prefers_dark].
          split; [done|]. by rewrite E.
        * cbn [snd this world prefers_dark set_prefers_dark document].
          split; [done|]. rewrite IH2. unfold spec_EffectiveTheme.
          by rewrite E.
      + destruct (run_timer_spec st) as (_ & H2 & _ & H4 & _ & _ & H7).
        cbn [Bundle.handle]. by rewrite H2, H4, H7.
      + done. }
  destruct H as [H1 H2]. split; [done|]. split; [done|].
  rewrite H2.
  by destruct (effective_light_or_dark _ (prefers_dark (world st)) H1)
    as [-> | ->]; [left | right].
Qed.

(** In part_003 the stored value is the only way in for a theme outside
    the three: construction from a readable key that is absent or holds
    one of the three themes, or from an unreadable localStorage, gives a
    page in good order, and every event keeps it so. *)
Lemma Core_new_well_formed w :
  (is_Some (read_fault (localStorage w)) \/
   items (localStorage w) !! Core.storageKey = None \/
   exists s, items (localStorage w) !! Core.storageKey = Some s /\
             includes Core.themes (Str s) = true) ->
  Core_well_formed (Core.new_ThemeManager w).2.
Proof.
  intros Hw.
  assert (Hp : includes Core.themes
                 (Core.currentTheme (this (Core.new_ThemeManager w).2)) = true).
  { rewrite Core_new_preference.
    destruct (read_fault (localStorage w)) as [e|]; [done|].
    destruct Hw as [[? [=]] | [-> | (s & -> & Hs)]]; [done|].
    unfold Core.defaultTheme. by rewrite (or_else_valid _ Hs). }
  assert (Hinit : forall p s,
             Core.systemTheme (this s) = Null ->
             includes Core.themes p = true ->
             let r := (Core.applyTheme p false;; Core.detectSystemTheme;;
                       Core.setupThemeToggles) s in
             (Core.systemTheme (this r.2) = Str "light" \/
              Core.systemTheme (this r.2) = Str "dark") /\
             light_or_dark (data_theme (document (world r.2)))).
  { intros p s Hs Hv.
    destruct (Core_init_tail_spec p s) as (_ & H2 & H3 & _).
    cbv zeta. rewrite H2, H3. split.
    - cbn [Core.systemTheme]. destruct (prefers_dark (world s)); auto.
    - destruct (Core_applyTheme_spec p false s) as (_ & _ & -> & _).
      rewrite Hs. unfold light_or_dark.
      apply includes_themes in Hv as [-> | [-> | ->]]; cbn; auto. }
  split; [exact Hp|]. clear Hp.
  destruct (read_fault (localStorage w)) as [e|] eqn:R.
  - rewrite (Core_new_fault w e R). by apply Hinit.
  - rewrite (Core_new_ok w R). apply Hinit; [done|].
    destruct Hw as [[? [=]] | [-> | (s & -> & Hs)]]; [done|].
    unfold Core.defaultTheme. by rewrite (or_else_valid _ Hs).
Qed.

Lemma Core_applyTheme_well_formed theme a st :
  includes Core.themes theme = true ->
  (Core.systemTheme (this st) = Str "light" \/
   Core.systemTheme (this st) = Str "dark") ->
  Core_well_formed (Core.applyTheme theme a st).2.
Proof.
  intros Hv Hs. unfold Core_well_formed, light_or_dark.
  destruct (Core_applyTheme_spec theme a st) as (_ & -> & -> & _).
  cbn [Core.currentTheme Core.systemTheme].
  split; [exact Hv|]. split; [exact Hs|].
  apply includes_themes in Hv as [-> | [-> | ->]];
    destruct Hs as [-> | ->]; cbn; auto.
Qed.

Lemma Core_handle_well_formed e st :
  Core_well_formed st -> Core_well_formed (Core.handle e st).2.
Proof.
  intros (Hv & Hs & Hd).
  destruct (Core_handle_cases e st)
    as [H | [(theme & Ht & H) | [[entry H] | [[b ->] | [-> | (r & w & ->)]]]]].
  - by rewrite H.
  - rewrite H. by apply Core_applyTheme_well_formed.
  - rewrite H. by destruct st as [[]].
  - rewrite Core_handle_SystemChange. cbv zeta.
    destruct (strict_eq _ _).
    + apply Core_applyTheme_well_formed; [done|].
      cbn [this Core.systemTheme]. destruct b; auto.
    + split; [done|]. split; [|done].
      cbn [snd this Core.systemTheme]. destruct b; auto.
  - destruct (run_timer_spec st) as (_ & H2 & _ & _ & _ & _ & H7).
    unfold Core_well_formed. cbn [Core.handle]. by rewrite H2, H7.
  - done.
Qed.

(** C8 at the input where part_003 departs from it.  With "blue" under
    the theme key, construction writes blue into [data-theme], and blue
    is also what [getAppliedTheme] then reports; a later change of the
    system colour scheme does not repair it.  main.js applies light on
    the same page. *)
Theorem C8_core_applies_stored_value_verbatim :
  data_theme (document (world (core_page (Some "blue") false))) = Some "blue" /\
  (Core.getAppliedTheme (core_page (Some "blue") false)).1
  = Normal (Str "blue") /\
  data_theme
    (document (world (Core.handle (SystemChange true)
                        (core_page (Some "blue") false)).2)) = Some "blue" /\
  data_theme (document (world (bundle_page (Some "blue") false)))
  = Some "light".
Proof. repeat apply conj; vm_compute; reflexivity. Qed.

Lemma Bundle_run_events_spec es st :
  (run_events Bundle.handle es st).1 = Normal tt /\
  forall k, is_Some (items (localStorage (world st)) !! k) ->
            is_Some (items (localStorage
                              (world (run_events Bundle.handle es st).2)) !! k).
Proof.
  revert st. induction es as [|e es IH]; intros st; [done|].
  destruct (Bundle_handle_spec e st) as [H1 H2].
  rewrite (run_events_cons _ _ _ _ H1).
  destruct (IH (Bundle.handle e st).2) as [IH1 IH2].
  split; [done|]. intros k Hk.
  by apply IH2, (overwritten_is_Some _ _ _ H2).
Qed.

Lemma Core_run_events_spec es st :
  (run_events Core.handle es st).1 = Normal tt /\
  forall k, is_Some (items (localStorage (world st)) !! k) ->
            is_Some (items (localStorage
                              (world (run_events Core.handle es st).2)) !! k).
Proof.
  revert st. induction es as [|e es IH]; intros st; [done|].
  destruct (Core_handle_spec e st) as [H1 H2].
  rewrite (run_events_cons _ _ _ _ H1).
  destruct (IH (Core.handle e st).2) as [IH1 IH2].
  split; [done|]. intros k Hk.
  by apply IH2, (overwritten_is_Some _ _ _ H2).
Qed.

(** After construction on a writable localStorage the theme key holds
    the preference. *)
Lemma Bundle_new_stored w :
  write_fault (localStorage w) = None ->
  items (localStorage (world (Bundle.new_ThemeManager w).2)) =
    <[Bundle.storageKey :=
        ToString (Bundle.currentTheme (this (Bundle.new_ThemeManager w).2))]>
      (items (localStorage w)).
Proof.
  intros W.
  assert (Hinit : forall s,
             write_fault (localStorage (world s)) = None ->
             items (localStorage (world (Bundle.init s).2)) =
             <[Bundle.storageKey :=
                 ToString (Bundle.currentTheme (this (Bundle.init s).2))]>
               (items (localStorage (world s)))).
  { intros s Hs.
    destruct (Bundle_init_spec s) as (_ & -> & _ & _ & -> & _).
    destruct (Bundle_applyTheme_spec (Bundle.currentTheme (this s)) false s)
      as (_ & -> & _ & _ & _ & _ & _ & -> & _).
    by rewrite Hs. }
  destruct (read_fault (localStorage w)) as [e|] eqn:R.
  - rewrite (Bundle_new_fault w e R). by apply Hinit.
  - rewrite (Bundle_new_ok w R). by apply Hinit.
Qed.

Lemma Core_new_stored w :
  write_fault (localStorage w) = None ->
  items (localStorage (world (Core.new_ThemeManager w).2)) =
    <[Core.storageKey :=
        ToString (Core.currentTheme (this (Core.new_ThemeManager w).2))]>
      (items (localStorage w)).
Proof.
  intros W.
  assert (Hinit : forall p s,
             write_fault (localStorage (world s)) = None ->
             let r := (Core.applyTheme p false;; Core.detectSystemTheme;;
                       Core.setupThemeToggles) s in
             items (localStorage (world r.2)) =
             <[Core.storageKey := ToString (Core.currentTheme (this r.2))]>
               (items (localStorage (world s)))).
  { intros p s Hs.
    destruct (Core_init_tail_spec p s) as (_ & H2 & _ & _ & H5 & _).
    cbv zeta. rewrite H2, H5.
    destruct (Core_applyTheme_spec p false s)
      as (_ & _ & _ & _ & _ & _ & _ & -> & _).
    by rewrite Hs. }
  destruct (read_fault (localStorage w)) as [e|] eqn:R.
  - rewrite (Core_new_fault w e R). by apply Hinit.
  - rewrite (Core_new_ok w R). by apply Hinit.
Qed.

(** C9. Construction on a writable localStorage leaves the preference
    it resolved under the theme key; when the key already held one of
    the three themes (and could be read) the stored items are exactly
    as before.  No operation removes a key: whatever key is present
    stays present through construction and through every sequence of
    [setTheme], [cycleTheme], toggle clicks, system changes and timers,
    none of which throws. *)
Theorem C9_theme_key_written_never_deleted
  (w : World) (es : list event) (k : string)
  (bst : State Bundle.ThemeManager) (cst : State Core.ThemeManager) :
  write_fault (localStorage w) = None ->
  is_Some (items (localStorage (world bst)) !! k) ->
  is_Some (items (localStorage (world cst)) !! k) ->
  (stored_theme (Bundle.new_ThemeManager w).2 =
     Some (ToString (Bundle.currentTheme (this (Bundle.new_ThemeManager w).2))) /\
   stored_theme (Core.new_ThemeManager w).2 =
     Some (ToString (Core.currentTheme (this (Core.new_ThemeManager w).2)))) /\
  (forall s,
      read_fault (localStorage w) = None ->
      items (localStorage w) !! "williams-theme" = Some s ->
      includes Bundle.themes (Str s) = true ->
      items (localStorage (world (Bundle.new_ThemeManager w).2))
      = items (localStorage w) /\
      items (localStorage (world (Core.new_ThemeManager w).2))
      = items (localStorage w)) /\
  (forall k',
      is_Some (items (localStorage w) !! k') ->
      is_Some (items (localStorage (world (Bundle.new_ThemeManager w).2)) !! k') /\
      is_Some (items (localStorage (world (Core.new_ThemeManager w).2)) !! k')) /\
  ((run_events Bundle.handle es bst).1 = Normal tt /\
   is_Some (items (localStorage
                     (world (run_events Bundle.handle es bst).2)) !! k)) /\
  ((run_events Core.handle es cst).1 = Normal tt /\
   is_Some (items (localStorage
                     (world (run_events Core.handle es cst).2)) !! k)).
Proof.
  intros W Hb Hc.
  pose proof (Bundle_new_stored w W) as HB.
  pose proof (Core_new_stored w W) as HC.
  repeat apply conj.
  - unfold stored_theme. rewrite HB. apply lookup_insert_eq.
  - unfold stored_theme. rewrite HC. apply lookup_insert_eq.
  - intros s R Hs Hv. split.
    + rewrite HB.
      destruct (Bundle_new_resolves w) as (_ & Hp & _).
      rewrite (Hp s R Hs Hv). by apply insert_id.
    + rewrite HC, Core_new_preference, R.
      change Core.storageKey with "williams-theme". rewrite Hs.
      unfold Core.defaultTheme.
      rewrite (or_else_valid _ Hv). by apply insert_id.
  - intros k' Hk. split.
    + by apply (overwritten_is_Some _ _ _ (proj2 (Bundle_new_spec w))).
    + by apply (overwritten_is_Some _ _ _ (proj2 (Core_new_spec w))).
  - apply Bundle_run_events_spec.
  - by apply Bundle_run_events_spec.
  - apply Core_run_events_spec.
  - by apply Core_run_events_spec.
Qed.

Lemma C9_witness :
  write_fault (localStorage (fresh_world (Some "dark") false)) = None /\
  is_Some (items (localStorage (world (bundle_page (Some "dark") false)))
             !! "williams-theme") /\
  is_Some (items (localStorage (world (core_page (Some "dark") false)))
             !! "williams-theme") /\
  stored_theme (Bundle.new_ThemeManager (fresh_world (Some "dark") false)).2
  = Some (ToString
            (Bundle.currentTheme
               (this (Bundle.new_ThemeManager
                        (fresh_world (Some "dark") false)).2))) /\
  is_Some (items (localStorage
                    (world (run_events Bundle.handle
                              [CallSetTheme (Str "light"); CallCycleTheme;
                               SystemChange true; ToggleClick 0; TimerFires]
                              (bundle_page (Some "dark") false)).2))
             !! "williams-theme") /\
  is_Some (items (localStorage
                    (world (run_events Core.handle
                              [CallSetTheme (Str "light"); CallCycleTheme;
                               SystemChange true; ToggleClick 0; TimerFires]
                              (core_page (Some "dark") false)).2))
             !! "williams-theme").
Proof.
  assert (H1 : write_fault (localStorage (fresh_world (Some "dark") false))
               = None) by reflexivity.
  assert (H2 : is_Some (items (localStorage
                                 (world (bundle_page (Some "dark") false)))
                          !! "williams-theme"))
    by (exists "dark"; vm_compute; reflexivity).
  assert (H3 : is_Some (items (localStorage
                                 (world (core_page (Some "dark") false)))
                          !! "williams-theme"))
    by (exists "dark"; vm_compute; reflexivity).
  destruct (C9_theme_key_written_never_deleted
              (fresh_world (Some "dark") false)
              [CallSetTheme (Str "light"); CallCycleTheme;
               SystemChange true; ToggleClick 0; TimerFires]
              "williams-theme"
              (bundle_page (Some "dark") false)
              (core_page (Some "dark") false) H1 H2 H3)
    as ([Hb _] & _ & _ & [_ Hrb] & [_ Hrc]).
  repeat apply conj; assumption.
Defined.

(** C10. When the in-memory preference is none of light, dark and auto,
    [cycleTheme] completes and sets the preference to light; hence after
    one [cycleTheme] from any state whatsoever the preference is one of
    the three themes. *)
Theorem C10_cycleTheme_restores_validity
  (bst : State Bundle.ThemeManager) (cst : State Core.ThemeManager) :
  includes Bundle.themes (Bundle.currentTheme (this bst)) = false ->
  includes Core.themes (Core.currentTheme (this cst)) = false ->
  (indexOf Bundle.themes (Bundle.currentTheme (this bst)) = (-1)%Z /\
   (Bundle.cycleTheme bst).1 = Normal tt /\
   Bundle.currentTheme (this (Bundle.cycleTheme bst).2) = Str "light") /\
  (indexOf Core.themes (Core.currentTheme (this cst)) = (-1)%Z /\
   (Core.cycleTheme cst).1 = Normal tt /\
   Core.currentTheme (this (Core.cycleTheme cst).2) = Str "light") /\
  (forall st : State Bundle.ThemeManager,
      includes Bundle.themes
        (Bundle.currentTheme (this (Bundle.cycleTheme st).2)) = true) /\
  (forall st : State Core.ThemeManager,
      includes Core.themes
        (Core.currentTheme (this (Core.cycleTheme st).2)) = true).
Proof.
  intros Hb Hc.
  assert (Hidx : forall v, includes Bundle.themes v = false ->
                           indexOf Bundle.themes v = (-1)%Z).
  { intros v Hv. apply not_includes_themes in Hv as (H1 & H2 & H3).
    unfold indexOf, Bundle.themes, indexOf_from.
    by rewrite !(proj2 (strict_eq_false _ _)) by congruence. }
  repeat split.
  - by apply Hidx.
  - rewrite Bundle_cycleTheme_eq. apply Bundle_applyTheme_Normal.
  - rewrite Bundle_cycleTheme_current. by apply cycle_target_invalid.
  - by apply Hidx.
  - rewrite Core_cycleTheme_eq. apply Core_applyTheme_Normal.
  - rewrite Core_cycleTheme_current. by apply cycle_target_invalid.
  - intros st. rewrite Bundle_cycleTheme_current. apply includes_cycle_target.
  - intros st. rewrite Core_cycleTheme_current. apply includes_cycle_target.
Qed.

Lemma C10_witness :
  includes Bundle.themes
    (Bundle.currentTheme
       (this (mkState (fresh_world None false)
                {| Bundle.currentTheme := Str "blue" |}))) = false /\
  includes Core.themes
    (Core.currentTheme (this (core_page (Some "blue") false))) = false /\
  Bundle.currentTheme
    (this (Bundle.cycleTheme
             (mkState (fresh_world None false)
                {| Bundle.currentTheme := Str "blue" |})).2)
  = Str "light" /\
  Core.currentTheme
    (this (Core.cycleTheme (core_page (Some "blue") false)).2)
  = Str "light".
Proof.
  assert (H1 : includes Bundle.themes
                 (Bundle.currentTheme
                    (this (mkState (fresh_world None false)
                             {| Bundle.currentTheme := Str "blue" |})))
               = false) by reflexivity.
  assert (H2 : includes Core.themes
                 (Core.currentTheme (this (core_page (Some "blue") false)))
               = false) by (vm_compute; reflexivity).
  destruct (C10_cycleTheme_restores_validity
              (mkState (fresh_world None false)
                 {| Bundle.currentTheme := Str "blue" |})
              (core_page (Some "blue") false) H1 H2)
    as ((_ & _ & Hb) & (_ & _ & Hc) & _).
  split; [exact H1|]. split; [exact H2|]. split; [exact Hb | exact Hc].
Defined.

End Claims.

(** * Further properties of the theme managers *)

Section ThemePages.

(** The whole document [applyTheme] of main.js leaves behind, and the
    timers it schedules. *)
Lemma Bundle_applyTheme_document theme a st :
  let r := Bundle.applyTheme theme a st in
  let d := document (world st) in
  let p := or_auto theme in
  let eff := spec_EffectiveTheme p (prefers_dark (world st)) in
  document (world r.2) =
    {| data_theme := Some (ToString eff);
       style_transition :=
         if a then "background-color 300ms ease, color 300ms ease"
         else style_transition d;
       classList := classList d;
       meta_theme_color :=
         match meta_theme_color d with
         | Some _ => Some (if strict_eq eff (Str "dark")
                           then "#09090b" else "#500082")
         | None => None
         end;
       getPropertyValue := getPropertyValue d;
       toggles := Bundle.updateToggleButtons_callback p <$> toggles d |} /\
  timers (world r.2) =
    timers (world st) ++ (if a then [ClearStyleTransition] else []).
Proof.
  destruct_state st. js_intro r' Hr.
  unfold or_auto, spec_EffectiveTheme. js_proj.
  unfold Bundle.applyTheme in Hr.
  destruct (includes Bundle.themes theme) eqn:E.
  - apply includes_themes in E.
    destruct E as [-> | [-> | ->]], wf, a; js_done Hr r'.
  - destruct wf, a; js_done Hr r'.
Qed.

(** The same for part_003. *)
Lemma Core_applyTheme_document theme a st :
  let r := Core.applyTheme theme a st in
  let d := document (world st) in
  let actual :=
    if strict_eq theme (Str "auto")
    then or_else (Core.systemTheme (this st)) (Str "light")
    else theme in
  document (world r.2) =
    {| data_theme := Some (ToString actual);
       style_transition := style_transition d;
       classList :=
         if a then classList_add "theme-transitioning" (classList d)
         else classList d;
       meta_theme_color :=
         match meta_theme_color d with
         | Some _ =>
             Some (if strict_eq actual (Str "dark")
                   then trim (getPropertyValue d "--gray-900")
                   else trim (getPropertyValue d "--williams-purple"))
         | None => None
         end;
       getPropertyValue := getPropertyValue d;
       toggles := Core.updateToggleButton theme <$> toggles d |} /\
  timers (world r.2) =
    timers (world st) ++ (if a then [RemoveTransitionClass] else []).
Proof.
  destruct_state st. destruct t as [cur sys]. js_intro r' Hr. js_proj.
  unfold Core.applyTheme in Hr.
  destruct (strict_eq theme (Str "auto")) eqn:E, wf, a; js_done Hr r'.
Qed.

End ThemePages.

Section ThemeInvariants.

Lemma run_timer_document {T} (st : State T) :
  let d := document (world st) in
  let d' := document (world (run_timer st).2) in
  data_theme d' = data_theme d /\
  meta_theme_color d' = meta_theme_color d /\
  toggles d' = toggles d /\
  getPropertyValue d' = getPropertyValue d.
Proof.
  destruct_state st. js_intro r' Hr. js_proj.
  destruct tm as [|[] tm']; js_done Hr r'.
Qed.

Lemma Bundle_updateDocumentTheme_document v st :
  let d := document (world st) in
  document (world (Bundle.updateDocumentTheme v false st).2) =
    {| data_theme := Some (ToString v);
       style_transition := style_transition d;
       classList := classList d;
       meta_theme_color :=
         match meta_theme_color d with
         | Some _ => Some (Bundle_theme_color v)
         | None => None
         end;
       getPropertyValue := getPropertyValue d;
       toggles := toggles d |}.
Proof.
  destruct_state st. cbv zeta. js_proj. unfold Bundle_theme_color.
  by js_lhs.
Qed.

Lemma Bundle_applyTheme_page_ok theme a st :
  Bundle_page_ok (Bundle.applyTheme theme a st).2.
Proof.
  unfold Bundle_page_ok. cbv zeta.
  destruct (Bundle_applyTheme_spec theme a st) as (_ & -> & _ & _ & -> & _).
  destruct (Bundle_applyTheme_document theme a st) as [-> _].
  cbn [Bundle.currentTheme data_theme meta_theme_color toggles].
  split; [apply includes_or_auto|]. split; [done|]. split.
  - intros c. destruct (meta_theme_color _); [|done]. by intros [= <-].
  - intros b (b0 & -> & _)%list_elem_of_fmap. reflexivity.
Qed.

(** Every page of main.js is in good order. *)
Lemma Bundle_reachable_page_ok st :
  Bundle.reachable st -> Bundle_page_ok st.
Proof.
  induction 1 as [w | st e Hst IH].
  - assert (Hinit : forall s, Bundle_page_ok (Bundle.init s).2).
    { intros s.
      pose proof (Bundle_applyTheme_page_ok
                    (Bundle.currentTheme (this s)) false s) as Ha.
      unfold Bundle_page_ok in *. cbv zeta in *.
      by destruct (Bundle_init_spec s) as (_ & -> & -> & _ & _ & -> & _). }
    destruct (read_fault (localStorage w)) as [e|] eqn:R.
    + rewrite (Bundle_new_fault w e R). apply Hinit.
    + rewrite (Bundle_new_ok w R). apply Hinit.
  - destruct (Bundle_handle_cases e st)
      as [H | [[theme H] | [[b ->] | [-> | (r & w & ->)]]]].
    + by rewrite H.
    + rewrite H. apply Bundle_applyTheme_page_ok.
    + rewrite Bundle_handle_SystemChange. cbv zeta.
      destruct IH as (I1 & I2 & I3 & I4).
      destruct (strict_eq _ _) eqn:E.
      * apply strict_eq_true in E. unfold Bundle_page_ok. cbv zeta.
        match goal with |- context [Bundle.updateDocumentTheme ?v false ?s] =>
          destruct (Bundle_updateDocumentTheme_spec v s)
            as (_ & -> & _ & -> & _);
          rewrite (Bundle_updateDocumentTheme_document v s)
        end.
        cbn [this world prefers_dark set_prefers_dark document data_theme
             meta_theme_color toggles].
        rewrite E. split; [done|]. split; [done|]. split.
        -- intros c. destruct (meta_theme_color _); [|done]. by intros [= <-].
        -- intros b0 Hb0. rewrite <- E. by apply I4.
      * unfold Bundle_page_ok. cbv zeta.
        cbn [snd this world prefers_dark set_prefers_dark document].
        assert (Heff : forall x,
                   spec_EffectiveTheme (Bundle.currentTheme (this st)) x
                   = Bundle.currentTheme (this st))
          by (intros x; unfold spec_EffectiveTheme; by rewrite E).
        rewrite Heff. rewrite Heff in I2, I3. done.
    + destruct IH as (I1 & I2 & I3 & I4).
      destruct (run_timer_spec st) as (_ & H2 & _ & H4 & _).
      destruct (run_timer_document st) as (D1 & D2 & D3 & _).
      unfold Bundle_page_ok. cbv zeta. cbn [Bundle.handle].
      by rewrite H2, H4, D1, D2, D3.
    + done.
Qed.

Lemma Bundle_run_events_reachable es st :
  Bundle.reachable st -> Bundle.reachable (run_events Bundle.handle es st).2.
Proof.
  revert st. induction es as [|e es IH]; intros st Hst; [done|].
  rewrite (run_events_cons _ _ _ _ (proj1 (Bundle_handle_spec e st))).
  by apply IH, Bundle.reachable_handle.
Qed.

Lemma Core_run_events_reachable es st :
  Core.reachable st -> Core.reachable (run_events Core.handle es st).2.
Proof.
  revert st. induction es as [|e es IH]; intros st Hst; [done|].
  rewrite (run_events_cons _ _ _ _ (proj1 (Core_handle_spec e st))).
  by apply IH, Core.reachable_handle.
Qed.

End ThemeInvariants.

Section Frames.

Lemma fmap_proj_preserved {A B} (p : A -> B) (f : A -> A) (l : list A) :
  (forall x, p (f x) = p x) -> p <$> (f <$> l) = p <$> l.
Proof.
  intros H. induction l as [|x l IH]; [done|].
  cbn [fmap list_fmap]. change (list_fmap A A f l) with (f <$> l).
  change (list_fmap A B p ?k) with (p <$> k).
  by rewrite H, IH.
Qed.

Lemma Bundle_frame_refl d : Bundle_frame d d.
Proof. by repeat split. Qed.

Lemma Bundle_frame_trans d1 d2 d3 :
  Bundle_frame d1 d2 -> Bundle_frame d2 d3 -> Bundle_frame d1 d3.
Proof.
  intros (A1 & A2 & A3 & A4 & A5) (B1 & B2 & B3 & B4 & B5).
  unfold Bundle_frame.
  rewrite B1, B2, B3, B4, B5. done.
Qed.

Lemma Core_frame_refl d : Core_frame d d.
Proof. by repeat split. Qed.

Lemma Core_frame_trans d1 d2 d3 :
  Core_frame d1 d2 -> Core_frame d2 d3 -> Core_frame d1 d3.
Proof.
  intros (A1 & A2 & A3 & A4 & A5 & A6) (B1 & B2 & B3 & B4 & B5 & B6).
  unfold Core_frame.
  rewrite B1, B2, B3, B4, B5, B6. done.
Qed.

Lemma Bundle_applyTheme_frame theme a st :
  Bundle_frame (document (world st))
               (document (world (Bundle.applyTheme theme a st).2)).
Proof.
  destruct (Bundle_applyTheme_document theme a st) as [-> _].
  unfold Bundle_frame.
  cbn [getPropertyValue meta_theme_color toggles].
  split; [done|]. split.
  { destruct (meta_theme_color _); [|done]. split; eauto. }
  split; [by apply fmap_proj_preserved|].
  split; by apply fmap_proj_preserved.
Qed.

Lemma Bundle_updateDocumentTheme_frame v st :
  Bundle_frame (document (world st))
               (document (world (Bundle.updateDocumentTheme v false st).2)).
Proof.
  rewrite Bundle_updateDocumentTheme_document.
  unfold Bundle_frame.
  cbn [getPropertyValue meta_theme_color toggles].
  split; [done|]. split; [|done].
  destruct (meta_theme_color _); [|done]. split; eauto.
Qed.

Lemma run_timer_classList {T} (st : State T) :
  timers (world st) = [] \/
  (exists ts, timers (world st) = ClearStyleTransition :: ts /\
              classList (document (world (run_timer st).2))
              = classList (document (world st)) /\
              style_transition (document (world (run_timer st).2)) = "" /\
              timers (world (run_timer st).2) = ts) \/
  (exists ts, timers (world st) = RemoveTransitionClass :: ts /\
              classList (document (world (run_timer st).2))
              = classList_remove "theme-transitioning"
                  (classList (document (world st))) /\
              style_transition (document (world (run_timer st).2))
              = style_transition (document (world st)) /\
              timers (world (run_timer st).2) = ts).
Proof.
  destruct_state st. js_proj.
  destruct tm as [|[] tm']; [by left | right; left | right; right];
    exists tm'; (split; [done|]);
    match goal with |- context [run_timer ?s] =>
      remember (run_timer s) as r' eqn:Hr end;
    js_done Hr r'.
Qed.

Lemma run_timer_empty {T} (st : State T) :
  timers (world st) = [] -> run_timer st = (Normal tt, st).
Proof.
  destruct_state st. js_proj. intros ->. reflexivity.
Qed.

End Frames.

Section BundlePages.

Lemma Bundle_handle_frame e st :
  Bundle_frame (document (world st))
               (document (world (Bundle.handle e st).2)).
Proof.
  destruct (Bundle_handle_cases e st)
    as [H | [[theme H] | [[b ->] | [-> | (r & w & ->)]]]].
  - rewrite H. apply Bundle_frame_refl.
  - rewrite H. apply Bundle_applyTheme_frame.
  - rewrite Bundle_handle_SystemChange. cbv zeta.
    destruct (strict_eq _ _); [|apply Bundle_frame_refl].
    apply (Bundle_updateDocumentTheme_frame _
             (mkState (set_prefers_dark b (world st)) (this st))).
  - destruct (run_timer_document st) as (D1 & D2 & D3 & D4).
    unfold Bundle_frame. cbn [Bundle.handle]. by rewrite D2, D3, D4.
  - apply Bundle_frame_refl.
Qed.

Lemma Bundle_new_frame w :
  Bundle_frame (document w) (document (world (Bundle.new_ThemeManager w).2)).
Proof.
  assert (Hinit : forall s,
             Bundle_frame (document (world s))
                          (document (world (Bundle.init s).2))).
  { intros s. destruct (Bundle_init_spec s) as (_ & _ & -> & _).
    apply Bundle_applyTheme_frame. }
  destruct (read_fault (localStorage w)) as [e|] eqn:R.
  - rewrite (Bundle_new_fault w e R).
    match goal with |- context [Bundle.init ?s] =>
      refine (eq_ind _ (fun d => Bundle_frame d _) (Hinit s) _ _) end.
    reflexivity.
  - rewrite (Bundle_new_ok w R).
    match goal with |- context [Bundle.init ?s] =>
      refine (eq_ind _ (fun d => Bundle_frame d _) (Hinit s) _ _) end.
    reflexivity.
Qed.

Lemma Bundle_run_events_frame es st :
  Bundle_frame (document (world st))
               (document (world (run_events Bundle.handle es st).2)).
Proof.
  revert st. induction es as [|e es IH]; intros st; [apply Bundle_frame_refl|].
  rewrite (run_events_cons _ _ _ _ (proj1 (Bundle_handle_spec e st))).
  eapply Bundle_frame_trans; [apply Bundle_handle_frame | apply IH].
Qed.

End BundlePages.

Section CorePages.

Lemma Core_init_tail_document p st :
  let r := (Core.applyTheme p false;; Core.detectSystemTheme;;
            Core.setupThemeToggles) st in
  let d := document (world (Core.applyTheme p false st).2) in
  document (world r.2) =
    {| data_theme := data_theme d;
       style_transition := style_transition d;
       classList := classList d;
       meta_theme_color := meta_theme_color d;
       getPropertyValue := getPropertyValue d;
       toggles := Core.updateToggleButton p <$> toggles d |} /\
  timers (world r.2) = timers (world (Core.applyTheme p false st).2).
Proof.
  intros r d. subst r d.
  destruct (Core_applyTheme_spec p false st) as (H1 & H2 & _).
  rewrite (bind_Normal _ _ st tt (Core.applyTheme p false st).2)
    by (rewrite (surjective_pairing (Core.applyTheme _ _ _)) at 1;
        by rewrite Core_applyTheme_Normal).
  destruct (Core.applyTheme p false st).2
    as [[ls pd' [dt stl cl mt gp tg] ev con tm] t'] eqn:E.
  js_proj_in H2. subst t'.
  match goal with |- document (world (?x).2) = _ /\ _ =>
    remember x as r' eqn:Hr end.
  js_done Hr r'.
Qed.

Lemma Core_updateToggleButton_ok theme b :
  Core_toggle_ok theme (Core.updateToggleButton theme b).
Proof.
  unfold Core_toggle_ok, Core.updateToggleButton.
  cbn [aria_pressed themeToggle theme_text theme_icons].
  split; [done|]. split.
  - intros t. destruct (theme_text b); [|done]. by intros [= <-].
  - intros icon (i0 & -> & _)%list_elem_of_fmap. reflexivity.
Qed.

Lemma Core_updateToggleButton_frame theme (l : list Button) :
  let l' := Core.updateToggleButton theme <$> l in
  themeToggle <$> l' = themeToggle <$> l /\
  aria_label <$> l' = aria_label <$> l /\
  has_theme_text <$> l' = has_theme_text <$> l /\
  (fun b => fst <$> theme_icons b) <$> l'
    = (fun b => fst <$> theme_icons b) <$> l.
Proof.
  cbv zeta. repeat apply conj; apply fmap_proj_preserved; intros b;
    unfold Core.updateToggleButton;
    unfold has_theme_text;
    cbn [themeToggle aria_label theme_text theme_icons];
    try done.
  - by destruct (theme_text b).
  - by apply fmap_proj_preserved.
Qed.

End CorePages.

Section CoreInvariants.

Lemma Core_applyTheme_frame theme a st :
  Core_frame (document (world st))
             (document (world (Core.applyTheme theme a st).2)).
Proof.
  destruct (Core_applyTheme_document theme a st) as [-> _].
  unfold Core_frame.
  cbn [getPropertyValue meta_theme_color toggles].
  split; [done|]. split.
  { destruct (meta_theme_color _); [|done]. split; eauto. }
  apply Core_updateToggleButton_frame.
Qed.

Lemma Core_init_tail_frame p st :
  Core_frame (document (world st))
    (document (world ((Core.applyTheme p false;; Core.detectSystemTheme;;
                       Core.setupThemeToggles) st).2)).
Proof.
  eapply Core_frame_trans; [apply (Core_applyTheme_frame p false)|].
  destruct (Core_init_tail_document p st) as [-> _].
  unfold Core_frame.
  cbn [getPropertyValue meta_theme_color toggles].
  split; [done|]. split; [done|].
  apply Core_updateToggleButton_frame.
Qed.

Lemma log_state {T} (entry : log_entry) (st : State T) :
  this (log entry st).2 = this st /\
  document (world (log entry st).2) = document (world st) /\
  prefers_dark (world (log entry st).2) = prefers_dark (world st) /\
  localStorage (world (log entry st).2) = localStorage (world st) /\
  dispatched (world (log entry st).2) = dispatched (world st) /\
  timers (world (log entry st).2) = timers (world st).
Proof. by destruct_state st. Qed.

Lemma Core_handle_frame e st :
  Core_frame (document (world st)) (document (world (Core.handle e st).2)).
Proof.
  destruct (Core_handle_cases e st)
    as [H | [(theme & _ & H) | [[entry H] | [[b ->] | [-> | (r & w & ->)]]]]].
  - rewrite H. apply Core_frame_refl.
  - rewrite H. apply Core_applyTheme_frame.
  - rewrite H. cbn [snd].
    destruct (log_state entry st) as (_ & -> & _). apply Core_frame_refl.
  - rewrite Core_handle_SystemChange. cbv zeta.
    destruct (strict_eq _ _); [|apply Core_frame_refl].
    apply (Core_applyTheme_frame (Str "auto") true
             (mkState (set_prefers_dark b (world st)) _)).
  - destruct (run_timer_document st) as (D1 & D2 & D3 & D4).
    unfold Core_frame. cbn [Core.handle]. by rewrite D2, D3, D4.
  - apply Core_frame_refl.
Qed.

Lemma Core_new_frame w :
  Core_frame (document w) (document (world (Core.new_ThemeManager w).2)).
Proof.
  destruct (read_fault (localStorage w)) as [e|] eqn:R.
  - rewrite (Core_new_fault w e R).
    match goal with |- context [(Core.applyTheme ?p false ≫= _) ?s] =>
      refine (eq_ind _ (fun d => Core_frame d _) (Core_init_tail_frame p s) _ _)
    end.
    reflexivity.
  - rewrite (Core_new_ok w R).
    match goal with |- context [(Core.applyTheme ?p false ≫= _) ?s] =>
      refine (eq_ind _ (fun d => Core_frame d _) (Core_init_tail_frame p s) _ _)
    end.
    reflexivity.
Qed.

Lemma Core_run_events_frame es st :
  Core_frame (document (world st))
             (document (world (run_events Core.handle es st).2)).
Proof.
  revert st. induction es as [|e es IH]; intros st; [apply Core_frame_refl|].
  rewrite (run_events_cons _ _ _ _ (proj1 (Core_handle_spec e st))).
  eapply Core_frame_trans; [apply Core_handle_frame | apply IH].
Qed.

(** On every page of part_003 the toggle buttons show the preference. *)
Lemma Core_reachable_toggles st :
  Core.reachable st ->
  forall b, b ∈ toggles (document (world st)) ->
            Core_toggle_ok (Core.currentTheme (this st)) b.
Proof.
  induction 1 as [w | st e Hst IH].
  - assert (Htail : forall p s b,
               let r := (Core.applyTheme p false;; Core.detectSystemTheme;;
                         Core.setupThemeToggles) s in
               b ∈ toggles (document (world r.2)) ->
               Core_toggle_ok (Core.currentTheme (this r.2)) b).
    { intros p s b. cbv zeta.
      destruct (Core_init_tail_spec p s) as (_ & -> & _).
      destruct (Core_init_tail_document p s) as [-> _].
      cbn [toggles Core.currentTheme].
      intros (b0 & -> & _)%list_elem_of_fmap.
      apply Core_updateToggleButton_ok. }
    destruct (read_fault (localStorage w)) as [e|] eqn:R.
    + rewrite (Core_new_fault w e R). apply Htail.
    + rewrite (Core_new_ok w R). apply Htail.
  - assert (Happly : forall theme a s b,
               b ∈ toggles (document (world (Core.applyTheme theme a s).2)) ->
               Core_toggle_ok
                 (Core.currentTheme (this (Core.applyTheme theme a s).2)) b).
    { intros theme a s b.
      destruct (Core_applyTheme_spec theme a s) as (_ & -> & _).
      destruct (Core_applyTheme_document theme a s) as [-> _].
      cbn [toggles Core.currentTheme].
      intros (b0 & -> & _)%list_elem_of_fmap.
      apply Core_updateToggleButton_ok. }
    destruct (Core_handle_cases e st)
      as [H | [(theme & _ & H) | [[entry H] | [[b ->] | [-> | (r & w & ->)]]]]].
    + by rewrite H.
    + rewrite H. apply Happly.
    + rewrite H. cbn [snd].
      destruct (log_state entry st) as (-> & -> & _). done.
    + rewrite Core_handle_SystemChange. cbv zeta.
      destruct (strict_eq _ _); [apply Happly | done].
    + destruct (run_timer_spec st) as (_ & H2 & _).
      destruct (run_timer_document st) as (_ & _ & D3 & _).
      cbn [Core.handle]. by rewrite H2, D3.
    + done.
Qed.

End CoreInvariants.

Section FurtherThemeProperties.

Lemma valid_is_string P :
  includes Bundle.themes P = true -> P = Str (ToString P).
Proof. rewrite includes_themes. by intros [-> | [-> | ->]]. Qed.

(** X1. In main.js a preference survives a reload.  When localStorage can
    be read and written, [setTheme P] for one of the three themes,
    followed by the construction of a new manager in the environment the
    call left behind, gives a manager whose preference is [P], a
    [data-theme] attribute that holds the effective theme of [P], and
    [P] still under the theme key. *)
Theorem X1_bundle_preference_survives_reload
  (P : value) (st : State Bundle.ThemeManager) :
  includes Bundle.themes P = true ->
  read_fault (localStorage (world st)) = None ->
  write_fault (localStorage (world st)) = None ->
  let w' := world (Bundle.setTheme P st).2 in
  let st' := (Bundle.new_ThemeManager w').2 in
  (Bundle.new_ThemeManager w').1 = Normal tt /\
  Bundle.currentTheme (this st') = P /\
  data_theme (document (world st')) =
    Some (ToString (spec_EffectiveTheme P (prefers_dark (world st)))) /\
  stored_theme st' = Some (ToString P).
Proof.
  intros HP R W. cbv zeta. unfold Bundle.setTheme.
  destruct (Bundle_applyTheme_spec P true st)
    as (_ & _ & _ & _ & H5 & H6 & H7 & H8 & _).
  rewrite W, (or_auto_valid _ HP) in H8. rewrite R in H6. rewrite W in H7.
  set (w' := world (Bundle.applyTheme P true st).2) in *.
  destruct (Bundle_new_resolves w') as (N1 & N2 & _ & N4 & _).
  assert (Hp : Bundle.currentTheme (this (Bundle.new_ThemeManager w').2) = P).
  { transitivity (Str (ToString P)); [|by rewrite <- valid_is_string].
    apply N2; [exact H6 | | by rewrite <- valid_is_string].
    rewrite H8. apply lookup_insert_eq. }
  split; [exact N1|]. split; [exact Hp|]. split.
  - by rewrite N4, Hp, H5.
  - unfold stored_theme. rewrite (Bundle_new_stored w' H7), Hp.
    apply lookup_insert_eq.
Qed.

Lemma X1_witness :
  Bundle.currentTheme
    (this (Bundle.new_ThemeManager
             (world (Bundle.setTheme (Str "dark") (bundle_page None false)).2)).2)
  = Str "dark" /\
  stored_theme
    (Bundle.new_ThemeManager
       (world (Bundle.setTheme (Str "dark") (bundle_page None false)).2)).2
  = Some "dark".
Proof.
  destruct (X1_bundle_preference_survives_reload
              (Str "dark") (bundle_page None false))
    as (_ & H2 & _ & H4);
    [vm_compute; reflexivity | vm_compute; reflexivity
     | vm_compute; reflexivity |].
  split; [exact H2 | exact H4].
Defined.

(** X2. In part_003 a preference survives a reload.  When localStorage
    can be read and written, [setTheme P] for one of the three themes,
    followed by the construction of a new manager in the environment the
    call left behind, gives a manager whose preference is [P], whose
    [getAppliedTheme] returns the effective theme of [P], and [P] still
    under the theme key. *)
Theorem X2_core_preference_survives_reload
  (P : value) (st : State Core.ThemeManager) :
  includes Core.themes P = true ->
  read_fault (localStorage (world st)) = None ->
  write_fault (localStorage (world st)) = None ->
  let w' := world (Core.setTheme P st).2 in
  let st' := (Core.new_ThemeManager w').2 in
  (Core.new_ThemeManager w').1 = Normal tt /\
  Core.currentTheme (this st') = P /\
  Core.getAppliedTheme st' =
    (Normal (spec_EffectiveTheme P (prefers_dark (world st))), st') /\
  stored_theme st' = Some (ToString P).
Proof.
  intros HP R W. cbv zeta. rewrite (Core_setTheme_valid _ _ HP).
  destruct (Core_applyTheme_spec P true st)
    as (_ & _ & _ & _ & H5 & H6 & H7 & H8 & _).
  rewrite W in H8. rewrite R in H6. rewrite W in H7.
  set (w' := world (Core.applyTheme P true st).2) in *.
  assert (Hp : Core.currentTheme (this (Core.new_ThemeManager w').2) = P).
  { rewrite Core_new_preference, H6, H8, lookup_insert_eq.
    unfold Core.defaultTheme. rewrite or_else_valid.
    - by rewrite <- valid_is_string.
    - by rewrite <- valid_is_string. }
  split; [apply Core_new_spec|]. split; [exact Hp|]. split.
  - rewrite Core_getAppliedTheme_eq.
    rewrite (Core_reachable_synced _ (Core.reachable_new w')).
    rewrite Hp, or_else_system.
    assert (Hd : prefers_dark (world (Core.new_ThemeManager w').2)
                 = prefers_dark (world st)).
    { rewrite <- H5.
      destruct (read_fault (localStorage w')) as [e|] eqn:R'.
      - rewrite (Core_new_fault w' e R').
        match goal with |- context [(Core.applyTheme ?p false ≫= _) ?s] =>
          by destruct (Core_init_tail_spec p s) as (_ & _ & _ & _ & _ & -> & _)
        end.
      - rewrite (Core_new_ok w' R').
        match goal with |- context [(Core.applyTheme ?p false ≫= _) ?s] =>
          by destruct (Core_init_tail_spec p s) as (_ & _ & _ & _ & _ & -> & _)
        end. }
    by rewrite Hd.
  - unfold stored_theme.
    rewrite (Core_new_stored w' H7), Hp.
    apply lookup_insert_eq.
Qed.

Lemma X2_witness :
  Core.currentTheme
    (this (Core.new_ThemeManager
             (world (Core.setTheme (Str "dark") (core_page None false)).2)).2)
  = Str "dark" /\
  stored_theme
    (Core.new_ThemeManager
       (world (Core.setTheme (Str "dark") (core_page None false)).2)).2
  = Some "dark".
Proof.
  destruct (X2_core_preference_survives_reload
              (Str "dark") (core_page None false))
    as (_ & H2 & _ & H4);
    [vm_compute; reflexivity | vm_compute; reflexivity
     | vm_compute; reflexivity |].
  split; [exact H2 | exact H4].
Defined.

(** X3. Every [applyTheme] of main.js dispatches exactly one
    [themechange] event, whatever the requested theme (valid or not) and
    whether animated or not.  Its [theme] is what [getTheme] returns
    afterwards, which is one of the three themes; its [actualTheme] is
    what [getActualTheme] returns afterwards, and is the value written to
    [data-theme]. *)
Theorem X3_bundle_themechange_payload
  (theme : value) (a : bool) (st : State Bundle.ThemeManager) :
  let st' := (Bundle.applyTheme theme a st).2 in
  exists p eff,
    dispatched (world st') =
      dispatched (world st) ++
      [{| type := "themechange";
          detail := [("theme", p); ("actualTheme", eff)] |}] /\
    Bundle.getTheme st' = (Normal p, st') /\
    includes Bundle.themes p = true /\
    Bundle.getActualTheme st' = (Normal eff, st') /\
    data_theme (document (world st')) = Some (ToString eff).
Proof.
  cbv zeta.
  destruct (Bundle_applyTheme_spec theme a st)
    as (_ & H2 & H3 & H4 & H5 & _).
  eexists _, _. split; [exact H4|]. split.
  { unfold Bundle.getTheme, Bundle.get_currentTheme, gets. by rewrite H2. }
  split; [apply includes_or_auto|]. split; [|exact H3].
  rewrite Bundle_getActualTheme_eq, H2, H5. reflexivity.
Qed.

(** X4. Every [applyTheme] of part_003 dispatches exactly one
    [themechange] event.  Its [theme] is what [getTheme] returns
    afterwards, its [appliedTheme] is what [getAppliedTheme] returns
    afterwards and is the value written to [data-theme], and its
    [systemTheme] is the cached system theme, which the call leaves as it
    was. *)
Theorem X4_core_themechange_payload
  (theme : value) (a : bool) (st : State Core.ThemeManager) :
  let st' := (Core.applyTheme theme a st).2 in
  exists applied,
    dispatched (world st') =
      dispatched (world st) ++
      [{| type := "themechange";
          detail := [("theme", theme); ("appliedTheme", applied);
                     ("systemTheme", Core.systemTheme (this st))] |}] /\
    Core.getTheme st' = (Normal theme, st') /\
    Core.getAppliedTheme st' = (Normal applied, st') /\
    data_theme (document (world st')) = Some (ToString applied) /\
    Core.systemTheme (this st') = Core.systemTheme (this st).
Proof.
  cbv zeta.
  destruct (Core_applyTheme_spec theme a st)
    as (_ & H2 & H3 & H4 & _).
  eexists. split; [exact H4|]. split.
  { unfold Core.getTheme, Core.get_currentTheme, gets. by rewrite H2. }
  split; [|split; [exact H3 | by rewrite H2]].
  rewrite Core_getAppliedTheme_eq, H2. reflexivity.
Qed.

End FurtherThemeProperties.

Section PageInvariants.

(** X5. main.js keeps the page in step with the preference.  After the
    construction of the manager in any environment and any sequence of
    calls, toggle clicks, system changes, timers and storage failures,
    the preference is one of the three themes, [data-theme] holds the
    effective theme of the preference and the live system signal, that
    value is light or dark, and [getActualTheme] returns it. *)
Theorem X5_bundle_pages_show_effective_theme (w : World) (es : list event) :
  let st := (run_events Bundle.handle es (Bundle.new_ThemeManager w).2).2 in
  let cur := Bundle.currentTheme (this st) in
  let eff := spec_EffectiveTheme cur (prefers_dark (world st)) in
  includes Bundle.themes cur = true /\
  data_theme (document (world st)) = Some (ToString eff) /\
  light_or_dark (data_theme (document (world st))) /\
  Bundle.getActualTheme st = (Normal eff, st).
Proof.
  cbv zeta.
  destruct (Bundle_reachable_page_ok _
              (Bundle_run_events_reachable es _ (Bundle.reachable_new w)))
    as (I1 & I2 & _).
  split; [exact I1|]. split; [exact I2|]. split.
  - rewrite I2. unfold light_or_dark.
    by destruct (effective_light_or_dark _
                   (prefers_dark
                      (world (run_events Bundle.handle es
                                (Bundle.new_ThemeManager w).2).2)) I1)
      as [-> | ->]; [left | right].
  - apply Bundle_getActualTheme_eq.
Qed.

(** X6. main.js never creates or removes the [theme-color] meta tag, and
    on every page after construction a tag that is there holds the
    colour of the theme shown: [#09090b] with [data-theme] dark,
    [#500082] with [data-theme] light. *)
Theorem X6_bundle_meta_theme_color_follows_theme
  (w : World) (es : list event) :
  let st := (run_events Bundle.handle es (Bundle.new_ThemeManager w).2).2 in
  let d := document (world st) in
  (is_Some (meta_theme_color d) <-> is_Some (meta_theme_color (document w))) /\
  forall c, meta_theme_color d = Some c ->
            (data_theme d = Some "dark" /\ c = "#09090b") \/
            (data_theme d = Some "light" /\ c = "#500082").
Proof.
  cbv zeta. split.
  - destruct (Bundle_new_frame w) as (_ & A & _).
    destruct (Bundle_run_events_frame es (Bundle.new_ThemeManager w).2)
      as (_ & B & _).
    by rewrite B.
  - destruct (Bundle_reachable_page_ok _
                (Bundle_run_events_reachable es _ (Bundle.reachable_new w)))
      as (I1 & I2 & I3 & _).
    intros c Hc. rewrite (I3 c Hc), I2.
    destruct (effective_light_or_dark _
                (prefers_dark
                   (world (run_events Bundle.handle es
                             (Bundle.new_ThemeManager w).2).2)) I1)
      as [-> | ->]; [right | left]; done.
Qed.

(** X7. On every page of main.js after construction each toggle button
    is labelled with the preference: its [aria-label] reads
    [Current theme: P. Click to change theme.].  The manager never adds,
    removes or reorders toggle buttons, and never changes their mode,
    their [aria-pressed] attribute or their [svg]. *)
Theorem X7_bundle_toggle_labels (w : World) (es : list event) :
  let st := (run_events Bundle.handle es (Bundle.new_ThemeManager w).2).2 in
  let bs := toggles (document (world st)) in
  (forall b, b ∈ bs ->
     aria_label b =
     Some ("Current theme: " +:+ ToString (Bundle.currentTheme (this st))
           +:+ ". Click to change theme.")) /\
  themeToggle <$> bs = themeToggle <$> toggles (document w) /\
  aria_pressed <$> bs = aria_pressed <$> toggles (document w) /\
  has_svg <$> bs = has_svg <$> toggles (document w).
Proof.
  cbv zeta. split.
  - apply (Bundle_reachable_page_ok _
             (Bundle_run_events_reachable es _ (Bundle.reachable_new w))).
  - destruct (Bundle_frame_trans _ _ _ (Bundle_new_frame w)
                (Bundle_run_events_frame es (Bundle.new_ThemeManager w).2))
      as (_ & _ & A & B & C).
    done.
Qed.

(** X8. On every page of part_003 after construction each toggle button
    shows the preference: [aria-pressed] is true exactly on the buttons
    whose mode is the preference, a text child holds the preference, and
    an icon is displayed ([block]) exactly when it is the icon of the
    preference ([none] otherwise).  The manager never adds, removes or
    reorders toggle buttons or their icons, and never changes a button's
    mode or label. *)
Theorem X8_core_toggle_state (w : World) (es : list event) :
  let st := (run_events Core.handle es (Core.new_ThemeManager w).2).2 in
  let cur := Core.currentTheme (this st) in
  let bs := toggles (document (world st)) in
  (forall b, b ∈ bs ->
     aria_pressed b = Some (strict_eq (Str (themeToggle b)) cur) /\
     (forall t, theme_text b = Some t -> t = ToNullableString cur) /\
     (forall icon, icon ∈ theme_icons b ->
        icon.2 = if strict_eq (Str icon.1) cur then "block" else "none")) /\
  themeToggle <$> bs = themeToggle <$> toggles (document w) /\
  aria_label <$> bs = aria_label <$> toggles (document w) /\
  has_theme_text <$> bs = has_theme_text <$> toggles (document w) /\
  (fun b => fst <$> theme_icons b) <$> bs
    = (fun b => fst <$> theme_icons b) <$> toggles (document w).
Proof.
  cbv zeta. split.
  - apply (Core_reachable_toggles _
             (Core_run_events_reachable es _ (Core.reachable_new w))).
  - destruct (Core_frame_trans _ _ _ (Core_new_frame w)
                (Core_run_events_frame es (Core.new_ThemeManager w).2))
      as (_ & _ & A).
    exact A.
Qed.

(** X9. part_003 resolves auto with the live system setting.  After the
    construction of the manager in any environment and any sequence of
    events, the cached system theme is the one the media query reports,
    and [getAppliedTheme] returns the preference when it is not auto and
    that system theme when it is. *)
Theorem X9_core_applied_theme_tracks_system (w : World) (es : list event) :
  let st := (run_events Core.handle es (Core.new_ThemeManager w).2).2 in
  Core.systemTheme (this st) =
    Str (if prefers_dark (world st) then "dark" else "light") /\
  Core.getAppliedTheme st =
    (Normal (spec_EffectiveTheme (Core.currentTheme (this st))
               (prefers_dark (world st))), st).
Proof.
  cbv zeta.
  pose proof (Core_reachable_synced _
                (Core_run_events_reachable es _ (Core.reachable_new w))) as H.
  split; [exact H|].
  rewrite Core_getAppliedTheme_eq, H, or_else_system. reflexivity.
Qed.

Lemma Core_run_events_well_formed es st :
  Core_well_formed st -> Core_well_formed (run_events Core.handle es st).2.
Proof.
  revert st. induction es as [|e es IH]; intros st Hst; [done|].
  rewrite (run_events_cons _ _ _ _ (proj1 (Core_handle_spec e st))).
  by apply IH, Core_handle_well_formed.
Qed.

(** X10. In part_003 the stored value is the only way in for a theme
    outside the three.  When localStorage cannot be read, or the theme
    key is absent, or it holds one of the three themes, then after
    construction and any sequence of events the preference is one of the
    three themes, the cached system theme is light or dark, and
    [data-theme] is light or dark. *)
Theorem X10_core_pages_stay_well_formed (w : World) (es : list event) :
  (is_Some (read_fault (localStorage w)) \/
   items (localStorage w) !! Core.storageKey = None \/
   exists s, items (localStorage w) !! Core.storageKey = Some s /\
             includes Core.themes (Str s) = true) ->
  let st := (run_events Core.handle es (Core.new_ThemeManager w).2).2 in
  includes Core.themes (Core.currentTheme (this st)) = true /\
  (Core.systemTheme (this st) = Str "light" \/
   Core.systemTheme (this st) = Str "dark") /\
  light_or_dark (data_theme (document (world st))).
Proof.
  intros Hw.
  apply (Core_run_events_well_formed es _ (Core_new_well_formed w Hw)).
Qed.

Lemma X10_witness :
  light_or_dark
    (data_theme
       (document
          (world (run_events Core.handle
                    [CallCycleTheme; SystemChange true; ToggleClick 3;
                     CallSetTheme (Str "blue"); TimerFires]
                    (Core.new_ThemeManager (fresh_world (Some "dark") false)).2).2))).
Proof.
  refine (proj2 (proj2 (X10_core_pages_stay_well_formed
                          (fresh_world (Some "dark") false)
                          [CallCycleTheme; SystemChange true; ToggleClick 3;
                           CallSetTheme (Str "blue"); TimerFires] _))).
  right; right. exists "dark". split; vm_compute; reflexivity.
Defined.

End PageInvariants.

Section Transitions.

Lemma classList_add_elem c l : c ∈ classList_add c l.
Proof.
  unfold classList_add. destruct (existsb _ l) eqn:E.
  - apply existsb_exists in E as (x & Hx & Heq).
    apply String.eqb_eq in Heq as ->. by apply list_elem_of_In.
  - apply elem_of_app. right. by apply list_elem_of_singleton.
Qed.

Lemma classList_add_idem c l :
  classList_add c (classList_add c l) = classList_add c l.
Proof.
  unfold classList_add at 1.
  destruct (existsb _ (classList_add c l)) eqn:E; [done|].
  exfalso. apply Bool.not_true_iff_false in E. apply E.
  apply existsb_exists. exists c. split.
  - apply list_elem_of_In, classList_add_elem.
  - apply String.eqb_refl.
Qed.

Lemma classList_remove_not_elem c l : c ∉ classList_remove c l.
Proof.
  unfold classList_remove. intros H%list_elem_of_In%filter_In.
  destruct H as [_ H]. by rewrite String.eqb_refl in H.
Qed.

Lemma classList_remove_add c l :
  classList_remove c (classList_add c l) = classList_remove c l.
Proof.
  unfold classList_add. destruct (existsb _ l); [done|].
  unfold classList_remove. rewrite List.filter_app. cbn [List.filter].
  rewrite String.eqb_refl. cbn [negb]. apply app_nil_r.
Qed.

Lemma classList_remove_other c x l :
  x <> c -> (x ∈ classList_remove c l <-> x ∈ l).
Proof.
  intros Hx. unfold classList_remove.
  rewrite !list_elem_of_In, filter_In.
  split; [by intros [? _]|]. intros H. split; [done|].
  apply Bool.negb_true_iff. by apply String.eqb_neq.
Qed.

(** X11. The transition of main.js.  [setTheme] sets the inline
    transition of the root element, leaves its class list alone and
    schedules one timer; when no other timer is pending, that timer
    clears the inline transition again and changes nothing else of what
    the page shows.  The construction of the manager applies the theme
    without any of this. *)
Theorem X11_bundle_transition_is_cleared
  (theme : value) (st : State Bundle.ThemeManager) (w : World) :
  timers (world st) = [] ->
  let st1 := (Bundle.setTheme theme st).2 in
  let st2 := (Bundle.handle TimerFires st1).2 in
  (style_transition (document (world st1))
   = "background-color 300ms ease, color 300ms ease" /\
   classList (document (world st1)) = classList (document (world st)) /\
   timers (world st1) = [ClearStyleTransition]) /\
  (style_transition (document (world st2)) = "" /\
   timers (world st2) = [] /\
   this st2 = this st1 /\
   data_theme (document (world st2)) = data_theme (document (world st1)) /\
   meta_theme_color (document (world st2))
   = meta_theme_color (document (world st1)) /\
   toggles (document (world st2)) = toggles (document (world st1)) /\
   dispatched (world st2) = dispatched (world st1)) /\
  (style_transition (document (world (Bundle.new_ThemeManager w).2))
   = style_transition (document w) /\
   timers (world (Bundle.new_ThemeManager w).2) = timers w).
Proof.
  intros Ht. cbv zeta. unfold Bundle.setTheme.
  destruct (Bundle_applyTheme_document theme true st) as [D T].
  rewrite Ht in T. cbn [app] in T.
  split; [|split].
  - rewrite D. done.
  - cbn [Bundle.handle].
    set (st1 := (Bundle.applyTheme theme true st).2) in *.
    destruct (run_timer_spec st1) as (_ & S2 & _ & _ & S5 & _ & S7).
    destruct (run_timer_document st1) as (_ & D2 & D3 & _).
    destruct (run_timer_classList st1)
      as [E | [(ts & E & _ & C3 & C4) | (ts & E & _)]];
      rewrite T in E; [done | | done].
    injection E as <-. done.
  - assert (Hinit : forall s,
               style_transition (document (world (Bundle.init s).2))
               = style_transition (document (world s)) /\
               timers (world (Bundle.init s).2) = timers (world s)).
    { intros s. rewrite Bundle_init_eq. cbv zeta.
      match goal with |- context [log ?e ?s'] =>
        destruct (log_state e s') as (_ & -> & _ & _ & _ & ->) end.
      destruct (Bundle_applyTheme_document
                  (Bundle.currentTheme (this s)) false s) as [-> ->].
      split; [done | apply app_nil_r]. }
    destruct (read_fault (localStorage w)) as [e|] eqn:R.
    + rewrite (Bundle_new_fault w e R).
      match goal with |- context [Bundle.init ?s] =>
        destruct (Hinit s) as [-> ->] end.
      done.
    + rewrite (Bundle_new_ok w R).
      match goal with |- context [Bundle.init ?s] =>
        destruct (Hinit s) as [-> ->] end.
      done.
Qed.

Lemma X11_witness :
  style_transition
    (document
       (world (Bundle.handle TimerFires
                 (Bundle.setTheme (Str "dark") (bundle_page None false)).2).2))
  = "".
Proof.
  destruct (X11_bundle_transition_is_cleared
              (Str "dark") (bundle_page None false) (fresh_world None false))
    as (_ & (H & _) & _); [vm_compute; reflexivity | exact H].
Defined.

(** X12. The transition of part_003.  An animated [applyTheme] puts the
    class [theme-transitioning] on the root element (once, also when it
    is already there), leaves the inline transition alone and schedules
    one timer; when no other timer is pending, that timer removes the
    class, keeps every other class and changes nothing else of what the
    page shows.  The construction of the manager applies the theme
    without any of this. *)
Theorem X12_core_transition_class_is_removed
  (theme : value) (st : State Core.ThemeManager) (w : World) :
  timers (world st) = [] ->
  let st1 := (Core.applyTheme theme true st).2 in
  let st2 := (Core.handle TimerFires st1).2 in
  (classList (document (world st1))
   = classList_add "theme-transitioning" (classList (document (world st))) /\
   "theme-transitioning" ∈ classList (document (world st1)) /\
   style_transition (document (world st1))
   = style_transition (document (world st)) /\
   timers (world st1) = [RemoveTransitionClass]) /\
  (("theme-transitioning" ∉ classList (document (world st2))) /\
   (forall c, c <> "theme-transitioning" ->
      (c ∈ classList (document (world st2))
       <-> c ∈ classList (document (world st)))) /\
   timers (world st2) = [] /\
   this st2 = this st1 /\
   data_theme (document (world st2)) = data_theme (document (world st1)) /\
   meta_theme_color (document (world st2))
   = meta_theme_color (document (world st1)) /\
   toggles (document (world st2)) = toggles (document (world st1)) /\
   dispatched (world st2) = dispatched (world st1)) /\
  (classList (document (world (Core.new_ThemeManager w).2))
   = classList (document w) /\
   timers (world (Core.new_ThemeManager w).2) = timers w).
Proof.
  intros Ht. cbv zeta.
  destruct (Core_applyTheme_document theme true st) as [D T].
  rewrite Ht in T. cbn [app] in T.
  split; [|split].
  - rewrite D. cbn [classList style_transition].
    split; [done|]. split; [apply classList_add_elem | done].
  - cbn [Core.handle].
    set (st1 := (Core.applyTheme theme true st).2) in *.
    destruct (run_timer_spec st1) as (_ & S2 & _ & _ & S5 & _ & S7).
    destruct (run_timer_document st1) as (_ & D2 & D3 & _).
    destruct (run_timer_classList st1)
      as [E | [(ts & E & _) | (ts & E & C2 & _ & C4)]];
      rewrite T in E; [done | done |].
    injection E as <-.
    pose proof (f_equal classList D) as HC. cbn [classList] in HC.
    rewrite C2, HC, classList_remove_add.
    split; [apply classList_remove_not_elem|].
    split; [intros c Hc; by apply classList_remove_other|].
    done.
  - assert (Htail : forall p s,
               let r := (Core.applyTheme p false;; Core.detectSystemTheme;;
                         Core.setupThemeToggles) s in
               classList (document (world r.2)) = classList (document (world s)) /\
               timers (world r.2) = timers (world s)).
    { intros p s. cbv zeta.
      destruct (Core_init_tail_document p s) as [-> ->].
      destruct (Core_applyTheme_document p false s) as [-> ->].
      split; [done | apply app_nil_r]. }
    destruct (read_fault (localStorage w)) as [e|] eqn:R.
    + rewrite (Core_new_fault w e R).
      match goal with |- context [(Core.applyTheme ?p false ≫= _) ?s] =>
        destruct (Htail p s) as [-> ->] end.
      done.
    + rewrite (Core_new_ok w R).
      match goal with |- context [(Core.applyTheme ?p false ≫= _) ?s] =>
        destruct (Htail p s) as [-> ->] end.
      done.
Qed.

Lemma X12_witness :
  "theme-transitioning" ∈
    classList (document (world (Core.applyTheme (Str "dark") true
                                  (core_page None false)).2)) /\
  ("theme-transitioning" ∉
    classList
      (document
         (world (Core.handle TimerFires
                   (Core.applyTheme (Str "dark") true
                      (core_page None false)).2).2))).
Proof.
  destruct (X12_core_transition_class_is_removed
              (Str "dark") (core_page None false) (fresh_world None false))
    as ((_ & H1 & _) & (H2 & _) & _); [vm_compute; reflexivity |].
  split; [exact H1 | exact H2].
Defined.

End Transitions.

Section Idempotence.

Lemma trim_end_cons_nonempty a s :
  is_space a = false -> trim_end (String a s) <> "".
Proof.
  intros Ha. cbn [trim_end]. destruct (trim_end s); [by rewrite Ha | done].
Qed.

Lemma trim_Theme_nonempty s :
  String.eqb (trim ("Theme: " +:+ s)) "" = false.
Proof.
  apply String.eqb_neq.
  change (trim ("Theme: " +:+ s))
    with (trim_end (String "T" ("heme: " +:+ s))).
  by apply trim_end_cons_nonempty.
Qed.

Lemma Bundle_updateToggleButtons_callback_idem p b :
  Bundle.updateToggleButtons_callback p
    (Bundle.updateToggleButtons_callback p b)
  = Bundle.updateToggleButtons_callback p b.
Proof.
  unfold Bundle.updateToggleButtons_callback.
  cbn [themeToggle aria_label textContent has_svg aria_pressed theme_text
       theme_icons].
  destruct (negb (String.eqb (trim (textContent b)) "") && negb (has_svg b))
    eqn:E.
  - apply andb_prop in E as [_ E2]. rewrite trim_Theme_nonempty, E2. done.
  - rewrite E. done.
Qed.

Lemma Core_updateToggleButton_idem theme b :
  Core.updateToggleButton theme (Core.updateToggleButton theme b)
  = Core.updateToggleButton theme b.
Proof.
  unfold Core.updateToggleButton.
  cbn [themeToggle aria_label textContent has_svg aria_pressed theme_text
       theme_icons].
  f_equal.
  - by destruct (theme_text b).
  - by apply fmap_proj_preserved.
Qed.

Lemma Storage_eq (s1 s2 : Storage) :
  items s1 = items s2 -> read_fault s1 = read_fault s2 ->
  write_fault s1 = write_fault s2 -> s1 = s2.
Proof. destruct s1, s2. cbn. by intros -> -> ->. Qed.

(** X13. Applying the same theme twice in a row with [applyTheme] of
    main.js (valid or not, animated or not) leaves the manager, the
    whole document (root attributes, meta tag, every toggle button),
    localStorage and the system signal exactly as the first call left
    them.  The second call repeats what the first call appended and
    nothing else: the same [themechange] event, the same console
    warnings (an invalid theme and a failing write are warned about
    again; there is none for a valid theme on a writable localStorage)
    and, when animated, one more timer. *)
Theorem X13_bundle_applyTheme_idempotent
  (theme : value) (a : bool) (st : State Bundle.ThemeManager) :
  let st1 := (Bundle.applyTheme theme a st).2 in
  let st2 := (Bundle.applyTheme theme a st1).2 in
  this st2 = this st1 /\
  document (world st2) = document (world st1) /\
  localStorage (world st2) = localStorage (world st1) /\
  prefers_dark (world st2) = prefers_dark (world st1) /\
  (exists e, dispatched (world st1) = dispatched (world st) ++ [e] /\
             dispatched (world st2) = dispatched (world st1) ++ [e]) /\
  (exists logs,
      console (world st1) = console (world st) ++ logs /\
      console (world st2) = console (world st1) ++ logs /\
      logs =
        (if includes Bundle.themes theme then []
         else [console_warn [AStr ("Invalid theme: " +:+ ToString theme
                                   +:+ ", defaulting to auto")]]) ++
        match write_fault (localStorage (world st)) with
        | None => []
        | Some _ => [console_warn [AStr "Could not store theme preference"]]
        end) /\
  (exists ts,
      timers (world st1) = timers (world st) ++ ts /\
      timers (world st2) = timers (world st1) ++ ts /\
      ts = if a then [ClearStyleTransition] else []).
Proof.
  cbv zeta.
  set (st1 := (Bundle.applyTheme theme a st).2).
  destruct (Bundle_applyTheme_spec theme a st)
    as (_ & A2 & _ & A4 & A5 & A6 & A7 & A8 & A9).
  destruct (Bundle_applyTheme_spec theme a st1)
    as (_ & B2 & _ & B4 & B5 & B6 & B7 & B8 & B9).
  destruct (Bundle_applyTheme_document theme a st) as [AD AT].
  destruct (Bundle_applyTheme_document theme a st1) as [BD BT].
  fold st1 in A2, A4, A5, A6, A7, A8, A9, AD, AT.
  split; [by rewrite B2, A2|].
  split; [|split; [|split; [exact B5|split; [|split]]]].
  - rewrite BD, A5. rewrite AD.
    cbn [style_transition classList meta_theme_color getPropertyValue
         toggles].
    f_equal.
    + by destruct a.
    + by destruct (meta_theme_color (document (world st))).
    + apply fmap_proj_preserved, Bundle_updateToggleButtons_callback_idem.
  - apply Storage_eq; [|done|done].
    rewrite B8, A7, A8.
    destruct (write_fault (localStorage (world st))); [done|].
    apply insert_insert_eq.
  - eexists. split; [exact A4|]. by rewrite B4, A5.
  - eexists. split; [exact A9|]. split; [|reflexivity].
    by rewrite B9, A7.
  - eexists. split; [exact AT|]. split; [exact BT | reflexivity].
Qed.

(** X14. Applying the same theme twice in a row with [applyTheme] of
    part_003 leaves the manager, the whole document (root attributes and
    classes, meta tag, every toggle button), localStorage and the system
    signal exactly as the first call left them.  The second call repeats
    what the first call appended and nothing else: the same
    [themechange] event, the same console warning when the write fails
    (none on a writable localStorage) and, when animated, one more
    timer. *)
Theorem X14_core_applyTheme_idempotent
  (theme : value) (a : bool) (st : State Core.ThemeManager) :
  let st1 := (Core.applyTheme theme a st).2 in
  let st2 := (Core.applyTheme theme a st1).2 in
  this st2 = this st1 /\
  document (world st2) = document (world st1) /\
  localStorage (world st2) = localStorage (world st1) /\
  prefers_dark (world st2) = prefers_dark (world st1) /\
  (exists e, dispatched (world st1) = dispatched (world st) ++ [e] /\
             dispatched (world st2) = dispatched (world st1) ++ [e]) /\
  (exists logs,
      console (world st1) = console (world st) ++ logs /\
      console (world st2) = console (world st1) ++ logs /\
      logs =
        match write_fault (localStorage (world st)) with
        | None => []
        | Some e => [console_warn [AStr "Failed to store theme:"; AExn e]]
        end) /\
  (exists ts,
      timers (world st1) = timers (world st) ++ ts /\
      timers (world st2) = timers (world st1) ++ ts /\
      ts = if a then [RemoveTransitionClass] else []).
Proof.
  cbv zeta.
  set (st1 := (Core.applyTheme theme a st).2).
  destruct (Core_applyTheme_spec theme a st)
    as (_ & A2 & _ & A4 & A5 & A6 & A7 & A8 & A9).
  destruct (Core_applyTheme_spec theme a st1)
    as (_ & B2 & _ & B4 & B5 & B6 & B7 & B8 & B9).
  destruct (Core_applyTheme_document theme a st) as [AD AT].
  destruct (Core_applyTheme_document theme a st1) as [BD BT].
  fold st1 in A2, A4, A5, A6, A7, A8, A9, AD, AT.
  assert (Hs : Core.systemTheme (this st1) = Core.systemTheme (this st))
    by (by rewrite A2).
  split; [by rewrite B2, A2|].
  split; [|split; [|split; [exact B5|split; [|split]]]].
  - rewrite BD, Hs. rewrite AD.
    cbn [style_transition classList meta_theme_color getPropertyValue
         toggles].
    f_equal.
    + destruct a; [apply classList_add_idem | done].
    + by destruct (meta_theme_color (document (world st))).
    + apply fmap_proj_preserved, Core_updateToggleButton_idem.
  - apply Storage_eq; [|done|done].
    rewrite B8, A7, A8.
    destruct (write_fault (localStorage (world st))); [done|].
    apply insert_insert_eq.
  - eexists. split; [exact A4|]. by rewrite B4, Hs.
  - eexists. split; [exact A9|]. split; [|reflexivity].
    by rewrite B9, A7.
  - eexists. split; [exact AT|]. split; [exact BT | reflexivity].
Qed.

End Idempotence.

Section StorageAndClicks.

Lemma Bundle_run_events_other_keys es st k :
  k <> "williams-theme" ->
  items (localStorage (world (run_events Bundle.handle es st).2)) !! k
  = items (localStorage (world st)) !! k.
Proof.
  intros Hk. revert st. induction es as [|e es IH]; intros st; [done|].
  destruct (Bundle_handle_spec e st) as [H1 H2].
  rewrite (run_events_cons _ _ _ _ H1), IH.
  by apply overwritten_other.
Qed.

Lemma Core_run_events_other_keys es st k :
  k <> "williams-theme" ->
  items (localStorage (world (run_events Core.handle es st).2)) !! k
  = items (localStorage (world st)) !! k.
Proof.
  intros Hk. revert st. induction es as [|e es IH]; intros st; [done|].
  destruct (Core_handle_spec e st) as [H1 H2].
  rewrite (run_events_cons _ _ _ _ H1), IH.
  by apply overwritten_other.
Qed.

(** X15. Neither theme manager touches a localStorage key other than
    [williams-theme]: through construction and any sequence of calls,
    toggle clicks, system changes, timers and storage failures, every
    other key keeps its value, and an absent one stays absent. *)
Theorem X15_other_storage_keys_untouched
  (k : string) (w : World) (es : list event) :
  k <> "williams-theme" ->
  items (localStorage
           (world (run_events Bundle.handle es
                     (Bundle.new_ThemeManager w).2).2)) !! k
  = items (localStorage w) !! k /\
  items (localStorage
           (world (run_events Core.handle es
                     (Core.new_ThemeManager w).2).2)) !! k
  = items (localStorage w) !! k.
Proof.
  intros Hk. split.
  - rewrite (Bundle_run_events_other_keys _ _ _ Hk).
    by apply overwritten_other; [apply Bundle_new_spec|].
  - rewrite (Core_run_events_other_keys _ _ _ Hk).
    by apply overwritten_other; [apply Core_new_spec|].
Qed.

Lemma X15_witness :
  items (localStorage
           (world (run_events Bundle.handle
                     [CallSetTheme (Str "dark"); CallCycleTheme]
                     (Bundle.new_ThemeManager
                        (fresh_world (Some "light") false)).2).2))
    !! "williams-font"
  = None.
Proof.
  destruct (X15_other_storage_keys_untouched
              "williams-font" (fresh_world (Some "light") false)
              [CallSetTheme (Str "dark"); CallCycleTheme]) as [H _];
    [by vm_compute | rewrite H; vm_compute; reflexivity].
Defined.

Lemma Bundle_toggle_click_listener_eq b st :
  (Bundle.on_toggle_click b st).1 = Normal tt ->
  Bundle.toggle_click_listener b st
  = (Normal true, (Bundle.on_toggle_click b st).2).
Proof.
  unfold Bundle.toggle_click_listener, mbind, M_bind, mret, M_ret.
  destruct (Bundle.on_toggle_click b st) as [[[]|e] s]; cbn; [done|].
  intros [=].
Qed.

Lemma Core_toggle_click_listener_eq b st :
  (Core.on_toggle_click b st).1 = Normal tt ->
  Core.toggle_click_listener b st
  = (Normal true, (Core.on_toggle_click b st).2).
Proof.
  unfold Core.toggle_click_listener, mbind, M_bind, mret, M_ret.
  destruct (Core.on_toggle_click b st) as [[[]|e] s]; cbn; [done|].
  intros [=].
Qed.

Lemma cycle_target_cases cur :
  cycle_target cur =
  if includes Bundle.themes cur then spec_next cur else Str "light".
Proof.
  destruct (includes Bundle.themes cur) eqn:E;
    [by apply cycle_target_valid | by apply cycle_target_invalid].
Qed.

(** X16. A click on a toggle button of main.js.  The listener never
    throws and always prevents the default action of the click.  On a
    [cycle] button it leaves the page with the next preference in the
    order light, dark, auto (light when the preference was none of
    them); on a button whose mode is one of the three themes, with that
    mode as the preference.  In both cases [data-theme] holds the
    effective theme of the new preference, one [themechange] event
    carrying it is dispatched, the change is animated, and a writable
    localStorage holds the new preference.  On a button with any other
    mode the listener changes nothing: manager, document, localStorage,
    events, console and timers are as before.  A click that reaches no
    toggle button changes nothing either. *)
Theorem X16_bundle_toggle_click
  (i : nat) (st : State Bundle.ThemeManager) :
  match toggles (document (world st)) !! i with
  | None => Bundle.handle (ToggleClick i) st = (Normal tt, st)
  | Some b =>
      let cur := Bundle.currentTheme (this st) in
      let target :=
        if String.eqb (themeToggle b) "cycle"
        then Some (if includes Bundle.themes cur then spec_next cur
                   else Str "light")
        else if includes Bundle.themes (Str (themeToggle b))
             then Some (Str (themeToggle b))
             else None in
      exists st',
        Bundle.toggle_click_listener b st = (Normal true, st') /\
        Bundle.handle (ToggleClick i) st = (Normal tt, st') /\
        match target with
        | None => st' = st
        | Some p =>
            let eff := spec_EffectiveTheme p (prefers_dark (world st)) in
            Bundle.currentTheme (this st') = p /\
            data_theme (document (world st')) = Some (ToString eff) /\
            dispatched (world st') =
              dispatched (world st) ++
              [{| type := "themechange";
                  detail := [("theme", p); ("actualTheme", eff)] |}] /\
            style_transition (document (world st'))
            = "background-color 300ms ease, color 300ms ease" /\
            timers (world st') = timers (world st) ++ [ClearStyleTransition] /\
            (write_fault (localStorage (world st)) = None ->
             stored_theme st' = Some (ToString p))
        end
  end.
Proof.
  rewrite Bundle_handle_ToggleClick.
  destruct (_ !! i) as [b|]; [|done].
  cbv zeta.
  assert (Happly : forall p,
    includes Bundle.themes p = true ->
    Bundle.on_toggle_click b st = Bundle.applyTheme p true st ->
    exists st',
      Bundle.toggle_click_listener b st = (Normal true, st') /\
      Bundle.on_toggle_click b st = (Normal tt, st') /\
      Bundle.currentTheme (this st') = p /\
      data_theme (document (world st'))
      = Some (ToString (spec_EffectiveTheme p (prefers_dark (world st)))) /\
      dispatched (world st') =
        dispatched (world st) ++
        [{| type := "themechange";
            detail := [("theme", p);
                       ("actualTheme",
                        spec_EffectiveTheme p (prefers_dark (world st)))] |}] /\
      style_transition (document (world st'))
      = "background-color 300ms ease, color 300ms ease" /\
      timers (world st') = timers (world st) ++ [ClearStyleTransition] /\
      (write_fault (localStorage (world st)) = None ->
       stored_theme st' = Some (ToString p))).
  { intros p Hp Heq.
    destruct (Bundle_applyTheme_spec p true st)
      as (H1 & H2 & H3 & H4 & _ & _ & _ & H8 & _).
    destruct (Bundle_applyTheme_document p true st) as [D T].
    rewrite (or_auto_valid _ Hp) in H2, H3, H4, H8.
    exists (Bundle.applyTheme p true st).2.
    split; [|split; [|split; [|split; [|split; [|split; [|split]]]]]].
    - rewrite Bundle_toggle_click_listener_eq by (by rewrite Heq).
      by rewrite Heq.
    - rewrite Heq. by apply pair_eta.
    - by rewrite H2.
    - exact H3.
    - exact H4.
    - by rewrite D.
    - exact T.
    - intros W. unfold stored_theme. rewrite H8, W. apply lookup_insert_eq. }
  unfold Bundle.on_toggle_click in Happly |- *.
  change (strict_eq (Str (themeToggle b)) (Str "cycle"))
    with (String.eqb (themeToggle b) "cycle") in Happly |- *.
  destruct (String.eqb (themeToggle b) "cycle") eqn:Ec.
  - rewrite <- cycle_target_cases.
    destruct (Happly (cycle_target (Bundle.currentTheme (this st))))
      as (st' & L1 & L2 & L3);
      [apply includes_cycle_target | apply Bundle_cycleTheme_eq |].
    exists st'. by rewrite L2.
  - destruct (includes Bundle.themes (Str (themeToggle b))) eqn:E.
    + destruct (Happly (Str (themeToggle b)) E eq_refl)
        as (st' & L1 & L2 & L3).
      exists st'. by rewrite <- L2.
    + exists st. split; [|done].
      unfold Bundle.toggle_click_listener, Bundle.on_toggle_click.
      change (strict_eq (Str (themeToggle b)) (Str "cycle"))
        with (String.eqb (themeToggle b) "cycle").
      by rewrite Ec, E.
Qed.

(** X17. A click on a toggle button of part_003.  The listener never
    throws and always prevents the default action of the click.  On a
    [cycle] button it leaves the page with the next preference in the
    order light, dark, auto (light when the preference was none of
    them); on a button whose mode is one of the three themes, with that
    mode as the preference.  In both cases [data-theme] holds the theme
    the new preference resolves to with the cached system theme, one
    [themechange] event carrying it is dispatched, the class
    [theme-transitioning] is on the root element, and a writable
    localStorage holds the new preference.  On a button with an empty
    mode the listener changes nothing.  On a button with any other mode
    it applies no theme: manager, document, localStorage, events and
    timers are as before, and the warning that the theme is not
    available is logged.  A click that reaches no toggle button changes
    nothing. *)
Theorem X17_core_toggle_click
  (i : nat) (st : State Core.ThemeManager) :
  match toggles (document (world st)) !! i with
  | None => Core.handle (ToggleClick i) st = (Normal tt, st)
  | Some b =>
      let cur := Core.currentTheme (this st) in
      let sys := Core.systemTheme (this st) in
      let applied (p : value) (st' : State Core.ThemeManager) :=
        let actual :=
          if strict_eq p (Str "auto") then or_else sys (Str "light")
          else p in
        this st' = {| Core.currentTheme := p; Core.systemTheme := sys |} /\
        data_theme (document (world st')) = Some (ToString actual) /\
        dispatched (world st') =
          dispatched (world st) ++
          [{| type := "themechange";
              detail := [("theme", p); ("appliedTheme", actual);
                         ("systemTheme", sys)] |}] /\
        "theme-transitioning" ∈ classList (document (world st')) /\
        timers (world st') = timers (world st) ++ [RemoveTransitionClass] /\
        (write_fault (localStorage (world st)) = None ->
         stored_theme st' = Some (ToString p)) in
      exists st',
        Core.toggle_click_listener b st = (Normal true, st') /\
        Core.handle (ToggleClick i) st = (Normal tt, st') /\
        if String.eqb (themeToggle b) "cycle" then
          applied (if includes Core.themes cur then spec_next cur
                   else Str "light") st'
        else if String.eqb (themeToggle b) "" then st' = st
        else if includes Core.themes (Str (themeToggle b)) then
          applied (Str (themeToggle b)) st'
        else
          this st' = this st /\
          document (world st') = document (world st) /\
          localStorage (world st') = localStorage (world st) /\
          prefers_dark (world st') = prefers_dark (world st) /\
          dispatched (world st') = dispatched (world st) /\
          timers (world st') = timers (world st) /\
          console (world st') =
            console (world st) ++
            [console_warn [AStr ("Theme " +:+ dquote +:+ themeToggle b
                                 +:+ dquote +:+ " is not available")]]
  end.
Proof.
  rewrite Core_handle_ToggleClick.
  destruct (_ !! i) as [b|]; [|done].
  cbv zeta.
  assert (Happly : forall p,
    Core.on_toggle_click b st = Core.applyTheme p true st ->
    exists st',
      Core.toggle_click_listener b st = (Normal true, st') /\
      Core.on_toggle_click b st = (Normal tt, st') /\
      this st' = {| Core.currentTheme := p;
                    Core.systemTheme := Core.systemTheme (this st) |} /\
      data_theme (document (world st'))
      = Some (ToString
                (if strict_eq p (Str "auto")
                 then or_else (Core.systemTheme (this st)) (Str "light")
                 else p)) /\
      dispatched (world st') =
        dispatched (world st) ++
        [{| type := "themechange";
            detail :=
              [("theme", p);
               ("appliedTheme",
                if strict_eq p (Str "auto")
                then or_else (Core.systemTheme (this st)) (Str "light")
                else p);
               ("systemTheme", Core.systemTheme (this st))] |}] /\
      "theme-transitioning" ∈ classList (document (world st')) /\
      timers (world st') = timers (world st) ++ [RemoveTransitionClass] /\
      (write_fault (localStorage (world st)) = None ->
       stored_theme st' = Some (ToString p))).
  { intros p Heq.
    destruct (Core_applyTheme_spec p true st)
      as (H1 & H2 & H3 & H4 & _ & _ & _ & H8 & _).
    destruct (Core_applyTheme_document p true st) as [D T].
    exists (Core.applyTheme p true st).2.
    split; [|split; [|split; [|split; [|split; [|split; [|split]]]]]].
    - rewrite Core_toggle_click_listener_eq by (by rewrite Heq).
      by rewrite Heq.
    - rewrite Heq. by apply pair_eta.
    - exact H2.
    - exact H3.
    - exact H4.
    - rewrite D. cbn [classList]. apply classList_add_elem.
    - exact T.
    - intros W. unfold stored_theme. rewrite H8, W. apply lookup_insert_eq. }
  assert (Hskip : forall s,
    Core.on_toggle_click b st = (Normal tt, s) ->
    Core.toggle_click_listener b st = (Normal true, s)).
  { intros s Heq.
    rewrite Core_toggle_click_listener_eq by (by rewrite Heq).
    by rewrite Heq. }
  unfold Core.on_toggle_click in Happly, Hskip |- *.
  change (strict_eq (Str (themeToggle b)) (Str "cycle"))
    with (String.eqb (themeToggle b) "cycle") in Happly, Hskip |- *.
  destruct (String.eqb (themeToggle b) "cycle").
  - rewrite <- cycle_target_cases.
    destruct (Happly (cycle_target (Core.currentTheme (this st))))
      as (st' & L1 & L2 & L3); [apply Core_cycleTheme_eq|].
    exists st'. by rewrite L2.
  - destruct (String.eqb (themeToggle b) "") eqn:E.
    + assert (Ht : truthy (Str (themeToggle b)) = false)
        by (cbn [truthy]; by rewrite E).
      rewrite Ht in Hskip |- *. cbn [when] in Hskip |- *.
      exists st. split; [by apply Hskip | done].
    + assert (Ht : truthy (Str (themeToggle b)) = true)
        by (cbn [truthy]; by rewrite E).
      rewrite Ht in Happly, Hskip |- *. cbn [when] in Happly, Hskip |- *.
      destruct (includes Core.themes (Str (themeToggle b))) eqn:Hi.
      * destruct (Happly (Str (themeToggle b))
                    (Core_setTheme_valid _ _ Hi))
          as (st' & L1 & L2 & L3).
        exists st'. by rewrite L2.
      * rewrite (Core_setTheme_invalid _ _ Hi) in Hskip |- *.
        eexists. split; [by apply Hskip|]. split; [reflexivity|].
        cbn [snd ToString].
        match goal with |- context [log ?e st] =>
          destruct (log_state e st) as (-> & -> & -> & -> & -> & ->) end.
        repeat apply conj; reflexivity.
Qed.

End StorageAndClicks.

(** ** Buttons made by [createToggleButton] *)

Section CreatedButtons.

Lemma Core_createToggleButton_eq config st :
  let cur := Core.currentTheme (this st) in
  Core.createToggleButton config st =
  (Normal
     (Core.updateToggleButton cur
        {| themeToggle := ToString (Core.type config);
           aria_label := Some (ToString (Core.ariaLabel config));
           textContent :=
             (if Core.showIcon config then Core.icons_text else "") +:+
             (if Core.showText config then ToNullableString cur else "");
           has_svg := Core.showIcon config;
           aria_pressed := None;
           theme_text :=
             if Core.showText config then Some (ToNullableString cur)
             else None;
           theme_icons :=
             if Core.showIcon config
             then [("light", ""); ("dark", ""); ("auto", "")]
             else [] |}), st).
Proof.
  destruct config as [ty st' si al]. destruct st as [w t].
  unfold Core.createToggleButton.
  cbn [Core.type Core.showText Core.showIcon Core.ariaLabel this].
  destruct st', si; try reflexivity.
  all: unfold mbind, M_bind, mret, M_ret, Core.get_currentTheme, gets;
    cbn [this]; repeat f_equal.
  all: by destruct (ToNullableString _).
Qed.

(** X18. [createToggleButton] of part_003 returns a button that already
    shows the preference and leaves the page and the manager untouched.
    The button carries the requested mode and label; [aria-pressed] is
    true exactly when the mode is the preference; with [showText] it has
    a text child holding the preference, otherwise it has none and its
    own text is white space only; with [showIcon] it has the three
    icons light, dark and auto, of which exactly the one of the
    preference is displayed. *)
Theorem X18_core_createToggleButton_shows_preference
  (config : Core.ToggleOptions) (st : State Core.ThemeManager) :
  let cur := Core.currentTheme (this st) in
  exists b,
    Core.createToggleButton config st = (Normal b, st) /\
    themeToggle b = ToString (Core.type config) /\
    aria_label b = Some (ToString (Core.ariaLabel config)) /\
    aria_pressed b = Some (strict_eq (Str (ToString (Core.type config))) cur) /\
    (if Core.showText config
     then theme_text b = Some (ToNullableString cur)
     else theme_text b = None /\ trim (textContent b) = "") /\
    has_svg b = Core.showIcon config /\
    theme_icons b =
      (if Core.showIcon config
       then [("light", if strict_eq (Str "light") cur then "block" else "none");
             ("dark", if strict_eq (Str "dark") cur then "block" else "none");
             ("auto", if strict_eq (Str "auto") cur then "block" else "none")]
       else []).
Proof.
  cbv zeta. eexists. split; [apply Core_createToggleButton_eq|].
  unfold Core.updateToggleButton.
  cbn [themeToggle aria_label aria_pressed theme_text textContent has_svg
       theme_icons].
  split; [done|]. split; [done|]. split; [done|]. split.
  - destruct (Core.showText config); [done|]. split; [done|].
    by destruct (Core.showIcon config).
  - split; [done|]. by destruct (Core.showIcon config).
Qed.

(** X19. The click handler of a created button against the handler the
    buttons of the page get.  For every mode but the empty string the
    two handlers do the same: [cycleTheme] for [cycle], [setTheme] of
    the mode otherwise (a warning for an unknown one).  For the empty
    mode the page's handler ignores the click, while the created
    button's handler calls [setTheme] with the empty string, which
    changes nothing but logs the warning that the theme is not
    available. *)
Theorem X19_core_created_button_click
  (config : Core.ToggleOptions) (st : State Core.ThemeManager) :
  exists b,
    Core.createToggleButton config st = (Normal b, st) /\
    if strict_eq (Core.type config) (Str "")
    then Core.on_toggle_click b st = (Normal tt, st) /\
         Core.created_button_click config st =
         (Normal tt,
          (log (console_warn
                  [AStr ("Theme " +:+ dquote +:+ dquote
                         +:+ " is not available")]) st).2)
    else Core.created_button_click config st = Core.on_toggle_click b st.
Proof.
  eexists. split; [apply Core_createToggleButton_eq|].
  unfold Core.created_button_click, Core.on_toggle_click.
  unfold Core.updateToggleButton. cbn [themeToggle].
  destruct (Core.type config) as [| |s].
  - reflexivity.
  - reflexivity.
  - cbn [ToString strict_eq truthy].
    destruct (String.eqb s "cycle") eqn:Ec.
    + apply String.eqb_eq in Ec as ->. reflexivity.
    + destruct (String.eqb s "") eqn:Ee.
      * apply String.eqb_eq in Ee as ->. split; reflexivity.
      * reflexivity.
Qed.

End CreatedButtons.

(** * Properties of the accessibility manager *)

Section ArrowKeys.

Lemma A11y_indexOf_from_spec l x i :
  (A11y.indexOf_from l x i = -1 /\ x ∉ l \/
   exists n, A11y.indexOf_from l x i = i + Z.of_nat n /\ l !! n = Some x)%Z.
Proof.
  revert i. induction l as [|y l IH]; intros i; cbn [A11y.indexOf_from].
  - left. split; [done | apply not_elem_of_nil].
  - destruct (Nat.eqb y x) eqn:E.
    + apply Nat.eqb_eq in E as ->. right. exists 0%nat.
      split; [lia | done].
    + apply Nat.eqb_neq in E.
      destruct (IH (i + 1)%Z) as [[H1 H2] | (n & H1 & H2)].
      * left. split; [done|]. rewrite not_elem_of_cons. by split.
      * right. exists (S n). split; [lia | done].
Qed.

Lemma A11y_indexOf_from_lookup l x i n :
  NoDup l -> l !! n = Some x ->
  A11y.indexOf_from l x i = (i + Z.of_nat n)%Z.
Proof.
  revert i n. induction l as [|y l IH]; intros i n Hnd Hn; [done|].
  apply NoDup_cons in Hnd as [Hy Hnd]. cbn [A11y.indexOf_from].
  destruct n as [|n]; cbn in Hn.
  - injection Hn as ->. rewrite Nat.eqb_refl. lia.
  - destruct (Nat.eqb y x) eqn:E.
    + apply Nat.eqb_eq in E as ->. exfalso. apply Hy.
      by eapply list_elem_of_lookup_2.
    + rewrite (IH (i + 1)%Z n Hnd Hn). lia.
Qed.

Lemma A11y_item_nat l n : A11y.item l (Z.of_nat n) = l !! n.
Proof.
  unfold A11y.item. destruct (Z.ltb_spec (Z.of_nat n) 0); [lia|].
  by rewrite Nat2Z.id.
Qed.

Lemma A11y_arrow_forward l n x key :
  NoDup l -> l !! n = Some x ->
  key = "ArrowDown" \/ key = "ArrowRight" ->
  A11y.handleArrowNavigation (Some l) x key =
  A11y.Done (l !! (if decide (S n < length l) then S n else 0)%nat) /\
  is_Some (l !! (if decide (S n < length l) then S n else 0)%nat).
Proof.
  intros Hnd Hn Hkey.
  pose proof (lookup_lt_Some _ _ _ Hn) as Hlt.
  assert (Hsome : is_Some (l !! (if decide (S n < length l) then S n else 0)%nat)).
  { apply lookup_lt_is_Some. destruct (decide _); lia. }
  split; [|exact Hsome].
  unfold A11y.handleArrowNavigation, A11y.indexOf.
  rewrite (A11y_indexOf_from_lookup l x 0 n Hnd Hn).
  destruct (Z.eqb_spec (0 + Z.of_nat n) (-1)); [lia|].
  assert (Hk : String.eqb key "ArrowDown" || String.eqb key "ArrowRight" = true)
    by (by destruct Hkey as [-> | ->]).
  rewrite Hk. cbv zeta.
  destruct (decide (S n < length l)) as [Hs | Hs].
  - destruct (Z.geb_spec (0 + Z.of_nat n + 1) (Z.of_nat (length l))); [lia|].
    replace (0 + Z.of_nat n + 1)%Z with (Z.of_nat (S n)) by lia.
    rewrite A11y_item_nat. destruct Hsome as [e He]. by rewrite He.
  - destruct (Z.geb_spec (0 + Z.of_nat n + 1) (Z.of_nat (length l))); [|lia].
    change 0%Z with (Z.of_nat 0).
    rewrite A11y_item_nat. destruct Hsome as [e He]. by rewrite He.
Qed.

Lemma A11y_arrow_backward l n x key :
  NoDup l -> l !! n = Some x ->
  key = "ArrowUp" \/ key = "ArrowLeft" ->
  A11y.handleArrowNavigation (Some l) x key =
  A11y.Done (l !! (match n with O => length l - 1 | S m => m end)%nat) /\
  is_Some (l !! (match n with O => length l - 1 | S m => m end)%nat).
Proof.
  intros Hnd Hn Hkey.
  pose proof (lookup_lt_Some _ _ _ Hn) as Hlt.
  assert (Hsome : is_Some (l !! (match n with O => length l - 1 | S m => m end)%nat)).
  { apply lookup_lt_is_Some. destruct n; lia. }
  split; [|exact Hsome].
  unfold A11y.handleArrowNavigation, A11y.indexOf.
  rewrite (A11y_indexOf_from_lookup l x 0 n Hnd Hn).
  destruct (Z.eqb_spec (0 + Z.of_nat n) (-1)); [lia|].
  assert (Hk : String.eqb key "ArrowDown" || String.eqb key "ArrowRight" = false)
    by (by destruct Hkey as [-> | ->]).
  assert (Hk' : String.eqb key "ArrowUp" || String.eqb key "ArrowLeft" = true)
    by (by destruct Hkey as [-> | ->]).
  rewrite Hk, Hk'. cbv zeta.
  destruct n as [|m].
  - destruct (Z.ltb_spec (0 + Z.of_nat 0 - 1) 0); [|lia].
    replace (Z.of_nat (length l) - 1)%Z with (Z.of_nat (length l - 1)) by lia.
    rewrite A11y_item_nat. destruct Hsome as [e He]. by rewrite He.
  - destruct (Z.ltb_spec (0 + Z.of_nat (S m) - 1) 0); [lia|].
    replace (0 + Z.of_nat (S m) - 1)%Z with (Z.of_nat m) by lia.
    rewrite A11y_item_nat. destruct Hsome as [e He]. by rewrite He.
Qed.

(** X20. Arrow-key navigation never fails and never leaves the list.
    [handleArrowNavigation] always returns, whatever the list, the
    target and the key.  It moves the focus (and prevents the default
    action) exactly when the target is one of the items and the key is
    an arrow key, and the element it focuses is then one of the items;
    in every other case it does nothing. *)
Theorem X20_arrow_navigation_stays_in_list
  (items : option (list nat)) (target : nat) (key : string) :
  exists r,
    A11y.handleArrowNavigation items target key = A11y.Done r /\
    match r with
    | Some e =>
        exists l, items = Some l /\ target ∈ l /\ e ∈ l /\
                  key ∈ A11y.arrow_keys
    | None =>
        items = None \/ (exists l, items = Some l /\ target ∉ l) \/
        key ∉ A11y.arrow_keys
    end.
Proof.
  destruct items as [l|]; [|exists None; split; [done | by left]].
  unfold A11y.handleArrowNavigation, A11y.indexOf.
  destruct (A11y_indexOf_from_spec l target 0) as [[-> Hn] | (n & -> & Hn)].
  { exists None. split; [done|]. right; left. by exists l. }
  pose proof (lookup_lt_Some _ _ _ Hn) as Hlt.
  pose proof (list_elem_of_lookup_2 _ _ _ Hn) as Hin.
  destruct (Z.eqb_spec (0 + Z.of_nat n) (-1)); [lia|].
  assert (Hitem : forall k, (k < length l)%nat ->
            exists e, A11y.item l (Z.of_nat k) = Some e /\ e ∈ l).
  { intros k Hk. rewrite A11y_item_nat.
    destruct (lookup_lt_is_Some_2 l k Hk) as [e He].
    exists e. split; [done | by eapply list_elem_of_lookup_2]. }
  unfold A11y.arrow_keys.
  destruct (String.eqb key "ArrowDown") eqn:E1;
    [|destruct (String.eqb key "ArrowRight") eqn:E2;
      [|destruct (String.eqb key "ArrowUp") eqn:E3;
        [|destruct (String.eqb key "ArrowLeft") eqn:E4]]];
    cbn [orb]; cbv zeta.
  5: { exists None. split; [done|]. right; right.
       apply String.eqb_neq in E1, E2, E3, E4.
       rewrite !not_elem_of_cons. repeat split; try done.
       apply not_elem_of_nil. }
  1, 2: destruct (Z.geb_spec (0 + Z.of_nat n + 1) (Z.of_nat (length l)));
    [destruct (Hitem 0%nat ltac:(lia)) as (e & He & Hel);
     change (Z.of_nat 0) with 0%Z in He
    |destruct (Hitem (S n) ltac:(lia)) as (e & He & Hel);
     replace (Z.of_nat (S n)) with (0 + Z.of_nat n + 1)%Z in He by lia];
    rewrite He; exists (Some e); (split; [done|]); exists l;
    (repeat split; try done).
  5, 6: destruct (Z.ltb_spec (0 + Z.of_nat n - 1) 0);
    [destruct (Hitem (length l - 1)%nat ltac:(lia)) as (e & He & Hel);
     replace (Z.of_nat (length l - 1)) with (Z.of_nat (length l) - 1)%Z
       in He by lia
    |destruct (Hitem (n - 1)%nat ltac:(lia)) as (e & He & Hel);
     replace (Z.of_nat (n - 1)) with (0 + Z.of_nat n - 1)%Z in He by lia];
    rewrite He; exists (Some e); (split; [done|]); exists l;
    (repeat split; try done).
  - apply String.eqb_eq in E1 as ->. set_solver.
  - apply String.eqb_eq in E1 as ->. set_solver.
  - apply String.eqb_eq in E2 as ->. set_solver.
  - apply String.eqb_eq in E2 as ->. set_solver.
  - apply String.eqb_eq in E3 as ->. set_solver.
  - apply String.eqb_eq in E3 as ->. set_solver.
  - apply String.eqb_eq in E4 as ->. set_solver.
  - apply String.eqb_eq in E4 as ->. set_solver.
Qed.

(** X21. The arrow keys undo each other.  In a list of distinct items,
    from any item, a forward key (down or right) followed on the newly
    focused item by a backward key (up or left) focuses the item one
    started from, and so does a backward key followed by a forward key;
    this includes the wrap from the last item to the first and from the
    first to the last. *)
Theorem X21_arrow_keys_are_inverse
  (l : list nat) (target : nat) (fwd back : string) :
  NoDup l -> target ∈ l ->
  fwd = "ArrowDown" \/ fwd = "ArrowRight" ->
  back = "ArrowUp" \/ back = "ArrowLeft" ->
  (exists e, A11y.handleArrowNavigation (Some l) target fwd
             = A11y.Done (Some e) /\
             A11y.handleArrowNavigation (Some l) e back
             = A11y.Done (Some target)) /\
  (exists e, A11y.handleArrowNavigation (Some l) target back
             = A11y.Done (Some e) /\
             A11y.handleArrowNavigation (Some l) e fwd
             = A11y.Done (Some target)).
Proof.
  intros Hnd [n Hn]%list_elem_of_lookup_1 Hf Hb.
  pose proof (lookup_lt_Some _ _ _ Hn) as Hlt.
  split.
  - destruct (A11y_arrow_forward l n target fwd Hnd Hn Hf) as [H1 [e He]].
    exists e. rewrite H1, He. split; [done|].
    destruct (A11y_arrow_backward l _ e back Hnd He Hb) as [H2 _].
    rewrite H2. f_equal. rewrite <- Hn. f_equal.
    destruct (decide (S n < length l)); lia.
  - destruct (A11y_arrow_backward l n target back Hnd Hn Hb) as [H1 [e He]].
    exists e. rewrite H1, He. split; [done|].
    destruct (A11y_arrow_forward l _ e fwd Hnd He Hf) as [H2 _].
    rewrite H2. f_equal. rewrite <- Hn. f_equal.
    destruct n as [|m]; destruct (decide _); lia.
Qed.

Lemma X21_witness :
  A11y.handleArrowNavigation (Some [3; 5; 8]%nat) 8%nat "ArrowDown"
  = A11y.Done (Some 3%nat) /\
  A11y.handleArrowNavigation (Some [3; 5; 8]%nat) 3%nat "ArrowUp"
  = A11y.Done (Some 8%nat).
Proof.
  destruct (X21_arrow_keys_are_inverse [3; 5; 8]%nat 8%nat
              "ArrowDown" "ArrowUp") as [(e & H1 & H2) _].
  - apply (bool_decide_unpack _). vm_compute. exact I.
  - apply (bool_decide_unpack _). vm_compute. exact I.
  - left. reflexivity.
  - left. reflexivity.
  - assert (e = 3%nat) as -> by (vm_compute in H1; congruence).
    split; [exact H1 | exact H2].
Defined.

End ArrowKeys.

Section FocusTraps.

Lemma head_last_Some {A} (l : list A) :
  is_Some (head l) <-> is_Some (last l).
Proof.
  destruct l as [|x l]; [done|]. split; intros _; [|by eexists].
  rewrite last_cons. destruct (last l); by eexists.
Qed.

(** X22. The Tab handler of a focus trap never fails, and wraps the
    focus at the two ends, and only there.  With an active trap,
    Shift+Tab while the first focusable element of the trap is active
    calls [focus()] on the last one, and Tab while the last one is
    active calls [focus()] on the first; in these two cases, and in no
    other, the default action is prevented.  The element focused is
    one of the trap, and becomes the active element when it can take
    the focus.  In every other case (no active trap, a trap without
    focusable elements, the focus elsewhere) the handler changes
    nothing.  It never changes the active trap or the remembered
    element, and [handleTabNavigation] does the same as
    [manageFocusTrap]. *)
Theorem X22_focus_trap_wraps_at_the_ends
  (focusable : nat -> bool) (focusableElements : nat -> list nat)
  (shiftKey : bool) (st : A11y.Focus) :
  let at_end :=
    match A11y.currentFocusTrap st, A11y.activeElement st with
    | Some trap, Some a =>
        if shiftKey
        then bool_decide (head (focusableElements trap) = Some a)
        else bool_decide (last (focusableElements trap) = Some a)
    | _, _ => false
    end in
  exists st',
    A11y.manageFocusTrap focusable focusableElements shiftKey st
    = A11y.Done (at_end, st') /\
    A11y.handleTabNavigation focusable focusableElements shiftKey st
    = A11y.Done (at_end, st') /\
    A11y.currentFocusTrap st' = A11y.currentFocusTrap st /\
    A11y.lastFocusedElement st' = A11y.lastFocusedElement st /\
    if at_end
    then exists trap e,
           A11y.currentFocusTrap st = Some trap /\
           (if shiftKey
            then last (focusableElements trap) = Some e
            else head (focusableElements trap) = Some e) /\
           e ∈ focusableElements trap /\
           st' = A11y.focus focusable e st /\
           A11y.activeElement st' =
             (if focusable e then Some e else A11y.activeElement st)
    else st' = st.
Proof.
  unfold A11y.handleTabNavigation, A11y.manageFocusTrap.
  destruct (A11y.currentFocusTrap st) as [trap|] eqn:Htrap;
    [|by exists st].
  cbv zeta.
  assert (Hfocus : forall e,
             A11y.currentFocusTrap (A11y.focus focusable e st)
             = A11y.currentFocusTrap st /\
             A11y.lastFocusedElement (A11y.focus focusable e st)
             = A11y.lastFocusedElement st /\
             A11y.activeElement (A11y.focus focusable e st)
             = (if focusable e then Some e else A11y.activeElement st)).
  { intros e. unfold A11y.focus. by destruct (focusable e). }
  assert (Hsame : forall a b,
             A11y.same_element a b =
             match a with
             | Some x => bool_decide (b = Some x)
             | None => false
             end).
  { intros [x|] [y|]; cbn [A11y.same_element]; [| |done|done].
    - destruct (Nat.eqb_spec x y) as [-> | Hne].
      + by rewrite bool_decide_eq_true_2.
      + rewrite bool_decide_eq_false_2; [done | congruence].
    - by rewrite bool_decide_eq_false_2. }
  rewrite !Hsame.
  destruct (A11y.activeElement st) as [a|] eqn:Ha.
  2: { exists st. rewrite Htrap. by destruct shiftKey. }
  destruct shiftKey; cbn [andb negb].
  - destruct (bool_decide (head (focusableElements trap) = Some a)) eqn:E;
      [|exists st; by rewrite Htrap].
    apply bool_decide_eq_true_1 in E.
    destruct (proj1 (head_last_Some (focusableElements trap))
                (ex_intro _ a E)) as [e He].
    rewrite He. exists (A11y.focus focusable e st).
    destruct (Hfocus e) as (F1 & F2 & F3).
    split; [done|]. split; [done|]. rewrite F1, F2, Htrap.
    split; [done|]. split; [done|].
    exists trap, e. split; [done|]. split; [done|].
    split; [|split; [reflexivity | exact F3]].
    rewrite last_lookup in He. by eapply list_elem_of_lookup_2.
  - destruct (bool_decide (last (focusableElements trap) = Some a)) eqn:E;
      [|exists st; by rewrite Htrap].
    apply bool_decide_eq_true_1 in E.
    destruct (proj2 (head_last_Some (focusableElements trap))
                (ex_intro _ a E)) as [e He].
    rewrite He. exists (A11y.focus focusable e st).
    destruct (Hfocus e) as (F1 & F2 & F3).
    split; [done|]. split; [done|]. rewrite F1, F2, Htrap.
    split; [done|]. split; [done|].
    exists trap, e. split; [done|]. split; [done|].
    split; [|split; [reflexivity | exact F3]].
    rewrite head_lookup in He. by eapply list_elem_of_lookup_2.
Qed.

(** X23. Leaving a focus trap gives the focus back.  When an element
    that can take the focus is active, [enterFocusTrap] followed by
    [exitFocusTrap] leaves that element active again, with no trap
    active and no element remembered, whatever the trap contains. *)
Theorem X23_focus_returns_after_trap
  (focusable : nat -> bool) (focusableElements : nat -> list nat)
  (trap a : nat) (st : A11y.Focus) :
  A11y.activeElement st = Some a ->
  focusable a = true ->
  let st' := A11y.exitFocusTrap focusable
               (A11y.enterFocusTrap focusable focusableElements trap st) in
  st' = {| A11y.activeElement := Some a;
           A11y.currentFocusTrap := None;
           A11y.lastFocusedElement := None |}.
Proof.
  intros Ha Hf. cbv zeta. destruct st as [ae tr lf]. cbn in Ha. subst ae.
  unfold A11y.enterFocusTrap, A11y.exitFocusTrap, A11y.focus.
  cbn [A11y.activeElement A11y.currentFocusTrap A11y.lastFocusedElement].
  destruct (head (focusableElements trap)) as [f|];
    [destruct (focusable f)|];
    cbn [A11y.activeElement A11y.currentFocusTrap A11y.lastFocusedElement];
    rewrite Hf; reflexivity.
Qed.

(** X24. The manager remembers one element only.  When a second trap is
    entered while a first one is active, leaving both does not give the
    focus back to the element that was active before the first: the
    focus ends on the first focusable element of the first trap, and
    the second [exitFocusTrap] changes nothing. *)
Theorem X24_nested_traps_lose_the_outer_focus
  (focusable : nat -> bool) (focusableElements : nat -> list nat)
  (t1 t2 a f1 : nat) (st : A11y.Focus) :
  A11y.activeElement st = Some a ->
  head (focusableElements t1) = Some f1 ->
  focusable f1 = true ->
  let inner := A11y.enterFocusTrap focusable focusableElements t2
                 (A11y.enterFocusTrap focusable focusableElements t1 st) in
  let once := A11y.exitFocusTrap focusable inner in
  let twice := A11y.exitFocusTrap focusable once in
  once = {| A11y.activeElement := Some f1;
            A11y.currentFocusTrap := None;
            A11y.lastFocusedElement := None |} /\
  twice = once.
Proof.
  intros Ha Hh Hf. cbv zeta. destruct st as [ae tr lf]. cbn in Ha. subst ae.
  unfold A11y.enterFocusTrap, A11y.exitFocusTrap, A11y.focus.
  cbn [A11y.activeElement A11y.currentFocusTrap A11y.lastFocusedElement].
  rewrite Hh, Hf.
  cbn [A11y.activeElement A11y.currentFocusTrap A11y.lastFocusedElement].
  destruct (head (focusableElements t2)) as [f2|];
    [destruct (focusable f2)|];
    cbn [A11y.activeElement A11y.currentFocusTrap A11y.lastFocusedElement];
    rewrite Hf;
    cbn [A11y.activeElement A11y.currentFocusTrap A11y.lastFocusedElement];
    split; reflexivity.
Qed.

End FocusTraps.

Lemma X23_witness :
  A11y.exitFocusTrap (fun _ => true)
    (A11y.enterFocusTrap (fun _ => true) (fun _ => [4; 5; 6]%nat) 1%nat
       {| A11y.activeElement := Some 9%nat;
          A11y.currentFocusTrap := None;
          A11y.lastFocusedElement := None |})
  = {| A11y.activeElement := Some 9%nat;
       A11y.currentFocusTrap := None;
       A11y.lastFocusedElement := None |}.
Proof.
  apply (X23_focus_returns_after_trap (fun _ => true)
           (fun _ => [4; 5; 6]%nat) 1%nat 9%nat); reflexivity.
Defined.

Lemma X24_witness :
  A11y.activeElement
    (A11y.exitFocusTrap (fun _ => true)
       (A11y.exitFocusTrap (fun _ => true)
          (A11y.enterFocusTrap (fun _ => true)
             (fun t => if Nat.eqb t 1 then [4; 5]%nat else [7; 8]%nat) 2%nat
             (A11y.enterFocusTrap (fun _ => true)
                (fun t => if Nat.eqb t 1 then [4; 5]%nat else [7; 8]%nat) 1%nat
                {| A11y.activeElement := Some 9%nat;
                   A11y.currentFocusTrap := None;
                   A11y.lastFocusedElement := None |}))))
  = Some 4%nat.
Proof.
  destruct (X24_nested_traps_lose_the_outer_focus (fun _ => true)
              (fun t => if Nat.eqb t 1 then [4; 5]%nat else [7; 8]%nat)
              1%nat 2%nat 9%nat 4%nat
              {| A11y.activeElement := Some 9%nat;
                 A11y.currentFocusTrap := None;
                 A11y.lastFocusedElement := None |}) as [H1 H2];
    [reflexivity | reflexivity | reflexivity |].
  cbv zeta in H2. rewrite H2, H1. reflexivity.
Defined.

Section PreferenceClasses.

Lemma classList_add_other c x l :
  x <> c -> (x ∈ classList_add c l <-> x ∈ l).
Proof.
  intros Hx. unfold classList_add. destruct (existsb _ l); [done|].
  rewrite elem_of_app, list_elem_of_singleton.
  split; [intros [H | H]; [exact H | by subst] | by left].
Qed.

Lemma classList_remove_idem c l :
  classList_remove c (classList_remove c l) = classList_remove c l.
Proof.
  unfold classList_remove. induction l as [|x l IH]; [done|].
  cbn [List.filter]. destruct (negb (String.eqb x c)) eqn:E; [|done].
  cbn [List.filter]. by rewrite E, IH.
Qed.

(** What a change of one of the two media queries does to the root
    element's classes. *)
Lemma A11y_handle_preference_spec e st :
  let st' := A11y.handle_preference e st in
  A11y.color_scheme st' = A11y.color_scheme st /\
  match e with
  | A11y.ReducedMotionChange m =>
      A11y.isReducedMotion st' = m /\
      A11y.isHighContrast st' = A11y.isHighContrast st /\
      ("reduce-motion" ∈ A11y.classList st' <-> m = true) /\
      (forall c, c <> "reduce-motion" ->
                 (c ∈ A11y.classList st' <-> c ∈ A11y.classList st))
  | A11y.ContrastChange m =>
      A11y.isHighContrast st' = m /\
      A11y.isReducedMotion st' = A11y.isReducedMotion st /\
      ("high-contrast" ∈ A11y.classList st' <-> m = true) /\
      (forall c, c <> "high-contrast" ->
                 (c ∈ A11y.classList st' <-> c ∈ A11y.classList st))
  end.
Proof.
  destruct st as [rm hc cl cs].
  destruct e as [[] | []]; cbn; (split; [done|]);
    (split; [done|]); (split; [done|]); split.
  all: try (split; [done | intros _; apply classList_add_elem]).
  all: try (split; [by intros ?%classList_remove_not_elem | done]).
  all: intros c Hc;
    first [by apply classList_add_other | by apply classList_remove_other].
Qed.

(** X25. After the accessibility manager has been set up, and through
    every later change of the two media queries, the class
    [reduce-motion] is on the root element exactly when the manager
    holds that reduced motion is preferred; the class [high-contrast] is
    there whenever high contrast is preferred; every other class of the
    page is kept; and the page has a [color-scheme] meta tag, its own
    if it had one and [light dark] otherwise. *)
Theorem X25_preference_classes_after_setup
  (reduce contrast : bool) (classes : list string) (scheme : option string)
  (es : list A11y.preference_event) :
  let st := A11y.run_preference_events es
              (A11y.init_preferences reduce contrast classes scheme) in
  ("reduce-motion" ∈ A11y.classList st <-> A11y.isReducedMotion st = true) /\
  (A11y.isHighContrast st = true -> "high-contrast" ∈ A11y.classList st) /\
  (forall c, c <> "reduce-motion" -> c <> "high-contrast" ->
             (c ∈ A11y.classList st <-> c ∈ classes)) /\
  A11y.color_scheme st = Some (default "light dark" scheme).
Proof.
  cbv zeta.
  assert (Hinit :
    let st := A11y.init_preferences reduce contrast classes scheme in
    ("reduce-motion" ∈ A11y.classList st <-> A11y.isReducedMotion st = true) /\
    (A11y.isHighContrast st = true -> "high-contrast" ∈ A11y.classList st) /\
    (forall c, c <> "reduce-motion" -> c <> "high-contrast" ->
               (c ∈ A11y.classList st <-> c ∈ classes)) /\
    A11y.color_scheme st = Some (default "light dark" scheme)).
  { cbv zeta. unfold A11y.init_preferences, A11y.setupReducedMotion,
      A11y.setupColorPreferences, A11y.updateReducedMotionSettings.
    cbn [A11y.isReducedMotion A11y.isHighContrast A11y.classList
         A11y.color_scheme].
    split; [|split; [|split]].
    - destruct reduce.
      + split; [done | intros _; apply classList_add_elem].
      + split; [by intros ?%classList_remove_not_elem | done].
    - intros ->.
      assert (Hhc : "high-contrast" ∈ classList_add "high-contrast" classes)
        by apply classList_add_elem.
      destruct reduce.
      + by apply classList_add_other.
      + by apply classList_remove_other.
    - intros c H1 H2.
      transitivity (c ∈ (if contrast
                         then classList_add "high-contrast" classes
                         else classes)).
      + destruct reduce;
          [by apply classList_add_other | by apply classList_remove_other].
      + destruct contrast; [by apply classList_add_other | done].
    - by destruct scheme. }
  cbv zeta in Hinit.
  revert Hinit.
  generalize (A11y.init_preferences reduce contrast classes scheme).
  induction es as [|e es IH]; intros st Hst; [exact Hst|].
  cbn [A11y.run_preference_events]. apply IH.
  destruct Hst as (I1 & I2 & I3 & I4).
  destruct (A11y_handle_preference_spec e st) as [S0 S1].
  rewrite S0. destruct e as [m | m].
  - destruct S1 as (S1 & S2 & S3 & S4).
    rewrite S1, S2. split; [done|]. split; [|split; [|done]].
    + intros H. apply S4; [done | by apply I2].
    + intros c H1 H2. rewrite (S4 c H1). by apply I3.
  - destruct S1 as (S1 & S2 & S3 & S4).
    rewrite S1, S2. split; [|split; [|split; [|done]]].
    + by rewrite (S4 "reduce-motion").
    + intros ->. by apply S3.
    + intros c H1 H2. rewrite (S4 c H2). by apply I3.
Qed.

(** X26. A page that carries the class [high-contrast] while the system
    does not prefer high contrast keeps the class through the set-up of
    the accessibility manager; the first change of the contrast media
    query to "no preference" removes it.  After any change of that
    media query the class is there exactly when the query matches, and
    the same holds for [reduce-motion] and its media query; a change of
    one query leaves the class and the flag of the other alone, and
    handling the same change twice is the same as handling it once. *)
Theorem X26_contrast_class_is_only_removed_on_change
  (reduce m : bool) (classes : list string) (scheme : option string)
  (st : A11y.Preferences) :
  ("high-contrast" ∈ classes ->
   "high-contrast" ∈
     A11y.classList (A11y.init_preferences reduce false classes scheme)) /\
  ("high-contrast" ∈ A11y.classList (A11y.on_contrast_change m st)
   <-> m = true) /\
  ("reduce-motion" ∈ A11y.classList (A11y.on_reduced_motion_change m st)
   <-> m = true) /\
  ("reduce-motion" ∈ A11y.classList (A11y.on_contrast_change m st)
   <-> "reduce-motion" ∈ A11y.classList st) /\
  ("high-contrast" ∈ A11y.classList (A11y.on_reduced_motion_change m st)
   <-> "high-contrast" ∈ A11y.classList st) /\
  A11y.on_contrast_change m (A11y.on_contrast_change m st)
  = A11y.on_contrast_change m st /\
  A11y.on_reduced_motion_change m (A11y.on_reduced_motion_change m st)
  = A11y.on_reduced_motion_change m st.
Proof.
  split; [|split; [|split; [|split; [|split; [|split]]]]].
  - intros H. unfold A11y.init_preferences, A11y.setupReducedMotion,
      A11y.setupColorPreferences, A11y.updateReducedMotionSettings.
    cbn [A11y.isReducedMotion A11y.isHighContrast A11y.classList].
    destruct reduce;
      [by apply classList_add_other | by apply classList_remove_other].
  - apply (A11y_handle_preference_spec (A11y.ContrastChange m) st).
  - apply (A11y_handle_preference_spec (A11y.ReducedMotionChange m) st).
  - by apply (A11y_handle_preference_spec (A11y.ContrastChange m) st).
  - by apply (A11y_handle_preference_spec (A11y.ReducedMotionChange m) st).
  - destruct st as [rm hc cl cs].
    unfold A11y.on_contrast_change, A11y.updateContrastSettings.
    cbn [A11y.isReducedMotion A11y.isHighContrast A11y.classList
         A11y.color_scheme].
    destruct m; f_equal;
      [apply classList_add_idem | apply classList_remove_idem].
  - destruct st as [rm hc cl cs].
    unfold A11y.on_reduced_motion_change, A11y.updateReducedMotionSettings.
    cbn [A11y.isReducedMotion A11y.isHighContrast A11y.classList
         A11y.color_scheme].
    destruct m; f_equal;
      [apply classList_add_idem | apply classList_remove_idem].
Qed.

End PreferenceClasses.

Section LiveRegions.

Lemma lookup_create (k j : string) (m : gmap string string) :
  match m !! k with Some _ => m | None => <[k := ""]> m end !! j =
  match m !! j with
  | Some text => Some text
  | None => if String.eqb j k then Some "" else None
  end.
Proof.
  destruct (String.eqb_spec j k) as [-> | Hjk].
  - destruct (m !! k) eqn:E; [by rewrite E | by rewrite lookup_insert_eq].
  - destruct (m !! k) eqn:E; [|rewrite lookup_insert_ne by done];
      by destruct (m !! j).
Qed.

Lemma A11y_setupAriaLiveRegions_eq rs ts :
  A11y.setupAriaLiveRegions true
    {| A11y.regions := rs; A11y.timeouts := ts |}
  = {| A11y.regions :=
         match
           match rs !! "aria-live-polite" with
           | Some _ => rs
           | None => <["aria-live-polite" := ""]> rs
           end !! "aria-live-assertive"
         with
         | Some _ =>
             match rs !! "aria-live-polite" with
             | Some _ => rs
             | None => <["aria-live-polite" := ""]> rs
             end
         | None =>
             <["aria-live-assertive" := ""]>
               (match rs !! "aria-live-polite" with
                | Some _ => rs
                | None => <["aria-live-polite" := ""]> rs
                end)
         end;
       A11y.timeouts := ts |}.
Proof.
  unfold A11y.setupAriaLiveRegions. cbn [negb A11y.regions A11y.timeouts].
  destruct (rs !! "aria-live-polite"); cbn [A11y.regions A11y.timeouts].
  - by destruct (rs !! "aria-live-assertive").
  - by destruct (<["aria-live-polite" := ""]> rs !! "aria-live-assertive").
Qed.

Lemma A11y_setupAriaLiveRegions_lookup (st : A11y.Live) (id : string) :
  A11y.regions (A11y.setupAriaLiveRegions true st) !! id =
  match A11y.regions st !! id with
  | Some text => Some text
  | None =>
      if String.eqb id "aria-live-polite"
         || String.eqb id "aria-live-assertive"
      then Some "" else None
  end.
Proof.
  destruct st as [rs ts].
  rewrite A11y_setupAriaLiveRegions_eq. cbn [A11y.regions].
  rewrite !lookup_create.
  destruct (rs !! id); [done|].
  destruct (String.eqb id "aria-live-polite"); [done|].
  by destruct (String.eqb id "aria-live-assertive").
Qed.

Lemma A11y_setupAriaLiveRegions_present (st : A11y.Live) :
  is_Some (A11y.regions (A11y.setupAriaLiveRegions true st)
           !! "aria-live-polite") /\
  is_Some (A11y.regions (A11y.setupAriaLiveRegions true st)
           !! "aria-live-assertive") /\
  A11y.timeouts (A11y.setupAriaLiveRegions true st) = A11y.timeouts st.
Proof.
  rewrite !A11y_setupAriaLiveRegions_lookup.
  split; [|split].
  - destruct (A11y.regions st !! "aria-live-polite"); by eexists.
  - destruct (A11y.regions st !! "aria-live-assertive"); by eexists.
  - destruct st as [rs ts]. by rewrite A11y_setupAriaLiveRegions_eq.
Qed.

Lemma A11y_setupAriaLiveRegions_fixed (st : A11y.Live) :
  is_Some (A11y.regions st !! "aria-live-polite") ->
  is_Some (A11y.regions st !! "aria-live-assertive") ->
  A11y.setupAriaLiveRegions true st = st.
Proof.
  destruct st as [rs ts]. cbn [A11y.regions]. intros [p Hp] [a Ha].
  unfold A11y.setupAriaLiveRegions. cbn [negb A11y.regions A11y.timeouts].
  rewrite Hp. cbn [A11y.regions A11y.timeouts]. by rewrite Ha.
Qed.

(** X27. [setupAriaLiveRegions] creates what is missing and nothing
    else.  When live regions are enabled, both regions exist afterwards;
    a region that was already on the page keeps its text and a created
    one is empty; no other element changes and no callback is scheduled;
    and running it a second time changes nothing.  When live regions
    are disabled it does nothing. *)
Theorem X27_live_regions_setup (st : A11y.Live) (id : string) :
  let st' := A11y.setupAriaLiveRegions true st in
  is_Some (A11y.regions st' !! "aria-live-polite") /\
  is_Some (A11y.regions st' !! "aria-live-assertive") /\
  A11y.regions st' !! id =
    match A11y.regions st !! id with
    | Some text => Some text
    | None =>
        if String.eqb id "aria-live-polite"
           || String.eqb id "aria-live-assertive"
        then Some "" else None
    end /\
  A11y.timeouts st' = A11y.timeouts st /\
  A11y.setupAriaLiveRegions true st' = st' /\
  A11y.setupAriaLiveRegions false st = st.
Proof.
  cbv zeta.
  destruct (A11y_setupAriaLiveRegions_present st) as (Hp & Ha & Ht).
  split; [exact Hp|]. split; [exact Ha|].
  split; [apply A11y_setupAriaLiveRegions_lookup|].
  split; [exact Ht|].
  split; [by apply A11y_setupAriaLiveRegions_fixed | reflexivity].
Qed.

(** X28. An announcement reaches the region of its priority, after the
    timer.  With announcements enabled and the region on the page,
    [announce] empties the region at once and schedules the message; the
    region is the assertive one exactly when the priority is the string
    [assertive], and the polite one for every other priority, a missing
    one included.  When nothing else is pending, the timer then puts
    the message into that region.  No other element changes.  With
    announcements disabled the message is dropped silently. *)
Theorem X28_announcement_is_delivered
  (message priority : value) (st : A11y.Live) (id : string) :
  let region :=
    if strict_eq priority (Str "assertive") then "aria-live-assertive"
    else "aria-live-polite" in
  A11y.timeouts st = [] ->
  is_Some (A11y.regions st !! region) ->
  let st1 := A11y.announce true message priority st in
  let st2 := A11y.run_timeout st1 in
  A11y.regions st1 !! region = Some "" /\
  A11y.regions st2 !! region = Some (ToNullableString message) /\
  A11y.timeouts st2 = [] /\
  (id <> region ->
   A11y.regions st1 !! id = A11y.regions st !! id /\
   A11y.regions st2 !! id = A11y.regions st !! id) /\
  A11y.announce false message priority st = st.
Proof.
  intros region Ht [text Hr]. cbv zeta. destruct st as [rs ts].
  cbn [A11y.regions A11y.timeouts] in Ht, Hr. subst ts.
  assert (Hann : A11y.announce true message priority
                   {| A11y.regions := rs; A11y.timeouts := [] |}
                 = {| A11y.regions := <[region := ""]> rs;
                      A11y.timeouts := [(region, ToNullableString message)] |}).
  { unfold A11y.announce. cbn [negb A11y.regions A11y.timeouts].
    destruct priority as [| |s]; subst region; cbn [strict_eq] in *.
    - change (String.eqb "polite" "assertive") with false. cbv iota.
      by rewrite Hr.
    - by rewrite Hr.
    - by rewrite Hr. }
  rewrite Hann. unfold A11y.run_timeout. cbn [A11y.regions A11y.timeouts].
  rewrite !lookup_insert_eq.
  split; [done|]. split; [done|]. split; [done|]. split.
  - intros Hid. by rewrite !lookup_insert_ne.
  - unfold A11y.announce. by destruct priority.
Qed.

Lemma X28_witness :
  A11y.regions
    (A11y.run_timeout
       (A11y.announce true (Str "Modal closed") Undefined
          (A11y.setupAriaLiveRegions true
             {| A11y.regions := ∅; A11y.timeouts := [] |})))
    !! "aria-live-polite"
  = Some "Modal closed".
Proof.
  destruct (X28_announcement_is_delivered (Str "Modal closed") Undefined
              (A11y.setupAriaLiveRegions true
                 {| A11y.regions := ∅; A11y.timeouts := [] |})
              "aria-live-assertive") as (_ & H & _).
  - reflexivity.
  - vm_compute. by eexists.
  - exact H.
Defined.

(** X29. Announcements depend on the set-up of the live regions.  On a
    page that has neither live region, a manager constructed with live
    regions disabled drops every announcement silently, although
    announcements themselves are enabled: nothing is written and nothing
    is scheduled.  With live regions enabled the same announcement is
    scheduled for the region of its priority. *)
Theorem X29_announcement_needs_live_regions
  (message priority : value) (st : A11y.Live) :
  A11y.regions st !! "aria-live-polite" = None ->
  A11y.regions st !! "aria-live-assertive" = None ->
  A11y.announce true message priority (A11y.setupAriaLiveRegions false st)
  = st /\
  A11y.timeouts
    (A11y.announce true message priority (A11y.setupAriaLiveRegions true st))
  = A11y.timeouts st ++
    [(if strict_eq priority (Str "assertive") then "aria-live-assertive"
      else "aria-live-polite", ToNullableString message)].
Proof.
  intros Hp Ha. split.
  - unfold A11y.setupAriaLiveRegions, A11y.announce. cbn [negb].
    destruct (strict_eq _ _); by rewrite ?Hp, ?Ha.
  - destruct (A11y_setupAriaLiveRegions_present st) as (S1 & S2 & S3).
    assert (Hr : is_Some
                   (A11y.regions (A11y.setupAriaLiveRegions true st)
                    !! (if strict_eq priority (Str "assertive")
                        then "aria-live-assertive" else "aria-live-polite")))
      by (by destruct (strict_eq _ _)).
    destruct Hr as [text Hr].
    unfold A11y.announce at 1. cbn [negb].
    assert (Hpr : strict_eq
                    match priority with
                    | Undefined => Str "polite"
                    | _ => priority
                    end (Str "assertive")
                  = strict_eq priority (Str "assertive"))
      by (by destruct priority).
    rewrite Hpr, Hr. cbn [A11y.timeouts]. by rewrite S3.
Qed.

Lemma X29_witness :
  A11y.announce true (Str "Modal closed") (Str "assertive")
    (A11y.setupAriaLiveRegions false
       {| A11y.regions := ∅; A11y.timeouts := [] |})
  = {| A11y.regions := ∅; A11y.timeouts := [] |}.
Proof.
  destruct (X29_announcement_needs_live_regions
              (Str "Modal closed") (Str "assertive")
              {| A11y.regions := ∅; A11y.timeouts := [] |}) as [H _];
    [reflexivity | reflexivity | exact H].
Defined.

End LiveRegions.

(** * Properties of the component manager *)

Section Tabs.

Lemma Components_hide_panels_lookup (l : list Components.Tab)
  (h : gmap string bool) (id : string) :
  foldl Components.hide_panel h l !! id =
  match h !! id with
  | Some b =>
      Some (if decide (id ∈ (fun t => Components.element_id
                                        (Components.aria_controls t)) <$> l)
            then true else b)
  | None => None
  end.
Proof.
  revert h. induction l as [|t l IH]; intros h.
  - cbn [foldl]. destruct (h !! id); [|done].
    rewrite decide_False; [done | apply not_elem_of_nil].
  - cbn [foldl]. rewrite IH. unfold Components.hide_panel at 1. cbv zeta.
    rewrite fmap_cons.
    set (p := Components.element_id (Components.aria_controls t)).
    destruct (decide (id = p)) as [-> | Hne].
    + destruct (h !! p) as [b|] eqn:Hp.
      * rewrite lookup_insert_eq. f_equal.
        rewrite (decide_True (P := p ∈ p :: _)) by (apply elem_of_cons; by left).
        by destruct (decide _).
      * by rewrite Hp.
    + assert (Hl : (match h !! p with
                    | Some _ => <[p := true]> h
                    | None => h
                    end) !! id = h !! id).
      { destruct (h !! p); [by rewrite lookup_insert_ne | done]. }
      rewrite Hl. destruct (h !! id); [|done]. f_equal.
      destruct (decide (id ∈ _)) as [Hin | Hin];
        destruct (decide (id ∈ p :: _)) as [Hin' | Hin']; try done.
      * exfalso. apply Hin'. apply elem_of_cons; by right.
      * exfalso. apply elem_of_cons in Hin' as [? | ?]; done.
Qed.

(** X30. Activating a tab selects that tab and no other.  After
    [activateTab] on a tab of a tab list, that tab has
    [aria-selected="true"] and the class [active], every other tab of
    the list has [aria-selected="false"] and not the class, and no tab
    is added, removed or given another panel.  The panel the activated
    tab controls is shown; every other element controlled by a tab of
    the list is hidden; nothing else on the page is hidden or shown and
    no element is created.  A tab without [aria-controls] controls the
    element whose id is [null].  Without a tab list above the tab,
    nothing happens. *)
Theorem X30_activateTab_selects_exactly_one
  (st : Components.TabList) (i : nat) :
  i < length (Components.allTabs st) ->
  exists st' a,
    Components.allTabs st !! i = Some a /\
    Components.activateTab (Some st) i = Some st' /\
    length (Components.allTabs st') = length (Components.allTabs st) /\
    (forall j t,
       Components.allTabs st !! j = Some t ->
       Components.allTabs st' !! j =
       Some {| Components.aria_controls := Components.aria_controls t;
               Components.aria_selected :=
                 Some (if decide (j = i) then "true" else "false");
               Components.active := bool_decide (j = i) |}) /\
    (forall id,
       Components.hidden st' !! id =
       match Components.hidden st !! id with
       | Some b =>
           Some (if decide (id = Components.element_id
                                   (Components.aria_controls a))
                 then false
                 else if decide
                           (id ∈ (fun t => Components.element_id
                                             (Components.aria_controls t))
                                 <$> Components.allTabs st)
                      then true else b)
       | None => None
       end) /\
    Components.activateTab None i = None.
Proof.
  intros Hi. destruct (lookup_lt_is_Some_2 _ _ Hi) as [a Ha].
  unfold Components.activateTab. rewrite Ha. cbv zeta.
  eexists _, a. split; [done|]. split; [reflexivity|].
  cbn [Components.allTabs Components.hidden].
  split; [by rewrite length_insert, length_fmap|]. split; [|split; [|done]].
  - intros j t Hj. destruct (decide (j = i)) as [-> | Hne].
    + rewrite list_lookup_insert_eq by (by rewrite length_fmap).
      rewrite bool_decide_eq_true_2 by done. congruence.
    + rewrite list_lookup_insert_ne by done.
      rewrite list_lookup_fmap, Hj. cbn.
      by rewrite bool_decide_eq_false_2.
  - intros id.
    set (p := Components.element_id (Components.aria_controls a)).
    destruct (decide (id = p)) as [-> | Hne].
    + destruct (Components.hidden st !! p) as [b|] eqn:Hp.
      * by rewrite lookup_insert_eq.
      * by rewrite Components_hide_panels_lookup, Hp.
    + assert (Hl : (match Components.hidden st !! p with
                    | Some _ =>
                        <[p := false]>
                          (foldl Components.hide_panel (Components.hidden st)
                             (Components.allTabs st))
                    | None =>
                        foldl Components.hide_panel (Components.hidden st)
                          (Components.allTabs st)
                    end) !! id
                   = foldl Components.hide_panel (Components.hidden st)
                       (Components.allTabs st) !! id).
      { destruct (Components.hidden st !! p);
          [by rewrite lookup_insert_ne | done]. }
      rewrite Hl. apply Components_hide_panels_lookup.
Qed.

Lemma X30_witness :
  exists st',
    Components.activateTab
      (Some {| Components.allTabs :=
                 [{| Components.aria_controls := Some "panel-a";
                     Components.aria_selected := Some "true";
                     Components.active := true |};
                  {| Components.aria_controls := Some "panel-b";
                     Components.aria_selected := None;
                     Components.active := false |}];
               Components.hidden :=
                 {[ "panel-a" := false; "panel-b" := true ]} |}) 1
    = Some st' /\
    Components.hidden st' !! "panel-a" = Some true /\
    Components.hidden st' !! "panel-b" = Some false.
Proof.
  destruct (X30_activateTab_selects_exactly_one
              {| Components.allTabs :=
                   [{| Components.aria_controls := Some "panel-a";
                       Components.aria_selected := Some "true";
                       Components.active := true |};
                    {| Components.aria_controls := Some "panel-b";
                       Components.aria_selected := None;
                       Components.active := false |}];
                 Components.hidden :=
                   {[ "panel-a" := false; "panel-b" := true ]} |} 1)
    as (st' & a & Ha & H1 & _ & _ & H3 & _).
  - cbn. lia.
  - exists st'. split; [exact H1|].
    injection Ha as <-.
    split; rewrite H3; vm_compute; reflexivity.
Defined.

End Tabs.
